(** * react-byblos: the dependent-stage pipeline of the [Byblos] component

    A shallow embedding of [src/Byblos.tsx].  The component chains three
    [useFetch] stages (raw bytes, PDF document, PDF page), reacts to their
    results through [useEffect] callbacks and finally paints the page on a
    canvas.  Render passes are embedded as a function from the props and the
    hook state to the new hook state, the rendered output and the log of
    calls made to the outside world. *)

From Stdlib Require Import List Bool Arith PeanoNat ZArith String Lia SpecFloat.
Import ListNotations.

Set Implicit Arguments.

(* ------------------------------------------------------------------ *)
(** ** JavaScript values *)

(** Objects (blobs, functions, pdf.js proxies, DOM nodes) are known by their
    reference only. *)
Definition ref := positive.

(** A JavaScript number is an IEEE-754 double. *)
Definition number := spec_float.

(** The literal [1]: mantissa 2^52, exponent -52. *)
Definition js_one : number := S754_finite false 4503599627370496 (-52).

Inductive JSValue : Type :=
| JSUndefined
| JSNull
| JSBoolean (b : bool)
| JSNumber (n : number)
| JSString (s : string)
| JSObject (r : ref).

(** ToBoolean. *)
Definition truthy (v : JSValue) : bool :=
  match v with
  | JSUndefined | JSNull => false
  | JSBoolean b => b
  | JSNumber (S754_zero _) | JSNumber S754_nan => false
  | JSNumber _ => true
  | JSString s => negb (String.eqb s EmptyString)
  | JSObject _ => true
  end.

(** [a || b] *)
Definition js_or (a b : JSValue) : JSValue := if truthy a then a else b.

(** [x ?? d] on an optional prop. *)
Definition nullish {A : Type} (x : option A) (d : A) : A :=
  match x with Some v => v | None => d end.

Definition number_eq_dec (a b : number) : {a = b} + {a <> b}.
Proof. decide equality; (apply Z.eq_dec || apply Pos.eq_dec || apply Bool.bool_dec). Defined.

Definition JSValue_eq_dec (a b : JSValue) : {a = b} + {a <> b}.
Proof.
  decide equality;
    (apply number_eq_dec || apply string_dec || apply Pos.eq_dec || apply Bool.bool_dec).
Defined.

(** [Object.is], the comparison React applies to each member of a dependency
    array: same reference for objects, same value for primitives. *)
Definition Object_is {A : Type} (dec : forall a b : A, {a = b} + {a <> b}) (a b : A) : bool :=
  if dec a b then true else false.

(* ------------------------------------------------------------------ *)
(** ** Stage results *)

Inductive Status : Type := idle | pending | success | failure.

Definition Status_eqb (a b : Status) : bool :=
  match a, b with
  | idle, idle | pending, pending | success, success | failure, failure => true
  | _, _ => false
  end.

(** What [useFetch] returns: [{ status }], [{ status: 'success', data }] or
    [{ status: 'failure', data }] where the failure's [data] is whatever the
    producer's promise was rejected with. *)
Inductive StageResult (T : Type) : Type :=
| Idle
| Pending
| Success (data : T)
| Failure (data : JSValue).

Arguments Idle {T}.
Arguments Pending {T}.
Arguments Success {T} data.
Arguments Failure {T} data.

Definition status {T : Type} (r : StageResult T) : Status :=
  match r with
  | Idle => idle
  | Pending => pending
  | Success _ => success
  | Failure _ => failure
  end.

Definition StageResult_eq_dec {T : Type} (dec : forall a b : T, {a = b} + {a <> b})
  (a b : StageResult T) : {a = b} + {a <> b}.
Proof. decide equality. apply JSValue_eq_dec. Defined.

(** [r.status === 'failure' && r.data]: the failure's data when the stage has
    failed, the boolean [false] otherwise. *)
Definition failed {T : Type} (r : StageResult T) : JSValue :=
  match r with
  | Failure e => e
  | _ => JSBoolean false
  end.

(* ------------------------------------------------------------------ *)
(** ** Props and the objects the component handles *)

Definition Fn := ref.                 (* a callback passed by the host *)
Definition Blob := ref.
Definition RequestInit := ref.
Definition ArrayBuffer := ref.
Definition PDFDocumentProxy := ref.
Definition PDFPageProxy := ref.
Definition HTMLCanvasElement := ref.
Definition CanvasRenderingContext2D := ref.
Definition ReactNode := JSValue.

Definition ref_eq_dec : forall a b : ref, {a = b} + {a <> b} := Pos.eq_dec.

(** [ByblosPropsURL | ByblosPropsBlob]: the members [type], [value] and
    [fetchOptions] of the props. *)
Inductive SourceProps : Type :=
| url (value : string) (fetchOptions : option RequestInit)
| blob (value : Blob).

Record ByblosProps : Type := mkProps {
  source : SourceProps;
  page : option number;
  scale : option number;
  onLoading : option Fn;
  onSuccess : option Fn;
  onFailure : option Fn;
  className : option string;
  loadingFallback : ReactNode;
  errorFallback : ReactNode;
  onDocumentSuccess : option Fn;
  onPageSuccess : option Fn
}.

Definition option_eq_dec {A : Type} (dec : forall a b : A, {a = b} + {a <> b})
  (a b : option A) : {a = b} + {a <> b}.
Proof. decide equality. Defined.

Definition pair_eq_dec {A B : Type} (decA : forall a b : A, {a = b} + {a <> b})
  (decB : forall a b : B, {a = b} + {a <> b}) (a b : A * B) : {a = b} + {a <> b}.
Proof. decide equality. Defined.

Definition SourceProps_eq_dec (a b : SourceProps) : {a = b} + {a <> b}.
Proof. decide equality; (apply string_dec || apply (option_eq_dec ref_eq_dec) || apply ref_eq_dec). Defined.

(** The viewport pdf.js derives from a page and a scale. *)
Record PageViewport : Type := mkViewport { height : number; width : number }.

(** What the page leans on outside the component: pdf.js computing viewports,
    and the DOM giving the element mounted for [<canvas>] and its 2D context
    ([getContext('2d')] answers [null] when the canvas cannot give one). *)
Record Host : Type := mkHost {
  getViewport : PDFPageProxy -> number -> PageViewport;
  canvasElement : HTMLCanvasElement;
  getContext2d : HTMLCanvasElement -> option CanvasRenderingContext2D
}.

(* ------------------------------------------------------------------ *)
(** ** Calls leaving the component *)

Inductive Stage : Type := BufferStage | DocumentStage | PageStage.

Definition RunToken := nat.

(** The asynchronous operations the producers start. *)
Inductive Request : Type :=
| FetchURL (value : string) (init : option RequestInit)
| ReadBlob (value : Blob)
| GetDocument (data : ArrayBuffer)
| GetPage (pdf : PDFDocumentProxy) (pageNumber : number).

Inductive Call : Type :=
| Issue (stage : Stage) (token : RunToken) (request : Request)
| OnDocumentSuccess (f : Fn) (pdf : PDFDocumentProxy)
| OnPageSuccess (f : Fn) (pdf : PDFPageProxy)
| OnLoading (f : Fn)
| OnSuccess (f : Fn)
| OnFailure (f : Fn) (error : JSValue)
| SetCanvasHeight (canvas : HTMLCanvasElement) (h : number)
| SetCanvasWidth (canvas : HTMLCanvasElement) (w : number)
| RenderPage (pageData : PDFPageProxy) (canvasContext : CanvasRenderingContext2D)
    (viewport : PageViewport).

(* ------------------------------------------------------------------ *)
(** ** The stage runner *)

(** What a producer hands back when it is invoked: the suspend sentinel, or an
    operation now in flight. *)
Inductive Produced : Type :=
| Suspended
| Started (request : Request).

(** How an operation in flight ends. *)
Inductive Outcome (T : Type) : Type :=
| Resolved (data : T)
| Rejected (error : JSValue).

Arguments Resolved {T} data.
Arguments Rejected {T} error.

(** Modelled from the spec: the hook [useFetch] ([src/use-fetch]) and the
    sentinel [suspend] ([src/suspend]) are not part of the sources at hand.
    Section 4.1 of the specification gives the runner: it remembers the
    dependency key it last saw, the token of the run it last minted and the
    result it publishes; [inflight] lists the tokens of the runs whose
    operation was started and has not ended yet. *)
Record Runner (K T : Type) : Type := mkRunner {
  key : option K;
  token : RunToken;
  published : StageResult T;
  inflight : list RunToken
}.

Arguments mkRunner {K T} key token published inflight.

(** Modelled from the spec: a stage is created idle (section 3, lifecycle). *)
Definition idleRunner {K T : Type} : Runner K T := mkRunner None 0 Idle [].

Definition sameKey {K : Type} (dec : forall a b : K, {a = b} + {a <> b})
  (seen : option K) (k : K) : bool :=
  match seen with
  | None => false
  | Some k0 => Object_is dec k0 k
  end.

(** Modelled from the spec: [run(producer, key)] of section 4.1.  On the first
    call, or when the key differs from the one seen last, the runner mints a
    token and invokes the producer.  A producer that starts an operation puts
    the stage in [Pending], "a run is in flight" (section 3).  A producer that
    answers with the suspend sentinel has no run in flight and the stage is
    [Idle], blocked: "state stays Idle" (section 4.1, b), downstream stages
    of a failure "stay Idle" (section 7, and scenario C of section 8); the
    result of the run before is not kept, as "a stage never exposes a result
    belonging to a superseded run" (section 3).  With an unchanged key nothing
    happens. *)
Definition run {K T : Type} (dec : forall a b : K, {a = b} + {a <> b})
  (stage : Stage) (producer : Produced) (k : K) (r : Runner K T)
  : Runner K T * list Call :=
  if sameKey dec (key r) k then (r, [])
  else
    let t := S (token r) in
    match producer with
    | Suspended => (mkRunner (Some k) t Idle (inflight r), [])
    | Started q => (mkRunner (Some k) t Pending (t :: inflight r), [Issue stage t q])
    end.

Definition live {K T : Type} (t : RunToken) (r : Runner K T) : bool :=
  existsb (Nat.eqb t) (inflight r).

Definition current {K T : Type} (t : RunToken) (r : Runner K T) : bool :=
  Nat.eqb t (token r).

Definition ofOutcome {T : Type} (o : Outcome T) : StageResult T :=
  match o with
  | Resolved v => Success v
  | Rejected e => Failure e
  end.

(** Modelled from the spec: completion of a run (section 4.1 and the RunToken
    invariant of section 3).  The result is published when the run's token is
    still the stage's token, and dropped otherwise. *)
Definition settle {K T : Type} (t : RunToken) (o : Outcome T) (r : Runner K T)
  : Runner K T :=
  if live t r then
    let rest := filter (fun u => negb (Nat.eqb t u)) (inflight r) in
    if current t r
    then mkRunner (key r) (token r) (ofOutcome o) rest
    else mkRunner (key r) (token r) (published r) rest
  else r.

(** Modelled from the spec: [useFetch(producer, deps)] ([src/use-fetch], not
    at hand) as one call of a render pass: the runner is told the key and the
    hook returns what the stage publishes. *)
Definition useFetch {K T : Type} (dec : forall a b : K, {a = b} + {a <> b})
  (stage : Stage) (producer : Produced) (deps : K) (r : Runner K T)
  : Runner K T * StageResult T * list Call :=
  let (r', calls) := run dec stage producer deps r in
  (r', published r', calls).

(* ------------------------------------------------------------------ *)
(** ** The component *)

(** The producer of the bytes stage: [fetch(props.value, props.fetchOptions)]
    for a URL, [new Response(props.value)] for a blob, then [arrayBuffer()];
    the two awaited steps are one operation that ends with the buffer or with
    the reason of whichever step was rejected. *)
Definition bufferProducer (props : ByblosProps) : Produced :=
  match source props with
  | url value fetchOptions => Started (FetchURL value fetchOptions)
  | blob value => Started (ReadBlob value)
  end.

(** The producer of the document stage.  (It first stores the worker script's
    address in [GlobalWorkerOptions.workerSrc], always the same constant.) *)
Definition documentProducer (bufferResult : StageResult ArrayBuffer) : Produced :=
  match bufferResult with
  | Success data => Started (GetDocument data)
  | _ => Suspended
  end.

(** The producer of the page stage: [getPage(page ?? 1)]. *)
Definition pageProducer (documentResult : StageResult PDFDocumentProxy)
  (page : option number) : Produced :=
  match documentResult with
  | Success data => Started (GetPage data (nullish page js_one))
  | _ => Suspended
  end.

(** [loading] *)
Definition loading (bufferResult : StageResult ArrayBuffer)
  (documentResult : StageResult PDFDocumentProxy)
  (pageResult : StageResult PDFPageProxy) : bool :=
  Status_eqb (status bufferResult) pending
  || Status_eqb (status documentResult) pending
  || Status_eqb (status pageResult) pending.

(** [error] *)
Definition error (bufferResult : StageResult ArrayBuffer)
  (documentResult : StageResult PDFDocumentProxy)
  (pageResult : StageResult PDFPageProxy) : JSValue :=
  js_or (js_or (failed bufferResult) (failed documentResult)) (failed pageResult).

(** What a render pass returns. *)
Inductive Output : Type :=
| Fragment (children : ReactNode)
| Canvas (className : option string).

Definition view (props : ByblosProps) (loading : bool) (error : JSValue) : Output :=
  if loading then Fragment (loadingFallback props)
  else if truthy error then Fragment (errorFallback props)
  else Canvas (className props).

(** [useEffect(effect, deps)]: the effect runs after the first pass and after
    every pass in which a member of [deps] is not [Object.is] the one of the
    pass before. *)
Definition useEffect {D : Type} (dec : forall a b : D, {a = b} + {a <> b})
  (before : option D) (deps : D) (effect : list Call) : list Call :=
  match before with
  | None => effect
  | Some d => if Object_is dec d deps then [] else effect
  end.

Definition documentSuccessEffect (documentResult : StageResult PDFDocumentProxy)
  (onDocumentSuccess : option Fn) : list Call :=
  match documentResult, onDocumentSuccess with
  | Success data, Some f => [OnDocumentSuccess f data]
  | _, _ => []
  end.

Definition pageSuccessEffect (pageResult : StageResult PDFPageProxy)
  (onPageSuccess : option Fn) : list Call :=
  match pageResult, onPageSuccess with
  | Success data, Some f => [OnPageSuccess f data]
  | _, _ => []
  end.

Definition loadingEffect (loading : bool) (onLoading : option Fn) : list Call :=
  match onLoading with
  | Some f => if loading then [OnLoading f] else []
  | None => []
  end.

Definition successEffect (success : bool) (onSuccess : option Fn) : list Call :=
  match onSuccess with
  | Some f => if success then [OnSuccess f] else []
  | None => []
  end.

Definition failureEffect (error : JSValue) (onFailure : option Fn) : list Call :=
  match onFailure with
  | Some f => if truthy error then [OnFailure f error] else []
  | None => []
  end.

(** The state the hooks of one mounted component keep between passes: the
    three stages, the dependency arrays of the six effects as of the pass
    before, and [canvasRef.current]. *)
Record Hooks : Type := mkHooks {
  bufferStage : Runner SourceProps ArrayBuffer;
  documentStage : Runner (StageResult ArrayBuffer) PDFDocumentProxy;
  pageStage : Runner (StageResult PDFDocumentProxy * option number) PDFPageProxy;
  documentDeps : option (StageResult PDFDocumentProxy * option Fn);
  pageDeps : option (StageResult PDFPageProxy * option Fn);
  loadingDeps : option (option Fn * bool);
  successDeps : option (option Fn * bool);
  failureDeps : option (option Fn * JSValue);
  renderDeps : option (StageResult PDFPageProxy * option number);
  canvasRef : option HTMLCanvasElement
}.

Definition mount : Hooks :=
  mkHooks idleRunner idleRunner idleRunner None None None None None None None.

Definition Fn_dec : forall a b : option Fn, {a = b} + {a <> b} :=
  option_eq_dec ref_eq_dec.

Definition bufferResult_dec : forall a b : StageResult ArrayBuffer, {a = b} + {a <> b} :=
  StageResult_eq_dec ref_eq_dec.

Definition documentResult_dec
  : forall a b : StageResult PDFDocumentProxy, {a = b} + {a <> b} :=
  StageResult_eq_dec ref_eq_dec.

Definition pageResult_dec : forall a b : StageResult PDFPageProxy, {a = b} + {a <> b} :=
  StageResult_eq_dec ref_eq_dec.

Section Component.

Variable host : Host.

(** The effect that paints the page. *)
Definition renderEffect (canvas : option HTMLCanvasElement)
  (pageResult : StageResult PDFPageProxy) (scale : option number) : list Call :=
  match canvas, pageResult with
  | Some canvas, Success pageData =>
      let viewport := getViewport host pageData (nullish scale js_one) in
      match getContext2d host canvas with
      | None => []
      | Some context =>
          [ SetCanvasHeight canvas (height viewport);
            SetCanvasWidth canvas (width viewport);
            RenderPage pageData context viewport ]
      end
  | _, _ => []
  end.

(** The element's ref callback stores the mounted canvas in [canvasRef] (and
    hands it on to the ref the caller forwarded); React calls it with [null]
    when no canvas is rendered. *)
Definition commitRef (out : Output) : option HTMLCanvasElement :=
  match out with
  | Canvas _ => Some (canvasElement host)
  | Fragment _ => None
  end.

(** One render pass of [Byblos], followed by its effects. *)
Definition Byblos (props : ByblosProps) (h : Hooks) : Hooks * Output * list Call :=
  let '(bufferStage', bufferResult, calls1) :=
    useFetch SourceProps_eq_dec BufferStage (bufferProducer props)
      (source props) (bufferStage h) in
  let '(documentStage', documentResult, calls2) :=
    useFetch bufferResult_dec DocumentStage (documentProducer bufferResult)
      bufferResult (documentStage h) in
  let calls3 :=
    useEffect (pair_eq_dec documentResult_dec Fn_dec) (documentDeps h)
      (documentResult, onDocumentSuccess props)
      (documentSuccessEffect documentResult (onDocumentSuccess props)) in
  let '(pageStage', pageResult, calls4) :=
    useFetch (pair_eq_dec documentResult_dec (option_eq_dec number_eq_dec)) PageStage
      (pageProducer documentResult (page props))
      (documentResult, page props) (pageStage h) in
  let calls5 :=
    useEffect (pair_eq_dec pageResult_dec Fn_dec) (pageDeps h)
      (pageResult, onPageSuccess props)
      (pageSuccessEffect pageResult (onPageSuccess props)) in
  let loading := loading bufferResult documentResult pageResult in
  let calls6 :=
    useEffect (pair_eq_dec Fn_dec Bool.bool_dec) (loadingDeps h)
      (onLoading props, loading) (loadingEffect loading (onLoading props)) in
  let success := Status_eqb (status pageResult) success in
  let calls7 :=
    useEffect (pair_eq_dec Fn_dec Bool.bool_dec) (successDeps h)
      (onSuccess props, success) (successEffect success (onSuccess props)) in
  let error := error bufferResult documentResult pageResult in
  let calls8 :=
    useEffect (pair_eq_dec Fn_dec JSValue_eq_dec) (failureDeps h)
      (onFailure props, error) (failureEffect error (onFailure props)) in
  let out := view props loading error in
  let canvas := commitRef out in
  let calls9 :=
    useEffect (pair_eq_dec pageResult_dec (option_eq_dec number_eq_dec)) (renderDeps h)
      (pageResult, scale props) (renderEffect canvas pageResult (scale props)) in
  (mkHooks bufferStage' documentStage' pageStage'
     (Some (documentResult, onDocumentSuccess props))
     (Some (pageResult, onPageSuccess props))
     (Some (onLoading props, loading))
     (Some (onSuccess props, success))
     (Some (onFailure props, error))
     (Some (pageResult, scale props))
     canvas,
   out,
   calls1 ++ calls2 ++ calls3 ++ calls4 ++ calls5 ++ calls6 ++ calls7 ++ calls8 ++ calls9).

End Component.

(* ------------------------------------------------------------------ *)
(** ** A mounted component over time *)

(** A component instance: its hook state and the props of its last pass. *)
Record Instance : Type := mkInstance {
  hooks : Hooks;
  rendered : option ByblosProps
}.

Definition unmounted : Instance := mkInstance mount None.

(** What happens to an instance: the host renders it with props, or an
    operation started by one of the stages ends. *)
Inductive Input : Type :=
| Render (props : ByblosProps)
| SettleBuffer (t : RunToken) (o : Outcome ArrayBuffer)
| SettleDocument (t : RunToken) (o : Outcome PDFDocumentProxy)
| SettlePage (t : RunToken) (o : Outcome PDFPageProxy).

Definition withBufferStage (r : Runner SourceProps ArrayBuffer) (h : Hooks) : Hooks :=
  mkHooks r (documentStage h) (pageStage h) (documentDeps h) (pageDeps h)
    (loadingDeps h) (successDeps h) (failureDeps h) (renderDeps h) (canvasRef h).

Definition withDocumentStage
  (r : Runner (StageResult ArrayBuffer) PDFDocumentProxy) (h : Hooks) : Hooks :=
  mkHooks (bufferStage h) r (pageStage h) (documentDeps h) (pageDeps h)
    (loadingDeps h) (successDeps h) (failureDeps h) (renderDeps h) (canvasRef h).

Definition withPageStage
  (r : Runner (StageResult PDFDocumentProxy * option number) PDFPageProxy)
  (h : Hooks) : Hooks :=
  mkHooks (bufferStage h) (documentStage h) r (documentDeps h) (pageDeps h)
    (loadingDeps h) (successDeps h) (failureDeps h) (renderDeps h) (canvasRef h).

Section Lifetime.

Variable host : Host.

Definition pass (props : ByblosProps) (h : Hooks) : Instance * list Call :=
  let '(h', _, calls) := Byblos host props h in
  (mkInstance h' (Some props), calls).

(** Modelled from the spec: a published result is a state update, and a state
    update schedules a pass with the props at hand (section 5); a dropped
    result changes nothing and schedules nothing. *)
Definition update (applied : bool) (h : Hooks) (w : Instance) : Instance * list Call :=
  match rendered w with
  | Some props => if applied then pass props h else (mkInstance h (rendered w), [])
  | None => (mkInstance h (rendered w), [])
  end.

Definition step (w : Instance) (i : Input) : Instance * list Call :=
  let h := hooks w in
  match i with
  | Render props => pass props h
  | SettleBuffer t o =>
      update (live t (bufferStage h) && current t (bufferStage h))
        (withBufferStage (settle t o (bufferStage h)) h) w
  | SettleDocument t o =>
      update (live t (documentStage h) && current t (documentStage h))
        (withDocumentStage (settle t o (documentStage h)) h) w
  | SettlePage t o =>
      update (live t (pageStage h) && current t (pageStage h))
        (withPageStage (settle t o (pageStage h)) h) w
  end.

Fixpoint exec (w : Instance) (inputs : list Input) : Instance * list Call :=
  match inputs with
  | [] => (w, [])
  | i :: rest =>
      let (w1, calls1) := step w i in
      let (w2, calls2) := exec w1 rest in
      (w2, calls1 ++ calls2)
  end.

Definition after (inputs : list Input) : Instance := fst (exec unmounted inputs).

End Lifetime.

(** The three results an instance publishes. *)
Definition bufferResult (w : Instance) : StageResult ArrayBuffer :=
  published (bufferStage (hooks w)).

Definition documentResult (w : Instance) : StageResult PDFDocumentProxy :=
  published (documentStage (hooks w)).

Definition pageResult (w : Instance) : StageResult PDFPageProxy :=
  published (pageStage (hooks w)).

(* ------------------------------------------------------------------ *)
(** ** The words of the specification, for comparison *)

(** The errors of the failed stages, scanned bytes, document, page. *)
Definition failures (b : StageResult ArrayBuffer) (d : StageResult PDFDocumentProxy)
  (p : StageResult PDFPageProxy) : list JSValue :=
  (match b with Failure e => [e] | _ => [] end)
  ++ (match d with Failure e => [e] | _ => [] end)
  ++ (match p with Failure e => [e] | _ => [] end).

(** "the first Failure found scanning stages in bytes, document, page order",
    [false] standing for no error. *)
Definition firstFailure (b : StageResult ArrayBuffer) (d : StageResult PDFDocumentProxy)
  (p : StageResult PDFPageProxy) : JSValue :=
  match failures b d p with
  | e :: _ => e
  | [] => JSBoolean false
  end.

(** The three parts of what a pass gives. *)
Definition passHooks (host : Host) (props : ByblosProps) (h : Hooks) : Hooks :=
  fst (fst (Byblos host props h)).

Definition passOutput (host : Host) (props : ByblosProps) (h : Hooks) : Output :=
  snd (fst (Byblos host props h)).

Definition passCalls (host : Host) (props : ByblosProps) (h : Hooks) : list Call :=
  snd (Byblos host props h).

(* ------------------------------------------------------------------ *)
(** ** Vocabulary of the properties *)

(** The stages as a pass leaves them, spelled out stage by stage. *)
Definition bufferAfter (props : ByblosProps) (h : Hooks) :=
  fst (run SourceProps_eq_dec BufferStage (bufferProducer props) (source props)
         (bufferStage h)).

Definition documentAfter (props : ByblosProps) (h : Hooks) :=
  fst (run bufferResult_dec DocumentStage
         (documentProducer (published (bufferAfter props h)))
         (published (bufferAfter props h)) (documentStage h)).

Definition pageAfter (props : ByblosProps) (h : Hooks) :=
  fst (run (pair_eq_dec documentResult_dec (option_eq_dec number_eq_dec)) PageStage
         (pageProducer (published (documentAfter props h)) (page props))
         (published (documentAfter props h), page props) (pageStage h)).

Definition bufferIssued (props : ByblosProps) (h : Hooks) : list Call :=
  snd (run SourceProps_eq_dec BufferStage (bufferProducer props) (source props)
         (bufferStage h)).

Definition documentIssued (props : ByblosProps) (h : Hooks) : list Call :=
  snd (run bufferResult_dec DocumentStage
         (documentProducer (published (bufferAfter props h)))
         (published (bufferAfter props h)) (documentStage h)).

Definition pageIssued (props : ByblosProps) (h : Hooks) : list Call :=
  snd (run (pair_eq_dec documentResult_dec (option_eq_dec number_eq_dec)) PageStage
         (pageProducer (published (documentAfter props h)) (page props))
         (published (documentAfter props h), page props) (pageStage h)).

(** The calls that touch the canvas. *)
Definition isSinkCall (c : Call) : bool :=
  match c with
  | SetCanvasHeight _ _ | SetCanvasWidth _ _ | RenderPage _ _ _ => true
  | _ => false
  end.

Definition sinkCalls (host : Host) (props : ByblosProps) (h : Hooks) : list Call :=
  filter isSinkCall (passCalls host props h).

(** No run in flight carries a token minted later than the stage's. *)
Definition bounded {K T : Type} (r : Runner K T) : Prop :=
  forall t, In t (inflight r) -> t <= token r.

(** Once the run holding the stage's token has ended it is no longer in
    flight: a stage whose current run is in flight publishes [Pending]. *)
Definition awaiting {K T : Type} (r : Runner K T) : Prop :=
  In (token r) (inflight r) -> published r = Pending.

(** A stage publishes [Pending] only while the run that holds its token is in
    flight. *)
Definition underway {K T : Type} (r : Runner K T) : Prop :=
  published r = Pending -> In (token r) (inflight r).

(** A stage has a run in flight for its token, or a result of such a run,
    only if its key passes [ready]. *)
Definition guarded {K T : Type} (ready : K -> bool) (r : Runner K T) : Prop :=
  In (token r) (inflight r) \/ status (published r) = success
  \/ status (published r) = failure ->
  exists k, key r = Some k /\ ready k = true.

Definition documentReady (k : StageResult ArrayBuffer) : bool :=
  Status_eqb (status k) success.

Definition pageReady (k : StageResult PDFDocumentProxy * option number) : bool :=
  Status_eqb (status (fst k)) success.

(** Each stage is well kept, and the document and page stages have a run in
    flight or a result only when the stage upstream had succeeded. *)
Record sound (h : Hooks) : Prop := mkSound {
  buffer_bounded : bounded (bufferStage h);
  document_bounded : bounded (documentStage h);
  page_bounded : bounded (pageStage h);
  buffer_awaiting : awaiting (bufferStage h);
  document_awaiting : awaiting (documentStage h);
  page_awaiting : awaiting (pageStage h);
  document_guarded : guarded documentReady (documentStage h);
  page_guarded : guarded pageReady (pageStage h)
}.

(** The keys the stages remember are the dependencies of the last pass. *)
Definition coherent (w : Instance) : Prop :=
  match rendered w with
  | None => hooks w = mount
  | Some props =>
      key (bufferStage (hooks w)) = Some (source props)
      /\ key (documentStage (hooks w)) = Some (bufferResult w)
      /\ key (pageStage (hooks w)) = Some (documentResult w, page props)
  end.

Definition invariant (w : Instance) : Prop := sound (hooks w) /\ coherent w.

Definition settled {T : Type} (r : StageResult T) : Prop :=
  status r = success \/ status r = failure.

(** An input keeps the bytes stage's key when it is not a pass with another
    source. *)
Definition keepsSource (src : SourceProps) (i : Input) : Prop :=
  match i with
  | Render props => source props = src
  | _ => True
  end.

Definition isIssue (c : Call) : bool :=
  match c with
  | Issue _ _ _ => true
  | _ => false
  end.

(** The instance sits with a failed bytes stage under source [src]. *)
Definition bytesFailed (src : SourceProps) (e : JSValue) (w : Instance) : Prop :=
  invariant w /\ bufferResult w = Failure e
  /\ exists props, rendered w = Some props /\ source props = src.

(** Every result a stage publishes was delivered by the run that holds the
    stage's token. *)
Definition deliveredTo (inputs : list Input) (h : Hooks) : Prop :=
  (forall o, published (bufferStage h) = ofOutcome o ->
             In (SettleBuffer (token (bufferStage h)) o) inputs)
  /\ (forall o, published (documentStage h) = ofOutcome o ->
                In (SettleDocument (token (documentStage h)) o) inputs)
  /\ (forall o, published (pageStage h) = ofOutcome o ->
                In (SettlePage (token (pageStage h)) o) inputs).

(** The three stages of a component are pending only with a run in flight. *)
Definition allUnderway (h : Hooks) : Prop :=
  underway (bufferStage h) /\ underway (documentStage h) /\ underway (pageStage h).


(** What a dropped result leaves behind: the three published results as they
    were, and no call. *)
Definition silent (host : Host) (w : Instance) (i : Input) : Prop :=
  bufferResult (fst (step host w i)) = bufferResult w
  /\ documentResult (fst (step host w i)) = documentResult w
  /\ pageResult (fst (step host w i)) = pageResult w
  /\ snd (step host w i) = [].

Definition isOnDocumentSuccess (c : Call) : bool :=
  match c with OnDocumentSuccess _ _ => true | _ => false end.

Definition isOnPageSuccess (c : Call) : bool :=
  match c with OnPageSuccess _ _ => true | _ => false end.

Definition isOnSuccess (c : Call) : bool :=
  match c with OnSuccess _ => true | _ => false end.

Definition isOnFailure (c : Call) : bool :=
  match c with OnFailure _ _ => true | _ => false end.

(** What the effects of an instance remember between passes: the dependency
    arrays of its last pass. *)
Definition remembered (w : Instance) : Prop :=
  match rendered w with
  | None => True
  | Some props =>
      documentDeps (hooks w) = Some (documentResult w, onDocumentSuccess props)
      /\ pageDeps (hooks w) = Some (pageResult w, onPageSuccess props)
      /\ loadingDeps (hooks w)
         = Some (onLoading props, loading (bufferResult w) (documentResult w) (pageResult w))
      /\ successDeps (hooks w)
         = Some (onSuccess props, Status_eqb (status (pageResult w)) success)
      /\ failureDeps (hooks w)
         = Some (onFailure props, error (bufferResult w) (documentResult w) (pageResult w))
      /\ renderDeps (hooks w) = Some (pageResult w, scale props)
  end.

(** The dependency arrays of the callback effects, as of an instance's last
    pass; [None] before the first pass. *)
Definition documentDepsOf (w : Instance) : option (StageResult PDFDocumentProxy * option Fn) :=
  match rendered w with
  | Some props => Some (documentResult w, onDocumentSuccess props)
  | None => None
  end.

Definition pageDepsOf (w : Instance) : option (StageResult PDFPageProxy * option Fn) :=
  match rendered w with
  | Some props => Some (pageResult w, onPageSuccess props)
  | None => None
  end.

Definition successDepsOf (w : Instance) : option (option Fn * bool) :=
  match rendered w with
  | Some props => Some (onSuccess props, Status_eqb (status (pageResult w)) success)
  | None => None
  end.

Definition failureDepsOf (w : Instance) : option (option Fn * JSValue) :=
  match rendered w with
  | Some props =>
      Some (onFailure props, error (bufferResult w) (documentResult w) (pageResult w))
  | None => None
  end.

Definition sameDeps (w w' : Instance) : Prop :=
  documentDepsOf w' = documentDepsOf w /\ pageDepsOf w' = pageDepsOf w
  /\ successDepsOf w' = successDepsOf w /\ failureDepsOf w' = failureDepsOf w.

Definition depsIn (h : Hooks) (w : Instance) : Prop :=
  documentDeps h = documentDepsOf w /\ pageDeps h = pageDepsOf w
  /\ successDeps h = successDepsOf w /\ failureDeps h = failureDepsOf w.

(* ------------------------------------------------------------------ *)
(** ** Scenarios *)

(** The number [m * 2^e]. *)
Definition px (m : positive) (e : Z) : number := S754_finite false m e.

(** A small host: viewports 800 high and 600 wide whatever the page and the
    scale, canvas element 9 whose 2D context is object 10. *)
Definition demoHost : Host :=
  mkHost (fun _ _ => mkViewport (px 800 0) (px 600 0)) 9%positive (fun _ => Some 10%positive).

(** The same host with a canvas that gives no 2D context. *)
Definition contextlessHost : Host :=
  mkHost (fun _ _ => mkViewport (px 800 0) (px 600 0)) 9%positive (fun _ => None).

(** Props with a URL source, no page, no scale, and the five callbacks. *)
Definition demoProps : ByblosProps :=
  mkProps (url "a.pdf" None) None None (Some 24%positive) (Some 25%positive)
    (Some 21%positive) None (JSString "loading") (JSString "failed")
    (Some 22%positive) (Some 23%positive).

(** The literal [2]. *)
Definition js_two : number := S754_finite false 4503599627370496 (-51).

(** [demoProps] with page 2 asked for. *)
Definition secondPage : ByblosProps :=
  mkProps (url "a.pdf" None) (Some js_two) None (Some 24%positive) (Some 25%positive)
    (Some 21%positive) None (JSString "loading") (JSString "failed")
    (Some 22%positive) (Some 23%positive).

(** [demoProps] with another document. *)
Definition otherSource : ByblosProps :=
  mkProps (url "b.pdf" None) None None (Some 24%positive) (Some 25%positive)
    (Some 21%positive) None (JSString "loading") (JSString "failed")
    (Some 22%positive) (Some 23%positive).

(** [demoProps] as a host passes them when it builds its callbacks anew in
    each of its own renders: the same props, with other function objects. *)
Definition freshClosures : ByblosProps :=
  mkProps (url "a.pdf" None) None None (Some 44%positive) (Some 45%positive)
    (Some 41%positive) None (JSString "loading") (JSString "failed")
    (Some 42%positive) (Some 43%positive).

(** Scenario B of the specification: the page asked for cannot be decoded. *)
Definition scenarioB : list Input :=
  [ Render demoProps;
    SettleBuffer 1 (Resolved 100%positive);
    SettleDocument 2 (Resolved 200%positive);
    SettlePage 3 (Rejected (JSObject 77%positive)) ].

(** Two fetches overlap, and the older one ends last. *)
Definition overtaken : list Input :=
  [ Render demoProps; Render otherSource; SettleBuffer 2 (Resolved 102%positive) ].

(** Scenario A of the specification: the bytes arrive, the document decodes,
    page 1 is asked for and decodes. *)
Definition scenarioA : list Input :=
  [ Render demoProps;
    SettleBuffer 1 (Resolved 100%positive);
    SettleDocument 2 (Resolved 200%positive);
    SettlePage 3 (Resolved 300%positive) ].

(** The hook state in which the last pass of scenario A starts: the page has
    just been published. *)
Definition pagePublished (host : Host) : Hooks :=
  let h := hooks (after host (firstn 3 scenarioA)) in
  withPageStage (settle 3 (Resolved 300%positive) (pageStage h)) h.

(* ------------------------------------------------------------------ *)
(** ** Vocabulary of the further properties *)

Definition isOnLoading (c : Call) : bool :=
  match c with OnLoading _ => true | _ => false end.

(** [loading] and [error] as an instance has them. *)
Definition isLoading (w : Instance) : bool :=
  loading (bufferResult w) (documentResult w) (pageResult w).

Definition surfaced (w : Instance) : JSValue :=
  error (bufferResult w) (documentResult w) (pageResult w).

(** The dependency array of the loading effect, as of an instance's last pass. *)
Definition loadingDepsOf (w : Instance) : option (option Fn * bool) :=
  match rendered w with
  | Some props => Some (onLoading props, isLoading w)
  | None => None
  end.

(** [canvasRef] holds what the last pass mounted. *)
Definition shown (host : Host) (w : Instance) : Prop :=
  canvasRef (hooks w) =
  match rendered w with
  | Some props => commitRef host (view props (isLoading w) (surfaced w))
  | None => None
  end.

(** Props with another [scale] and nothing else changed. *)
Definition withScale (s : option number) (props : ByblosProps) : ByblosProps :=
  mkProps (source props) (page props) s (onLoading props) (onSuccess props)
    (onFailure props) (className props) (loadingFallback props) (errorFallback props)
    (onDocumentSuccess props) (onPageSuccess props).

(** The scale 1.5. *)
Definition js_three_halves : number := S754_finite false 6755399441055744 (-52).

(* ================================================================== *)
(** * Properties *)

Lemma Object_is_true {A : Type} (dec : forall a b : A, {a = b} + {a <> b}) (a b : A) :
  Object_is dec a b = true <-> a = b.
Proof. unfold Object_is. destruct (dec a b); split; congruence. Qed.

Lemma Object_is_refl {A : Type} (dec : forall a b : A, {a = b} + {a <> b}) (a : A) :
  Object_is dec a a = true.
Proof. apply Object_is_true. reflexivity. Qed.

Lemma Status_eqb_eq (a b : Status) : Status_eqb a b = true <-> a = b.
Proof. destruct a, b; simpl; split; congruence. Qed.

Lemma status_pending {T : Type} (r : StageResult T) :
  Status_eqb (status r) pending = true <-> r = Pending.
Proof. destruct r; simpl; split; congruence. Qed.

(** ** The shape of a pass *)

Ltac byblos_stages :=
  unfold Byblos, useFetch, pageAfter, documentAfter, bufferAfter;
  destruct (run _ BufferStage _ _ _); simpl;
  destruct (run _ DocumentStage _ _ _); simpl;
  destruct (run _ PageStage _ _ _); simpl.

Lemma passHooks_bufferStage host props h :
  bufferStage (passHooks host props h) = bufferAfter props h.
Proof.
  unfold passHooks; byblos_stages. reflexivity.
Qed.

Lemma passHooks_documentStage host props h :
  documentStage (passHooks host props h) = documentAfter props h.
Proof.
  unfold passHooks; byblos_stages. reflexivity.
Qed.

Lemma passHooks_pageStage host props h :
  pageStage (passHooks host props h) = pageAfter props h.
Proof.
  unfold passHooks; byblos_stages. reflexivity.
Qed.

Lemma Byblos_eq host props h :
  Byblos host props h =
  let b := published (bufferAfter props h) in
  let d := published (documentAfter props h) in
  let p := published (pageAfter props h) in
  let out := view props (loading b d p) (error b d p) in
  (mkHooks (bufferAfter props h) (documentAfter props h) (pageAfter props h)
     (Some (d, onDocumentSuccess props))
     (Some (p, onPageSuccess props))
     (Some (onLoading props, loading b d p))
     (Some (onSuccess props, Status_eqb (status p) success))
     (Some (onFailure props, error b d p))
     (Some (p, scale props))
     (commitRef host out),
   out,
   bufferIssued props h ++ documentIssued props h
   ++ useEffect (pair_eq_dec documentResult_dec Fn_dec) (documentDeps h)
        (d, onDocumentSuccess props) (documentSuccessEffect d (onDocumentSuccess props))
   ++ pageIssued props h
   ++ useEffect (pair_eq_dec pageResult_dec Fn_dec) (pageDeps h)
        (p, onPageSuccess props) (pageSuccessEffect p (onPageSuccess props))
   ++ useEffect (pair_eq_dec Fn_dec Bool.bool_dec) (loadingDeps h)
        (onLoading props, loading b d p) (loadingEffect (loading b d p) (onLoading props))
   ++ useEffect (pair_eq_dec Fn_dec Bool.bool_dec) (successDeps h)
        (onSuccess props, Status_eqb (status p) success)
        (successEffect (Status_eqb (status p) success) (onSuccess props))
   ++ useEffect (pair_eq_dec Fn_dec JSValue_eq_dec) (failureDeps h)
        (onFailure props, error b d p) (failureEffect (error b d p) (onFailure props))
   ++ useEffect (pair_eq_dec pageResult_dec (option_eq_dec number_eq_dec)) (renderDeps h)
        (p, scale props) (renderEffect host (commitRef host out) p (scale props))).
Proof.
  unfold bufferIssued, documentIssued, pageIssued. byblos_stages. reflexivity.
Qed.

Lemma passOutput_eq host props h :
  passOutput host props h =
  view props
    (loading (published (bufferAfter props h)) (published (documentAfter props h))
       (published (pageAfter props h)))
    (error (published (bufferAfter props h)) (published (documentAfter props h))
       (published (pageAfter props h))).
Proof. unfold passOutput. rewrite Byblos_eq. reflexivity. Qed.

(** ** The derived values [loading] and [error] *)

Lemma loading_true_iff b d p :
  loading b d p = true <-> b = Pending \/ d = Pending \/ p = Pending.
Proof.
  unfold loading. rewrite !orb_true_iff, !status_pending. tauto.
Qed.

(** C7: in every pass the value [loading] the component computes (it is kept
    as a dependency of the loading effect) is true exactly when at least one
    of the bytes, document and page stages publishes [Pending]. *)
Theorem loading_iff_some_stage_pending :
  forall (host : Host) (props : ByblosProps) (h : Hooks),
    let h' := passHooks host props h in
    exists l : bool,
      loadingDeps h' = Some (onLoading props, l)
      /\ l = loading (published (bufferStage h')) (published (documentStage h'))
               (published (pageStage h'))
      /\ (l = true <->
          published (bufferStage h') = Pending
          \/ published (documentStage h') = Pending
          \/ published (pageStage h') = Pending).
Proof.
  intros host props h h'. subst h'.
  rewrite passHooks_bufferStage, passHooks_documentStage, passHooks_pageStage.
  eexists. split; [unfold passHooks; rewrite Byblos_eq; reflexivity|].
  split; [reflexivity|]. apply loading_true_iff.
Qed.

Lemma error_cases b d p :
  error b d p =
  if truthy (failed b) then failed b
  else if truthy (failed d) then failed d
  else failed p.
Proof.
  unfold error, js_or.
  destruct (truthy (failed b)) eqn:Eb; cbv iota; [rewrite Eb; reflexivity|].
  destruct (truthy (failed d)) eqn:Ed; reflexivity.
Qed.

(** Whatever the three results, [error] is the first failure, in the order
    bytes, document, page, whose value is truthy; with no such failure it is a
    falsy value. *)
Lemma error_is_first_truthy_failure b d p :
  match find truthy (failures b d p) with
  | Some e => error b d p = e
  | None => truthy (error b d p) = false
  end.
Proof.
  rewrite error_cases. unfold failures.
  destruct b as [| |x|e1]; simpl;
    destruct d as [| |y|e2]; simpl;
    destruct p as [| |z|e3]; simpl;
    repeat match goal with
      | |- context [truthy ?e] =>
          lazymatch e with
          | JSBoolean false => fail
          | _ => let E := fresh "E" in destruct (truthy e) eqn:E; simpl
          end
      end; try reflexivity; try assumption; try congruence.
Qed.

(** C4, as the code has it: for every combination of the three results in
    which each failure carries a truthy error value, the surfaced [error] is
    the error of the first stage, in the order bytes, document, page, that has
    failed, and it is [false] when no stage has failed. *)
Theorem error_is_first_failure_when_truthy :
  forall (b : StageResult ArrayBuffer) (d : StageResult PDFDocumentProxy)
         (p : StageResult PDFPageProxy),
    Forall (fun e => truthy e = true) (failures b d p) ->
    error b d p = firstFailure b d p.
Proof.
  intros b d p H. rewrite error_cases. unfold firstFailure. revert H. unfold failures.
  destruct b as [| |x|e1], d as [| |y|e2], p as [| |z|e3]; simpl; intros H;
    repeat match goal with
      | H : Forall _ (_ :: _) |- _ =>
          let He := fresh "He" in
          apply Forall_cons_iff in H; destruct H as [He H]; try rewrite He
      end; reflexivity.
Qed.

Lemma error_is_first_failure_when_truthy_witness :
  Forall (fun e => truthy e = true)
    (failures (Success 1%positive) (Failure (JSObject 5%positive)) Pending)
  /\ error (Success 1%positive) (Failure (JSObject 5%positive)) Pending = JSObject 5%positive.
Proof.
  split.
  - repeat constructor.
  - apply (error_is_first_failure_when_truthy
             (Success 1%positive) (Failure (JSObject 5%positive)) Pending).
    repeat constructor.
Defined.

(** C4, as stated, fails: a bytes stage whose fetch was rejected with no
    reason (the value [undefined]) has failed, yet the surfaced [error] is
    [false]; and with a second failure behind a falsy one, [error] is the
    second stage's. *)
Lemma error_skips_falsy_failure :
  firstFailure (Failure JSUndefined) Pending Pending = JSUndefined
  /\ error (Failure JSUndefined) Pending Pending = JSBoolean false
  /\ firstFailure (Failure JSNull) (Failure (JSObject 7%positive)) Pending = JSNull
  /\ error (Failure JSNull) (Failure (JSObject 7%positive)) Pending = JSObject 7%positive
  /\ ~ (forall b d p, error b d p = firstFailure b d p).
Proof.
  do 4 (split; [reflexivity|]). intros H.
  specialize (H (Failure JSUndefined) Pending Pending). discriminate H.
Qed.

(** ** What is rendered *)

(** C10: in every pass exactly one of three things is rendered.  When at
    least one stage is [Pending] it is the loading fallback, whether or not
    another stage has failed; the error fallback is rendered when no stage is
    [Pending] and [error] is set; the canvas otherwise. *)
Theorem loading_fallback_takes_precedence :
  forall (host : Host) (props : ByblosProps) (h : Hooks),
    let h' := passHooks host props h in
    let b := published (bufferStage h') in
    let d := published (documentStage h') in
    let p := published (pageStage h') in
    let somePending := b = Pending \/ d = Pending \/ p = Pending in
    (somePending /\ passOutput host props h = Fragment (loadingFallback props))
    \/ (~ somePending /\ truthy (error b d p) = true
        /\ passOutput host props h = Fragment (errorFallback props))
    \/ (~ somePending /\ truthy (error b d p) = false
        /\ passOutput host props h = Canvas (className props)).
Proof.
  intros host props h h' b d p somePending. subst h' b d p somePending.
  rewrite passHooks_bufferStage, passHooks_documentStage, passHooks_pageStage.
  rewrite passOutput_eq. unfold view.
  rewrite <- loading_true_iff.
  destruct (loading _ _ _); [left; split; reflexivity|].
  right. destruct (truthy (error _ _ _)); [left | right]; repeat split; congruence.
Qed.

(** [if (loading)] is tested before [if (error)]: with [loading] true the
    loading fallback is returned, even with an error set. *)
Example loading_hides_failure :
  view demoProps true (JSObject 5%positive) = Fragment (JSString "loading").
Proof. reflexivity. Qed.

(** ** Requests issued by a pass *)

Lemma useEffect_incl {D : Type} (dec : forall a b : D, {a = b} + {a <> b})
  (before : option D) (deps : D) (effect : list Call) (c : Call) :
  In c (useEffect dec before deps effect) -> In c effect.
Proof.
  unfold useEffect. destruct before as [d0|]; [|tauto].
  destruct (Object_is dec d0 deps); simpl; tauto.
Qed.

Lemma run_issue {K T : Type} (dec : forall a b : K, {a = b} + {a <> b})
  (stage : Stage) (producer : Produced) (k : K) (r : Runner K T)
  (s : Stage) (t : RunToken) (q : Request) :
  In (Issue s t q) (snd (run dec stage producer k r)) <->
  s = stage /\ t = S (token r) /\ producer = Started q /\ sameKey dec (key r) k = false.
Proof.
  unfold run. destruct (sameKey dec (key r) k); simpl.
  - split; [tauto | intros (_ & _ & _ & H); discriminate].
  - destruct producer as [|q0]; simpl.
    + split; [tauto | intros (_ & _ & H & _); discriminate].
    + split.
      * intros [H|[]]. inversion H; subst. auto.
      * intros (-> & -> & H & _). inversion H; subst. auto.
Qed.

Lemma effects_issue_nothing host props h s t q :
  In (Issue s t q) (passCalls host props h) <->
  In (Issue s t q) (bufferIssued props h ++ documentIssued props h ++ pageIssued props h).
Proof.
  unfold passCalls. rewrite Byblos_eq. cbv zeta. simpl snd.
  rewrite !in_app_iff.
  split; [|tauto].
  intros H.
  repeat match type of H with
    | _ \/ _ => destruct H as [H|H]
    end; auto;
    apply useEffect_incl in H; exfalso;
    [ unfold documentSuccessEffect in H
    | unfold pageSuccessEffect in H
    | unfold loadingEffect in H
    | unfold successEffect in H
    | unfold failureEffect in H
    | unfold renderEffect in H ];
    repeat match type of H with
      | In _ (match ?x with _ => _ end) => destruct x
      | In _ (if ?x then _ else _) => destruct x
      end; simpl in H; intuition discriminate.
Qed.

Lemma page_issue host props h t q :
  In (Issue PageStage t q) (passCalls host props h) <->
  t = S (token (pageStage h))
  /\ pageProducer (published (documentAfter props h)) (page props) = Started q
  /\ sameKey (pair_eq_dec documentResult_dec (option_eq_dec number_eq_dec))
       (key (pageStage h)) (published (documentAfter props h), page props) = false.
Proof.
  rewrite effects_issue_nothing, !in_app_iff.
  unfold bufferIssued, documentIssued, pageIssued. rewrite !run_issue.
  split.
  - intros [H|[H|H]]; try (destruct H as [H _]; discriminate). tauto.
  - intros (H1 & H2 & H3). right. right. tauto.
Qed.

(** C9: when the document stage has succeeded, the producer of the page stage
    asks the document handle for the page at the index given by the [page]
    prop, or at index 1 when the prop is omitted, and this is the only request
    the page stage issues in the pass (it does issue it when its key has
    changed); when the document stage has not succeeded the producer answers
    with the suspend sentinel and no page is requested. *)
Theorem page_producer_requests_page :
  forall (host : Host) (props : ByblosProps) (h : Hooks),
    let d := published (documentStage (passHooks host props h)) in
    let index := match page props with Some n => n | None => js_one end in
    match d with
    | Success pdf =>
        pageProducer d (page props) = Started (GetPage pdf index)
        /\ (forall t q, In (Issue PageStage t q) (passCalls host props h) ->
                        q = GetPage pdf index)
        /\ (sameKey (pair_eq_dec documentResult_dec (option_eq_dec number_eq_dec))
              (key (pageStage h)) (d, page props) = false ->
            In (Issue PageStage (S (token (pageStage h))) (GetPage pdf index))
              (passCalls host props h))
    | _ =>
        pageProducer d (page props) = Suspended
        /\ forall t q, ~ In (Issue PageStage t q) (passCalls host props h)
    end.
Proof.
  intros host props h d index. subst d index.
  rewrite passHooks_documentStage.
  destruct (published (documentAfter props h)) as [| |pdf|e] eqn:Ed; cbv beta iota;
    try (split; [reflexivity|]; intros t q H; apply page_issue in H;
         rewrite Ed in H; destruct H as (_ & H & _); simpl in H; discriminate).
  split; [reflexivity|]. split.
  - intros t q H. apply page_issue in H. rewrite Ed in H.
    destruct H as (_ & H & _). simpl in H. inversion H. reflexivity.
  - intros H. apply page_issue. rewrite Ed. auto.
Qed.

(** ** The render sink *)

Lemma useEffect_filter {D : Type} (dec : forall a b : D, {a = b} + {a <> b})
  (before : option D) (deps : D) (effect : list Call) (f : Call -> bool) :
  filter f (useEffect dec before deps effect) = useEffect dec before deps (filter f effect).
Proof.
  unfold useEffect. destruct before as [d0|]; [|reflexivity].
  destruct (Object_is dec d0 deps); reflexivity.
Qed.

Lemma useEffect_nil {D : Type} (dec : forall a b : D, {a = b} + {a <> b})
  (before : option D) (deps : D) : useEffect dec before deps [] = [].
Proof.
  unfold useEffect. destruct before as [d0|]; [|reflexivity].
  destruct (Object_is dec d0 deps); reflexivity.
Qed.

Lemma useEffect_same {D : Type} (dec : forall a b : D, {a = b} + {a <> b})
  (deps : D) (effect : list Call) : useEffect dec (Some deps) deps effect = [].
Proof. unfold useEffect. rewrite Object_is_refl. reflexivity. Qed.

Lemma useEffect_changed {D : Type} (dec : forall a b : D, {a = b} + {a <> b})
  (before : option D) (deps : D) (effect : list Call) :
  before <> Some deps -> useEffect dec before deps effect = effect.
Proof.
  unfold useEffect. destruct before as [d0|]; [|reflexivity].
  intros H. destruct (Object_is dec d0 deps) eqn:E; [|reflexivity].
  apply Object_is_true in E. congruence.
Qed.

Lemma run_no_sink {K T : Type} (dec : forall a b : K, {a = b} + {a <> b})
  (stage : Stage) (producer : Produced) (k : K) (r : Runner K T) :
  filter isSinkCall (snd (run dec stage producer k r)) = [].
Proof.
  unfold run. destruct (sameKey dec (key r) k); [reflexivity|].
  destruct producer; reflexivity.
Qed.

Lemma renderEffect_all_sink host canvas p scale :
  filter isSinkCall (renderEffect host canvas p scale) = renderEffect host canvas p scale.
Proof.
  unfold renderEffect. destruct canvas; [|reflexivity].
  destruct p; try reflexivity. destruct (getContext2d host _); reflexivity.
Qed.

Lemma sinkCalls_eq host props h :
  sinkCalls host props h =
  useEffect (pair_eq_dec pageResult_dec (option_eq_dec number_eq_dec)) (renderDeps h)
    (published (pageAfter props h), scale props)
    (renderEffect host (canvasRef (passHooks host props h))
       (published (pageAfter props h)) (scale props)).
Proof.
  unfold sinkCalls, passCalls, passHooks. rewrite Byblos_eq. cbv zeta. simpl snd. simpl fst.
  unfold bufferIssued, documentIssued, pageIssued.
  rewrite !filter_app, !run_no_sink, !useEffect_filter, renderEffect_all_sink.
  replace (filter isSinkCall (documentSuccessEffect _ _)) with (@nil Call)
    by (unfold documentSuccessEffect; destruct (published (documentAfter props h));
        try reflexivity; destruct (onDocumentSuccess props); reflexivity).
  replace (filter isSinkCall (pageSuccessEffect _ _)) with (@nil Call)
    by (unfold pageSuccessEffect; destruct (published (pageAfter props h));
        try reflexivity; destruct (onPageSuccess props); reflexivity).
  replace (filter isSinkCall (loadingEffect _ _)) with (@nil Call)
    by (unfold loadingEffect; destruct (onLoading props); try reflexivity;
        destruct (loading _ _ _); reflexivity).
  replace (filter isSinkCall (successEffect _ _)) with (@nil Call)
    by (unfold successEffect; destruct (onSuccess props); try reflexivity;
        destruct (Status_eqb _ _); reflexivity).
  replace (filter isSinkCall (failureEffect _ _)) with (@nil Call)
    by (unfold failureEffect; destruct (onFailure props); try reflexivity;
        destruct (truthy _); reflexivity).
  rewrite !useEffect_nil. reflexivity.
Qed.

(** C8, as the code has it: in a pass where the page stage has succeeded and
    the mounted canvas gives a 2D context, the sink takes the page's viewport
    at the [scale] prop (at 1 when the prop is omitted), sets the canvas
    height and width to the viewport's and then issues one draw call; this
    happens in the first pass and in any pass in which the page result or the
    scale is not the one of the pass before, and in no other.  With no canvas
    mounted, or a canvas that gives no 2D context, nothing is resized or
    drawn. *)
Theorem render_sink_draws_once_per_change :
  forall (host : Host) (props : ByblosProps) (h : Hooks),
    let h' := passHooks host props h in
    let p := published (pageStage h') in
    (renderDeps h = Some (p, scale props) -> sinkCalls host props h = [])
    /\ (renderDeps h <> Some (p, scale props) ->
        sinkCalls host props h =
        match canvasRef h', p with
        | Some canvas, Success pageData =>
            match getContext2d host canvas with
            | Some context =>
                let viewport :=
                  getViewport host pageData
                    (match scale props with Some s => s | None => js_one end) in
                [ SetCanvasHeight canvas (height viewport);
                  SetCanvasWidth canvas (width viewport);
                  RenderPage pageData context viewport ]
            | None => []
            end
        | _, _ => []
        end).
Proof.
  intros host props h h' p. subst h' p.
  rewrite passHooks_pageStage, sinkCalls_eq. split; intros H.
  - rewrite H. apply useEffect_same.
  - rewrite useEffect_changed by exact H. reflexivity.
Qed.

Lemma render_sink_draws_once_per_change_witness :
  renderDeps (pagePublished demoHost)
  <> Some (published (pageStage (passHooks demoHost demoProps (pagePublished demoHost))),
           scale demoProps)
  /\ sinkCalls demoHost demoProps (pagePublished demoHost) =
     [ SetCanvasHeight 9%positive (px 800 0);
       SetCanvasWidth 9%positive (px 600 0);
       RenderPage 300%positive 10%positive (mkViewport (px 800 0) (px 600 0)) ].
Proof.
  assert (H : renderDeps (pagePublished demoHost)
              <> Some (published (pageStage (passHooks demoHost demoProps
                                               (pagePublished demoHost))),
                       scale demoProps))
    by (vm_compute; discriminate).
  split; [exact H|].
  exact (proj2 (render_sink_draws_once_per_change demoHost demoProps
                  (pagePublished demoHost)) H).
Defined.

(** C8, as stated, fails: the page stage has succeeded and the canvas is
    mounted, the page result is new, and yet nothing is resized or drawn,
    because the canvas gives no 2D context. *)
Lemma no_draw_without_2d_context :
  let h := pagePublished contextlessHost in
  let h' := passHooks contextlessHost demoProps h in
  published (pageStage h') = Success 300%positive
  /\ canvasRef h' = Some (canvasElement contextlessHost)
  /\ renderDeps h <> Some (published (pageStage h'), scale demoProps)
  /\ sinkCalls contextlessHost demoProps h = []
  /\ filter isSinkCall (snd (exec contextlessHost unmounted scenarioA)) = []
  /\ ~ (forall host props h0,
          (exists pageData, published (pageStage (passHooks host props h0)) = Success pageData) ->
          (exists canvas, canvasRef (passHooks host props h0) = Some canvas) ->
          renderDeps h0 <> Some (published (pageStage (passHooks host props h0)), scale props) ->
          exists pageData context viewport,
            In (RenderPage pageData context viewport) (sinkCalls host props h0)).
Proof.
  cbv zeta.
  split; [reflexivity|]. split; [reflexivity|]. split; [vm_compute; discriminate|].
  split; [reflexivity|]. split; [reflexivity|].
  intros H.
  destruct (H contextlessHost demoProps (pagePublished contextlessHost))
    as (pg & ctx & vp & Hin).
  - exists 300%positive. reflexivity.
  - exists 9%positive. reflexivity.
  - vm_compute. discriminate.
  - exact Hin.
Qed.

(** ** The runner *)

Section RunnerFacts.

Context {K T : Type} (dec : forall a b : K, {a = b} + {a <> b}).

Lemma live_In (t : RunToken) (r : Runner K T) : live t r = true <-> In t (inflight r).
Proof.
  unfold live. rewrite existsb_exists. split.
  - intros (u & Hu & E). apply Nat.eqb_eq in E. subst. exact Hu.
  - intros H. exists t. split; [exact H | apply Nat.eqb_refl].
Qed.

Lemma sameKey_true (seen : option K) (k : K) : sameKey dec seen k = true <-> seen = Some k.
Proof.
  unfold sameKey. destruct seen as [k0|].
  - rewrite Object_is_true. split; congruence.
  - split; discriminate.
Qed.

Lemma sameKey_false (seen : option K) (k : K) : sameKey dec seen k = false <-> seen <> Some k.
Proof.
  rewrite <- sameKey_true. destruct (sameKey dec seen k); split; congruence.
Qed.

(** A call of [run] either leaves the runner as it is (same key) or restarts
    it: next token, [Pending] with the run in flight, or [Idle] when the
    producer is blocked. *)
Lemma run_cases (stage : Stage) (producer : Produced) (k : K) (r : Runner K T) :
  (key r = Some k /\ run dec stage producer k r = (r, []))
  \/ (key r <> Some k
      /\ key (fst (run dec stage producer k r)) = Some k
      /\ token (fst (run dec stage producer k r)) = S (token r)
      /\ published (fst (run dec stage producer k r))
         = match producer with Suspended => Idle | Started _ => Pending end
      /\ match producer with
         | Suspended =>
             inflight (fst (run dec stage producer k r)) = inflight r
             /\ snd (run dec stage producer k r) = []
         | Started q =>
             inflight (fst (run dec stage producer k r)) = S (token r) :: inflight r
             /\ snd (run dec stage producer k r) = [Issue stage (S (token r)) q]
         end).
Proof.
  unfold run. destruct (sameKey dec (key r) k) eqn:E.
  - left. apply sameKey_true in E. auto.
  - right. apply sameKey_false in E. destruct producer; simpl; repeat split; auto.
Qed.

Lemma run_key (stage : Stage) (producer : Produced) (k : K) (r : Runner K T) :
  key (fst (run dec stage producer k r)) = Some k.
Proof.
  destruct (run_cases stage producer k r) as [[H E]|(_ & H & _)]; [rewrite E|]; assumption.
Qed.

Lemma run_same_key (stage : Stage) (producer : Produced) (k : K) (r : Runner K T) :
  key r = Some k -> run dec stage producer k r = (r, []).
Proof.
  intros H. destruct (run_cases stage producer k r) as [[_ E]|(N & _)]; congruence.
Qed.

(** The token guard of [settle]. *)
Lemma settle_cases (t : RunToken) (o : Outcome T) (r : Runner K T) :
  key (settle t o r) = key r
  /\ token (settle t o r) = token r
  /\ (forall u, In u (inflight (settle t o r)) -> In u (inflight r))
  /\ (live t r = true -> ~ In t (inflight (settle t o r)))
  /\ published (settle t o r) =
     if live t r && current t r then ofOutcome o else published r.
Proof.
  unfold settle. destruct (live t r) eqn:L; simpl.
  - destruct (current t r) eqn:C; simpl; repeat split; auto;
      try (intros u Hu; apply filter_In in Hu; tauto);
      intros _ Hu; apply filter_In in Hu; destruct Hu as [_ Hu];
      rewrite Nat.eqb_refl in Hu; discriminate.
  - repeat split; auto. discriminate.
Qed.

Lemma settle_published (t : RunToken) (o : Outcome T) (r : Runner K T) :
  published (settle t o r) = if live t r && current t r then ofOutcome o else published r.
Proof. apply settle_cases. Qed.

Lemma settle_dead (t : RunToken) (o : Outcome T) (r : Runner K T) :
  live t r = false -> settle t o r = r.
Proof. unfold settle. intros ->. reflexivity. Qed.

(** *** Invariants of one runner *)

Lemma run_bounded stage producer k (r : Runner K T) :
  bounded r -> bounded (fst (run dec stage producer k r)).
Proof.
  intros B. destruct (run_cases stage producer k r) as [[_ E]|(_ & _ & Ht & _ & H)].
  - rewrite E. exact B.
  - intros t Hin. rewrite Ht.
    destruct producer; destruct H as [Hi _]; rewrite Hi in Hin.
    + apply B in Hin. lia.
    + destruct Hin as [<-|Hin]; [lia | apply B in Hin; lia].
Qed.

Lemma settle_bounded t o (r : Runner K T) : bounded r -> bounded (settle t o r).
Proof.
  intros B u Hu. destruct (settle_cases t o r) as (_ & Ht & Hi & _).
  rewrite Ht. apply B, Hi, Hu.
Qed.

Lemma run_awaiting stage producer k (r : Runner K T) :
  bounded r -> awaiting r -> awaiting (fst (run dec stage producer k r)).
Proof.
  intros B A. destruct (run_cases stage producer k r) as [[_ E]|(_ & _ & Ht & Hp & H)].
  - rewrite E. exact A.
  - intros Hin. rewrite Hp. rewrite Ht in Hin.
    destruct producer as [|q]; [|reflexivity].
    destruct H as [Hi _]. rewrite Hi in Hin. apply B in Hin. lia.
Qed.

Lemma settle_awaiting t o (r : Runner K T) : awaiting r -> awaiting (settle t o r).
Proof.
  intros A Hin. destruct (settle_cases t o r) as (_ & Ht & Hi & Hd & Hp).
  rewrite Ht in Hin. rewrite Hp.
  destruct (live t r) eqn:L; simpl.
  - destruct (current t r) eqn:C; simpl.
    + apply Nat.eqb_eq in C. subst t. exfalso. apply Hd; auto.
    + apply A, Hi, Hin.
  - apply A, Hi, Hin.
Qed.

Lemma run_guarded ready stage producer k (r : Runner K T) :
  bounded r -> (forall q, producer = Started q -> ready k = true) ->
  guarded ready r -> guarded ready (fst (run dec stage producer k r)).
Proof.
  intros B R G.
  destruct (run_cases stage producer k r) as [[_ E]|(_ & Hk & Ht & Hp & H)].
  - rewrite E. exact G.
  - intros C. rewrite Hp, Ht in C.
    destruct producer as [|q]; destruct H as [Hi _]; rewrite Hi in C; simpl in C.
    + destruct C as [C|[C|C]]; try discriminate. apply B in C. lia.
    + exists k. split; [exact Hk | apply (R q); reflexivity].
Qed.

Lemma settle_guarded ready t o (r : Runner K T) : guarded ready r -> guarded ready (settle t o r).
Proof.
  intros G C. destruct (settle_cases t o r) as (Hk & Ht & Hi & _ & Hp).
  rewrite Hk. apply G. rewrite Ht, Hp in C.
  destruct C as [C|C]; [left; apply Hi, C|].
  destruct (live t r) eqn:L; simpl in C; [|tauto].
  destruct (current t r) eqn:E; simpl in C; [|tauto].
  left. apply Nat.eqb_eq in E. subst t. apply live_In. exact L.
Qed.

End RunnerFacts.

(** ** Invariants of a mounted component *)

Lemma pass_eq host props h :
  pass host props h = (mkInstance (passHooks host props h) (Some props), passCalls host props h).
Proof.
  unfold pass, passHooks, passCalls. destruct (Byblos host props h) as [[h' out] calls].
  reflexivity.
Qed.

Lemma documentProducer_ready b q :
  documentProducer b = Started q -> documentReady b = true.
Proof. destruct b; simpl; intros H; try discriminate. reflexivity. Qed.

Lemma pageProducer_ready d pg q :
  pageProducer d pg = Started q -> pageReady (d, pg) = true.
Proof. destruct d; simpl; intros H; try discriminate. reflexivity. Qed.

Lemma pass_sound host props h : sound h -> sound (passHooks host props h).
Proof.
  intros [B1 B2 B3 A1 A2 A3 G2 G3].
  constructor;
    rewrite ?passHooks_bufferStage, ?passHooks_documentStage, ?passHooks_pageStage;
    unfold bufferAfter, documentAfter, pageAfter;
    auto using run_bounded, run_awaiting.
  - apply run_guarded; auto. intros q. apply documentProducer_ready.
  - apply run_guarded; auto. intros q. apply pageProducer_ready.
Qed.

Lemma pass_coherent host props h : coherent (fst (pass host props h)).
Proof.
  rewrite pass_eq. unfold coherent, bufferResult, documentResult. simpl.
  rewrite passHooks_bufferStage, passHooks_documentStage, passHooks_pageStage.
  unfold pageAfter, documentAfter, bufferAfter at 1. rewrite !run_key. auto.
Qed.

Lemma pass_invariant host props h : sound h -> invariant (fst (pass host props h)).
Proof.
  intros S. split; [|apply pass_coherent]. rewrite pass_eq. simpl.
  apply pass_sound, S.
Qed.

Lemma mount_sound : sound mount.
Proof.
  constructor; unfold mount, bounded, awaiting, guarded; simpl; try tauto.
  all: intros [[]|[H|H]]; discriminate.
Qed.

Lemma unmounted_invariant : invariant unmounted.
Proof. split; [apply mount_sound | reflexivity]. Qed.

Lemma withBufferStage_sound r h :
  sound h -> bounded r -> awaiting r -> sound (withBufferStage r h).
Proof. intros [B1 B2 B3 A1 A2 A3 G2 G3] B A. constructor; simpl; auto. Qed.

Lemma withDocumentStage_sound r h :
  sound h -> bounded r -> awaiting r -> guarded documentReady r ->
  sound (withDocumentStage r h).
Proof. intros [B1 B2 B3 A1 A2 A3 G2 G3] B A G. constructor; simpl; auto. Qed.

Lemma withPageStage_sound r h :
  sound h -> bounded r -> awaiting r -> guarded pageReady r ->
  sound (withPageStage r h).
Proof. intros [B1 B2 B3 A1 A2 A3 G2 G3] B A G. constructor; simpl; auto. Qed.

Lemma update_invariant host applied h w :
  sound h ->
  (applied = false -> coherent (mkInstance h (rendered w))) ->
  (rendered w = None -> applied = false) ->
  invariant (fst (update host applied h w)).
Proof.
  intros S C N. unfold update. destruct (rendered w) as [props|] eqn:R.
  - destruct applied.
    + apply pass_invariant, S.
    + split; [exact S | apply C; reflexivity].
  - split; [exact S | apply C, N; reflexivity].
Qed.

Lemma mount_nothing_live w :
  coherent w -> rendered w = None ->
  forall t, live t (bufferStage (hooks w)) = false
            /\ live t (documentStage (hooks w)) = false
            /\ live t (pageStage (hooks w)) = false.
Proof.
  unfold coherent. intros C R t. rewrite R in C. rewrite C. auto.
Qed.

Lemma step_invariant host w i : invariant w -> invariant (fst (step host w i)).
Proof.
  intros [S C]. destruct i as [props|t o|t o|t o]; simpl.
  - apply pass_invariant, S.
  - apply update_invariant.
    + destruct S. apply withBufferStage_sound;
        auto using mkSound, settle_bounded, settle_awaiting.
    + intros E. unfold coherent in *. simpl. destruct (rendered w) as [props|] eqn:R.
      * unfold bufferResult, documentResult in *. simpl.
        destruct (settle_cases t o (bufferStage (hooks w))) as (Hk & _ & _ & _ & Hp).
        rewrite Hk, Hp, E. exact C.
      * rewrite settle_dead; [rewrite C; reflexivity|].
        rewrite C. reflexivity.
    + intros R. destruct (mount_nothing_live w C R t) as (-> & _). reflexivity.
  - apply update_invariant.
    + destruct S. apply withDocumentStage_sound;
        auto using mkSound, settle_bounded, settle_awaiting, settle_guarded.
    + intros E. unfold coherent in *. simpl. destruct (rendered w) as [props|] eqn:R.
      * unfold bufferResult, documentResult in *. simpl.
        destruct (settle_cases t o (documentStage (hooks w))) as (Hk & _ & _ & _ & Hp).
        rewrite Hk, Hp, E. exact C.
      * rewrite settle_dead; [rewrite C; reflexivity|].
        rewrite C. reflexivity.
    + intros R. destruct (mount_nothing_live w C R t) as (_ & -> & _). reflexivity.
  - apply update_invariant.
    + destruct S. apply withPageStage_sound;
        auto using mkSound, settle_bounded, settle_awaiting, settle_guarded.
    + intros E. unfold coherent in *. simpl. destruct (rendered w) as [props|] eqn:R.
      * unfold bufferResult, documentResult in *. simpl.
        destruct (settle_cases t o (pageStage (hooks w))) as (Hk & _ & _ & _ & Hp).
        rewrite Hk. exact C.
      * rewrite settle_dead; [rewrite C; reflexivity|].
        rewrite C. reflexivity.
    + intros R. destruct (mount_nothing_live w C R t) as (_ & _ & ->). reflexivity.
Qed.

Lemma exec_invariant host inputs :
  forall w, invariant w -> invariant (fst (exec host w inputs)).
Proof.
  induction inputs as [|i rest IH]; intros w I; simpl; [exact I|].
  destruct (step host w i) as [w1 c1] eqn:E1.
  specialize (IH w1). destruct (exec host w1 rest) as [w2 c2]. simpl in *.
  apply IH. replace w1 with (fst (step host w i)) by (rewrite E1; reflexivity).
  apply step_invariant, I.
Qed.

Lemma after_invariant host inputs : invariant (after host inputs).
Proof. apply exec_invariant, unmounted_invariant. Qed.

(** ** Blocked stages *)

Lemma document_needs_buffer w :
  invariant w ->
  In (token (documentStage (hooks w))) (inflight (documentStage (hooks w)))
  \/ settled (documentResult w) ->
  status (bufferResult w) = success.
Proof.
  intros [S C] H. destruct (document_guarded S H) as (k & Hk & R).
  unfold coherent in C. destruct (rendered w) as [props|].
  - destruct C as (_ & C & _). rewrite C in Hk. inversion Hk; subst.
    apply Status_eqb_eq. exact R.
  - rewrite C in Hk. discriminate.
Qed.

Lemma page_needs_document w :
  invariant w ->
  In (token (pageStage (hooks w))) (inflight (pageStage (hooks w)))
  \/ settled (pageResult w) ->
  status (documentResult w) = success.
Proof.
  intros [S C] H. destruct (page_guarded S H) as (k & Hk & R).
  unfold coherent in C. destruct (rendered w) as [props|].
  - destruct C as (_ & _ & C). rewrite C in Hk. inversion Hk; subst.
    apply Status_eqb_eq. exact R.
  - rewrite C in Hk. discriminate.
Qed.

Lemma blocked_downstream w :
  invariant w -> status (bufferResult w) <> success ->
  ~ settled (documentResult w) /\ ~ settled (pageResult w)
  /\ ~ In (token (documentStage (hooks w))) (inflight (documentStage (hooks w)))
  /\ ~ In (token (pageStage (hooks w))) (inflight (pageStage (hooks w))).
Proof.
  intros I N.
  assert (D : ~ (In (token (documentStage (hooks w))) (inflight (documentStage (hooks w)))
                 \/ settled (documentResult w)))
    by (intros H; apply N, (document_needs_buffer I H)).
  assert (P : ~ (In (token (pageStage (hooks w))) (inflight (pageStage (hooks w)))
                 \/ settled (pageResult w))).
  { intros H. apply D. right. left. apply (page_needs_document I H). }
  tauto.
Qed.

Lemma no_issue_iff calls :
  filter isIssue calls = [] <-> forall s t q, ~ In (Issue s t q) calls.
Proof.
  induction calls as [|c calls IH]; simpl.
  - split; auto.
  - destruct c; simpl; try (rewrite IH; split;
      [ intros H s t q [E|E]; [discriminate | apply (H s t q E)]
      | intros H s t q E; apply (H s t q); auto ]).
    split; [discriminate|]. intros H. exfalso. apply (H stage token0 request). auto.
Qed.

Lemma bytesFailed_step host src e w i :
  bytesFailed src e w -> keepsSource src i ->
  bytesFailed src e (fst (step host w i)) /\ filter isIssue (snd (step host w i)) = [].
Proof.
  intros (I & F & props & R & Hs) K.
  assert (I' := step_invariant host i I).
  assert (N : status (bufferResult w) <> success) by (rewrite F; discriminate).
  destruct (blocked_downstream I N) as (ND & NP & LD & LP).
  destruct I as [S C]. unfold coherent in C. rewrite R in C.
  destruct C as (Kb & Kd & Kp).
  assert (LB : ~ In (token (bufferStage (hooks w))) (inflight (bufferStage (hooks w)))).
  { intros H. apply (buffer_awaiting S) in H. unfold bufferResult in F. congruence. }
  destruct i as [props'|t o|t o|t o]; simpl in K |- *.
  - simpl in I'. rewrite pass_eq in I' |- *. simpl in I' |- *.
    assert (Eb : bufferAfter props' (hooks w) = bufferStage (hooks w)).
    { unfold bufferAfter. rewrite run_same_key; [reflexivity | congruence]. }
    assert (Ed : documentAfter props' (hooks w) = documentStage (hooks w)).
    { unfold documentAfter. rewrite Eb. rewrite run_same_key; [reflexivity | exact Kd]. }
    split.
    + split; [exact I'|]. split.
      * unfold bufferResult. simpl. rewrite passHooks_bufferStage, Eb. exact F.
      * exists props'. auto.
    + apply no_issue_iff. intros s t q H. apply effects_issue_nothing in H.
      rewrite !in_app_iff in H. unfold bufferIssued, documentIssued, pageIssued in H.
      rewrite Eb, Ed in H. fold (bufferAfter props' (hooks w)) in H.
      rewrite !run_issue in H.
      destruct H as [H|[H|H]].
      * destruct H as (_ & _ & _ & H). apply sameKey_false in H. congruence.
      * destruct H as (_ & _ & _ & H). apply sameKey_false in H.
        apply H. exact Kd.
      * destruct H as (_ & _ & H & _).
        apply pageProducer_ready in H. apply Status_eqb_eq in H. simpl in H.
        apply ND. left. exact H.
  - assert (A : live t (bufferStage (hooks w)) && current t (bufferStage (hooks w)) = false).
    { destruct (live t _) eqn:L; [|reflexivity]. destruct (current t _) eqn:E; [|reflexivity].
      apply Nat.eqb_eq in E. subst t. apply live_In in L. tauto. }
    simpl in I'. unfold update in I' |- *. rewrite R, A in I' |- *. simpl in I' |- *.
    split; [|reflexivity]. split; [exact I'|]. split.
    + unfold bufferResult. simpl. rewrite settle_published, A. exact F.
    + exists props. auto.
  - assert (A : live t (documentStage (hooks w)) && current t (documentStage (hooks w))
                = false).
    { destruct (live t _) eqn:L; [|reflexivity]. destruct (current t _) eqn:E; [|reflexivity].
      apply Nat.eqb_eq in E. subst t. apply live_In in L. tauto. }
    simpl in I'. unfold update in I' |- *. rewrite R, A in I' |- *. simpl in I' |- *.
    split; [|reflexivity]. split; [exact I'|]. split; [exact F|].
    exists props. auto.
  - assert (A : live t (pageStage (hooks w)) && current t (pageStage (hooks w)) = false).
    { destruct (live t _) eqn:L; [|reflexivity]. destruct (current t _) eqn:E; [|reflexivity].
      apply Nat.eqb_eq in E. subst t. apply live_In in L. tauto. }
    simpl in I'. unfold update in I' |- *. rewrite R, A in I' |- *. simpl in I' |- *.
    split; [|reflexivity]. split; [exact I'|]. split; [exact F|].
    exists props. auto.
Qed.

Lemma bytesFailed_exec host src e more :
  forall w, bytesFailed src e w -> Forall (keepsSource src) more ->
            bytesFailed src e (fst (exec host w more))
            /\ filter isIssue (snd (exec host w more)) = [].
Proof.
  induction more as [|i rest IH]; intros w B K; simpl; [auto|].
  inversion K as [|? ? Ki Kr]; subst.
  destruct (bytesFailed_step host i B Ki) as [B1 N1].
  destruct (step host w i) as [w1 c1]. simpl in B1, N1.
  destruct (IH w1 B1 Kr) as [B2 N2].
  destruct (exec host w1 rest) as [w2 c2]. simpl in *.
  split; [exact B2|]. rewrite filter_app, N1, N2. reflexivity.
Qed.

Lemma run_all_issue {K T : Type} (dec : forall a b : K, {a = b} + {a <> b})
  (stage : Stage) (producer : Produced) (k : K) (r : Runner K T) :
  filter isIssue (snd (run dec stage producer k r)) = snd (run dec stage producer k r).
Proof.
  unfold run. destruct (sameKey dec (key r) k); [reflexivity|].
  destruct producer; reflexivity.
Qed.

Lemma issued_by_pass host props h :
  filter isIssue (passCalls host props h) =
  bufferIssued props h ++ documentIssued props h ++ pageIssued props h.
Proof.
  unfold passCalls. rewrite Byblos_eq. cbv zeta. simpl snd.
  unfold bufferIssued, documentIssued, pageIssued.
  rewrite !filter_app, !run_all_issue, !useEffect_filter.
  replace (filter isIssue (documentSuccessEffect _ _)) with (@nil Call)
    by (unfold documentSuccessEffect; destruct (published (documentAfter props h));
        try reflexivity; destruct (onDocumentSuccess props); reflexivity).
  replace (filter isIssue (pageSuccessEffect _ _)) with (@nil Call)
    by (unfold pageSuccessEffect; destruct (published (pageAfter props h));
        try reflexivity; destruct (onPageSuccess props); reflexivity).
  replace (filter isIssue (loadingEffect _ _)) with (@nil Call)
    by (unfold loadingEffect; destruct (onLoading props); try reflexivity;
        destruct (loading _ _ _); reflexivity).
  replace (filter isIssue (successEffect _ _)) with (@nil Call)
    by (unfold successEffect; destruct (onSuccess props); try reflexivity;
        destruct (Status_eqb _ _); reflexivity).
  replace (filter isIssue (failureEffect _ _)) with (@nil Call)
    by (unfold failureEffect; destruct (onFailure props); try reflexivity;
        destruct (truthy _); reflexivity).
  replace (filter isIssue (renderEffect _ _ _ _)) with (@nil Call)
    by (unfold renderEffect; destruct (commitRef _ _); try reflexivity;
        destruct (published (pageAfter props h)); try reflexivity;
        destruct (getContext2d _ _); reflexivity).
  rewrite !useEffect_nil, !app_nil_r. reflexivity.
Qed.

(** C2: whenever the bytes stage publishes [Pending] or [Failure], the
    producers of the document and page stages answer with the suspend
    sentinel and neither stage has a result, [Success] or [Failure]; this
    holds in every state the component can reach, so for as long as the bytes
    stage stays that way.  A failed bytes stage stays failed, nothing at all is
    requested and the two stages stay without a result, through every input
    that leaves the bytes stage's key (type, value, fetch options) alone. *)
Theorem downstream_blocked_until_bytes_ready :
  forall (host : Host) (inputs : list Input),
    let w := after host inputs in
    bufferResult w = Pending \/ (exists e, bufferResult w = Failure e) ->
    documentProducer (bufferResult w) = Suspended
    /\ (forall pg, pageProducer (documentResult w) pg = Suspended)
    /\ ~ settled (documentResult w) /\ ~ settled (pageResult w)
    /\ (forall more,
          let w' := fst (exec host w more) in
          bufferResult w' = Pending \/ (exists e, bufferResult w' = Failure e) ->
          ~ settled (documentResult w') /\ ~ settled (pageResult w'))
    /\ (forall e props more,
          bufferResult w = Failure e -> rendered w = Some props ->
          Forall (keepsSource (source props)) more ->
          let w' := fst (exec host w more) in
          bufferResult w' = Failure e
          /\ ~ settled (documentResult w') /\ ~ settled (pageResult w')
          /\ filter isIssue (snd (exec host w more)) = []).
Proof.
  intros host inputs w H.
  assert (I : invariant w) by apply after_invariant.
  assert (N : forall v, invariant v ->
                        bufferResult v = Pending \/ (exists e, bufferResult v = Failure e) ->
                        ~ settled (documentResult v) /\ ~ settled (pageResult v)).
  { intros v Iv Hv.
    assert (Nv : status (bufferResult v) <> success)
      by (destruct Hv as [->|[e ->]]; discriminate).
    destruct (blocked_downstream Iv Nv) as (D & P & _). auto. }
  destruct (N w I H) as [D P].
  split; [destruct H as [->|[e ->]]; reflexivity|].
  split.
  { intros pg. destruct (documentResult w) eqn:E; try reflexivity.
    exfalso. apply D. left. reflexivity. }
  split; [exact D|]. split; [exact P|]. split.
  - intros more w' H'. apply N; [apply exec_invariant, I | exact H'].
  - intros e props more F R K w'.
    assert (B : bytesFailed (source props) e w).
    { split; [exact I|]. split; [exact F|]. exists props. auto. }
    destruct (@bytesFailed_exec host (source props) e more w B K) as [(I' & F' & _) NI].
    split; [exact F'|].
    destruct (N (fst (exec host w more)) I') as [D' P'];
      [right; exists e; exact F'|]. auto.
Qed.

Lemma downstream_blocked_until_bytes_ready_witness :
  let w := after demoHost [Render demoProps; SettleBuffer 1 (Rejected (JSObject 5%positive))] in
  bufferResult w = Failure (JSObject 5%positive)
  /\ ~ settled (documentResult w) /\ ~ settled (pageResult w).
Proof.
  cbv zeta.
  assert (H : bufferResult (after demoHost
                [Render demoProps; SettleBuffer 1 (Rejected (JSObject 5%positive))])
              = Pending
              \/ (exists e, bufferResult (after demoHost
                    [Render demoProps; SettleBuffer 1 (Rejected (JSObject 5%positive))])
                  = Failure e))
    by (right; exists (JSObject 5%positive); reflexivity).
  split; [reflexivity|].
  destruct (downstream_blocked_until_bytes_ready demoHost
              [Render demoProps; SettleBuffer 1 (Rejected (JSObject 5%positive))] H)
    as (_ & _ & D & P & _).
  split; assumption.
Defined.

(** C3: when the document stage has succeeded and the host renders again with
    another page index and the same source (type, value, fetch options), only
    the page stage restarts: the bytes and document stages are left exactly as
    they were, the page stage takes a new token and publishes [Pending], and
    the one request issued in the pass is the page stage's, for the new page
    of the same document. *)
Theorem page_change_restarts_page_only :
  forall (host : Host) (inputs : list Input) (props props' : ByblosProps)
         (pdf : PDFDocumentProxy),
    let w := after host inputs in
    rendered w = Some props ->
    documentResult w = Success pdf ->
    source props' = source props ->
    page props' <> page props ->
    let w' := fst (step host w (Render props')) in
    let calls := snd (step host w (Render props')) in
    bufferStage (hooks w') = bufferStage (hooks w)
    /\ documentStage (hooks w') = documentStage (hooks w)
    /\ pageResult w' = Pending
    /\ token (pageStage (hooks w')) = S (token (pageStage (hooks w)))
    /\ filter isIssue calls =
       [ Issue PageStage (S (token (pageStage (hooks w))))
           (GetPage pdf (match page props' with Some n => n | None => js_one end)) ].
Proof.
  intros host inputs props props' pdf w R D Hs Hp w' calls. subst w' calls.
  destruct (after_invariant host inputs) as [S C]. fold w in S, C.
  unfold coherent in C. rewrite R in C. destruct C as (Kb & Kd & Kp).
  simpl. rewrite pass_eq. simpl.
  assert (Eb : bufferAfter props' (hooks w) = bufferStage (hooks w)).
  { unfold bufferAfter. rewrite run_same_key; [reflexivity | congruence]. }
  assert (Ed : documentAfter props' (hooks w) = documentStage (hooks w)).
  { unfold documentAfter. rewrite Eb. rewrite run_same_key; [reflexivity | exact Kd]. }
  assert (Nb : bufferIssued props' (hooks w) = []).
  { unfold bufferIssued. rewrite run_same_key; [reflexivity | congruence]. }
  assert (Nd : documentIssued props' (hooks w) = []).
  { unfold documentIssued. rewrite Eb. rewrite run_same_key; [reflexivity | exact Kd]. }
  rewrite passHooks_bufferStage, passHooks_documentStage, issued_by_pass, Nb, Nd.
  unfold pageResult. simpl. rewrite passHooks_pageStage.
  unfold pageIssued, pageAfter. rewrite Ed.
  fold (documentResult w). rewrite D. simpl pageProducer.
  destruct (run_cases (pair_eq_dec documentResult_dec (option_eq_dec number_eq_dec))
              PageStage (Started (GetPage pdf (nullish (page props') js_one)))
              (Success pdf, page props') (pageStage (hooks w)))
    as [[E _]|(_ & _ & Ht & Hpub & _ & Hi)].
  - exfalso. rewrite Kp, D in E. inversion E. congruence.
  - rewrite Hi. repeat split; auto.
Qed.

(** ** Stale results *)

Lemma exec_app host l1 l2 :
  forall w,
    exec host w (l1 ++ l2) =
    (fst (exec host (fst (exec host w l1)) l2),
     snd (exec host w l1) ++ snd (exec host (fst (exec host w l1)) l2)).
Proof.
  induction l1 as [|i l1 IH]; intros w; simpl.
  - destruct (exec host w l2); reflexivity.
  - destruct (step host w i) as [w1 c1]. rewrite IH.
    destruct (exec host w1 l1) as [w2 c2]. simpl.
    destruct (exec host w2 l2) as [w3 c3]. simpl. rewrite app_assoc. reflexivity.
Qed.

Lemma after_snoc host inputs i :
  after host (inputs ++ [i]) = fst (step host (after host inputs) i).
Proof.
  unfold after. rewrite exec_app. simpl.
  destruct (step host (fst (exec host unmounted inputs)) i). reflexivity.
Qed.

Lemma ofOutcome_inj {T : Type} (o o' : Outcome T) : ofOutcome o = ofOutcome o' -> o = o'.
Proof. destruct o, o'; simpl; intros H; inversion H; reflexivity. Qed.

Lemma ofOutcome_settled {T : Type} (o : Outcome T) : settled (ofOutcome o).
Proof. destruct o; [left | right]; reflexivity. Qed.

Lemma run_keeps_or_resets {K T : Type} (dec : forall a b : K, {a = b} + {a <> b})
  (stage : Stage) (producer : Produced) (k : K) (r : Runner K T) :
  fst (run dec stage producer k r) = r
  \/ ~ settled (published (fst (run dec stage producer k r))).
Proof.
  destruct (run_cases dec stage producer k r) as [[_ E]|(_ & _ & _ & H & _)].
  - left. rewrite E. reflexivity.
  - right. rewrite H. destruct producer; simpl; intros [C|C]; discriminate.
Qed.

Lemma pass_delivered host props inputs h :
  deliveredTo inputs h -> deliveredTo inputs (passHooks host props h).
Proof.
  intros (B & D & P). unfold deliveredTo.
  rewrite passHooks_bufferStage, passHooks_documentStage, passHooks_pageStage.
  unfold pageAfter, documentAfter, bufferAfter at 1 2.
  repeat split; intros o H;
    match type of H with
    | published (fst (run ?dec ?s ?p ?k ?r)) = _ =>
        destruct (run_keeps_or_resets dec s p k r) as [E|E];
        [ rewrite E in *; auto
        | exfalso; apply E; rewrite H; apply ofOutcome_settled ]
    end.
Qed.

Lemma delivered_mono inputs inputs' h :
  incl inputs inputs' -> deliveredTo inputs h -> deliveredTo inputs' h.
Proof.
  intros I (B & D & P). repeat split; intros o H; apply I; auto.
Qed.

Lemma update_delivered host applied inputs h w :
  deliveredTo inputs h -> deliveredTo inputs (hooks (fst (update host applied h w))).
Proof.
  intros D. unfold update. destruct (rendered w); [|exact D].
  destruct applied; [|exact D]. rewrite pass_eq. simpl. apply pass_delivered, D.
Qed.

Lemma step_delivered host inputs w i :
  deliveredTo inputs (hooks w) ->
  deliveredTo (inputs ++ [i]) (hooks (fst (step host w i))).
Proof.
  intros D.
  assert (D' : deliveredTo (inputs ++ [i]) (hooks w))
    by (apply (delivered_mono (inputs := inputs)); [apply incl_appl, incl_refl | exact D]).
  clear D. destruct D' as (B & D & P).
  destruct i as [props|t o|t o|t o]; simpl.
  - rewrite pass_eq. simpl. apply pass_delivered. repeat split; assumption.
  - apply update_delivered. repeat split; simpl; auto.
    intros o'. destruct (settle_cases t o (bufferStage (hooks w))) as (_ & -> & _ & _ & ->).
    destruct (live t _ && current t _) eqn:A; [|apply B].
    intros H. apply ofOutcome_inj in H. subst o'.
    apply andb_true_iff in A. destruct A as [_ A]. apply Nat.eqb_eq in A. subst t.
    apply in_or_app. right. left. reflexivity.
  - apply update_delivered. repeat split; simpl; auto.
    intros o'. destruct (settle_cases t o (documentStage (hooks w))) as (_ & -> & _ & _ & ->).
    destruct (live t _ && current t _) eqn:A; [|apply D].
    intros H. apply ofOutcome_inj in H. subst o'.
    apply andb_true_iff in A. destruct A as [_ A]. apply Nat.eqb_eq in A. subst t.
    apply in_or_app. right. left. reflexivity.
  - apply update_delivered. repeat split; simpl; auto.
    intros o'. destruct (settle_cases t o (pageStage (hooks w))) as (_ & -> & _ & _ & ->).
    destruct (live t _ && current t _) eqn:A; [|apply P].
    intros H. apply ofOutcome_inj in H. subst o'.
    apply andb_true_iff in A. destruct A as [_ A]. apply Nat.eqb_eq in A. subst t.
    apply in_or_app. right. left. reflexivity.
Qed.

Lemma after_delivered host inputs : deliveredTo inputs (hooks (after host inputs)).
Proof.
  induction inputs as [|i inputs IH] using rev_ind.
  - repeat split; intros o H; simpl in H; symmetry in H; destruct o; discriminate.
  - rewrite after_snoc. apply step_delivered, IH.
Qed.

Lemma update_dropped host h w : update host false h w = (mkInstance h (rendered w), []).
Proof. unfold update. destruct (rendered w); reflexivity. Qed.

Lemma not_current (t u : RunToken) : t <> u -> Nat.eqb t u = false.
Proof. intros H. apply Nat.eqb_neq. exact H. Qed.

Lemma mounted_when_live w :
  coherent w ->
  (exists t, live t (bufferStage (hooks w)) = true
             \/ live t (documentStage (hooks w)) = true
             \/ live t (pageStage (hooks w)) = true) ->
  exists props, rendered w = Some props.
Proof.
  intros C (t & H). destruct (rendered w) as [props|] eqn:R; [eauto|].
  destruct (mount_nothing_live w C R t) as (H1 & H2 & H3).
  rewrite H1, H2, H3 in H. destruct H as [H|[H|H]]; discriminate.
Qed.

Lemma settle_buffer_applied host w t o :
  invariant w -> live t (bufferStage (hooks w)) = true ->
  t = token (bufferStage (hooks w)) ->
  bufferResult (fst (step host w (SettleBuffer t o))) = ofOutcome o.
Proof.
  intros [S C] L E. simpl. unfold current. rewrite L, E, Nat.eqb_refl. simpl.
  destruct (mounted_when_live w C) as [props R]; [exists t; auto|].
  unfold update. rewrite R, pass_eq. unfold bufferResult. simpl.
  rewrite passHooks_bufferStage. unfold bufferAfter. simpl.
  unfold coherent in C. rewrite R in C. destruct C as (Kb & _).
  destruct (settle_cases (token (bufferStage (hooks w))) o (bufferStage (hooks w)))
    as (Hk & _ & _ & _ & Hp).
  rewrite run_same_key by (rewrite Hk; exact Kb). simpl.
  rewrite Hp. rewrite <- E at 1 2. unfold current. rewrite L, E, Nat.eqb_refl. reflexivity.
Qed.

Lemma settle_document_applied host w t o :
  invariant w -> live t (documentStage (hooks w)) = true ->
  t = token (documentStage (hooks w)) ->
  documentResult (fst (step host w (SettleDocument t o))) = ofOutcome o.
Proof.
  intros [S C] L E. simpl. unfold current. rewrite L, E, Nat.eqb_refl. simpl.
  destruct (mounted_when_live w C) as [props R]; [exists t; auto|].
  unfold update. rewrite R, pass_eq. unfold documentResult. simpl.
  rewrite passHooks_documentStage. unfold documentAfter, bufferAfter. simpl.
  unfold coherent in C. rewrite R in C. destruct C as (Kb & Kd & _).
  destruct (settle_cases (token (documentStage (hooks w))) o (documentStage (hooks w)))
    as (Hk & _ & _ & _ & Hp).
  rewrite (run_same_key SourceProps_eq_dec) by exact Kb. simpl.
  rewrite run_same_key by (rewrite Hk; exact Kd). simpl.
  rewrite Hp. rewrite <- E at 1 2. unfold current. rewrite L, E, Nat.eqb_refl. reflexivity.
Qed.

Lemma settle_page_applied host w t o :
  invariant w -> live t (pageStage (hooks w)) = true ->
  t = token (pageStage (hooks w)) ->
  pageResult (fst (step host w (SettlePage t o))) = ofOutcome o.
Proof.
  intros [S C] L E. simpl. unfold current. rewrite L, E, Nat.eqb_refl. simpl.
  destruct (mounted_when_live w C) as [props R]; [exists t; auto|].
  unfold update. rewrite R, pass_eq. unfold pageResult. simpl.
  rewrite passHooks_pageStage. unfold pageAfter, documentAfter, bufferAfter. simpl.
  unfold coherent in C. rewrite R in C. destruct C as (Kb & Kd & Kp).
  destruct (settle_cases (token (pageStage (hooks w))) o (pageStage (hooks w)))
    as (Hk & _ & _ & _ & Hp).
  rewrite (run_same_key SourceProps_eq_dec) by exact Kb. simpl.
  rewrite (run_same_key bufferResult_dec) by exact Kd. simpl.
  rewrite run_same_key by (rewrite Hk; exact Kp). simpl.
  rewrite Hp. rewrite <- E at 1 2. unfold current. rewrite L, E, Nat.eqb_refl. reflexivity.
Qed.

Lemma settle_buffer_dropped host w t o :
  t <> token (bufferStage (hooks w)) -> silent host w (SettleBuffer t o).
Proof.
  intros N. unfold silent. simpl. unfold current. rewrite (not_current N), andb_false_r.
  rewrite update_dropped. unfold bufferResult, documentResult, pageResult. simpl.
  rewrite settle_published. unfold current. rewrite (not_current N), andb_false_r. auto.
Qed.

Lemma settle_document_dropped host w t o :
  t <> token (documentStage (hooks w)) -> silent host w (SettleDocument t o).
Proof.
  intros N. unfold silent. simpl. unfold current. rewrite (not_current N), andb_false_r.
  rewrite update_dropped. unfold bufferResult, documentResult, pageResult. simpl.
  rewrite settle_published. unfold current. rewrite (not_current N), andb_false_r. auto.
Qed.

Lemma settle_page_dropped host w t o :
  t <> token (pageStage (hooks w)) -> silent host w (SettlePage t o).
Proof.
  intros N. unfold silent. simpl. unfold current. rewrite (not_current N), andb_false_r.
  rewrite update_dropped. unfold bufferResult, documentResult, pageResult. simpl.
  rewrite settle_published. unfold current. rewrite (not_current N), andb_false_r. auto.
Qed.

(** C1: after any sequence of passes (hence of key changes) and completions,
    and for each of the three stages: when a run in flight completes, its
    result becomes the stage's published result if the run's token is the
    stage's current token, and otherwise it is dropped, leaving every published
    result as it was and causing no call; and whatever the order of
    completions, a result a stage publishes was delivered by the run holding
    the stage's current token. *)
Theorem stale_results_are_dropped :
  forall (host : Host) (inputs : list Input),
    let w := after host inputs in
    (forall t o, live t (bufferStage (hooks w)) = true ->
       (t = token (bufferStage (hooks w)) ->
        bufferResult (fst (step host w (SettleBuffer t o))) = ofOutcome o)
       /\ (t <> token (bufferStage (hooks w)) -> silent host w (SettleBuffer t o)))
    /\ (forall t o, live t (documentStage (hooks w)) = true ->
       (t = token (documentStage (hooks w)) ->
        documentResult (fst (step host w (SettleDocument t o))) = ofOutcome o)
       /\ (t <> token (documentStage (hooks w)) -> silent host w (SettleDocument t o)))
    /\ (forall t o, live t (pageStage (hooks w)) = true ->
       (t = token (pageStage (hooks w)) ->
        pageResult (fst (step host w (SettlePage t o))) = ofOutcome o)
       /\ (t <> token (pageStage (hooks w)) -> silent host w (SettlePage t o)))
    /\ (forall o, bufferResult w = ofOutcome o ->
                  In (SettleBuffer (token (bufferStage (hooks w))) o) inputs)
    /\ (forall o, documentResult w = ofOutcome o ->
                  In (SettleDocument (token (documentStage (hooks w))) o) inputs)
    /\ (forall o, pageResult w = ofOutcome o ->
                  In (SettlePage (token (pageStage (hooks w))) o) inputs).
Proof.
  intros host inputs w.
  assert (I : invariant w) by apply after_invariant.
  destruct (after_delivered host inputs) as (B & D & P). fold w in B, D, P.
  split; [|split; [|split; [|auto]]]; intros t o L; split.
  - intros E. apply settle_buffer_applied; assumption.
  - apply settle_buffer_dropped.
  - intros E. apply settle_document_applied; assumption.
  - apply settle_document_dropped.
  - intros E. apply settle_page_applied; assumption.
  - apply settle_page_dropped.
Qed.

(** ** Callbacks *)

Lemma pass_remembered host props h : remembered (fst (pass host props h)).
Proof.
  rewrite pass_eq. unfold remembered, bufferResult, documentResult, pageResult. simpl.
  rewrite passHooks_bufferStage, passHooks_documentStage, passHooks_pageStage.
  unfold passHooks. rewrite Byblos_eq. simpl. auto 10.
Qed.

Lemma update_remembered host applied h w :
  (applied = false -> remembered (mkInstance h (rendered w))) ->
  remembered (fst (update host applied h w)).
Proof.
  intros H. unfold update. destruct (rendered w) as [props|] eqn:R.
  - destruct applied; [apply pass_remembered | apply H; reflexivity].
  - simpl. unfold remembered. simpl. exact I.
Qed.

Lemma step_remembered host w i : remembered w -> remembered (fst (step host w i)).
Proof.
  intros M. destruct i as [props|t o|t o|t o]; simpl.
  - apply pass_remembered.
  - apply update_remembered. intros A. unfold remembered in *. simpl.
    destruct (rendered w); [|exact I].
    unfold bufferResult, documentResult, pageResult in *. simpl.
    rewrite settle_published, A. exact M.
  - apply update_remembered. intros A. unfold remembered in *. simpl.
    destruct (rendered w); [|exact I].
    unfold bufferResult, documentResult, pageResult in *. simpl.
    rewrite settle_published, A. exact M.
  - apply update_remembered. intros A. unfold remembered in *. simpl.
    destruct (rendered w); [|exact I].
    unfold bufferResult, documentResult, pageResult in *. simpl.
    rewrite settle_published, A. exact M.
Qed.

Lemma after_remembered host inputs : remembered (after host inputs).
Proof.
  induction inputs as [|i inputs IH] using rev_ind.
  - exact I.
  - rewrite after_snoc. apply step_remembered, IH.
Qed.

(** The calls of a pass, filtered, stage by stage and effect by effect. *)
Lemma passCalls_filter (f : Call -> bool) host props h :
  let b := published (bufferAfter props h) in
  let d := published (documentAfter props h) in
  let p := published (pageAfter props h) in
  filter f (passCalls host props h) =
  filter f (bufferIssued props h) ++ filter f (documentIssued props h)
  ++ useEffect (pair_eq_dec documentResult_dec Fn_dec) (documentDeps h)
       (d, onDocumentSuccess props)
       (filter f (documentSuccessEffect d (onDocumentSuccess props)))
  ++ filter f (pageIssued props h)
  ++ useEffect (pair_eq_dec pageResult_dec Fn_dec) (pageDeps h)
       (p, onPageSuccess props) (filter f (pageSuccessEffect p (onPageSuccess props)))
  ++ useEffect (pair_eq_dec Fn_dec Bool.bool_dec) (loadingDeps h)
       (onLoading props, loading b d p)
       (filter f (loadingEffect (loading b d p) (onLoading props)))
  ++ useEffect (pair_eq_dec Fn_dec Bool.bool_dec) (successDeps h)
       (onSuccess props, Status_eqb (status p) success)
       (filter f (successEffect (Status_eqb (status p) success) (onSuccess props)))
  ++ useEffect (pair_eq_dec Fn_dec JSValue_eq_dec) (failureDeps h)
       (onFailure props, error b d p)
       (filter f (failureEffect (error b d p) (onFailure props)))
  ++ useEffect (pair_eq_dec pageResult_dec (option_eq_dec number_eq_dec)) (renderDeps h)
       (p, scale props)
       (filter f (renderEffect host (canvasRef (passHooks host props h)) p (scale props))).
Proof.
  cbv zeta. unfold passCalls, passHooks. rewrite Byblos_eq. cbv zeta. simpl snd. simpl fst.
  rewrite !filter_app, !useEffect_filter. reflexivity.
Qed.

Lemma run_no_callback {K T : Type} (dec : forall a b : K, {a = b} + {a <> b})
  (stage : Stage) (producer : Produced) (k : K) (r : Runner K T) (f : Call -> bool) :
  (forall s t q, f (Issue s t q) = false) ->
  filter f (snd (run dec stage producer k r)) = [].
Proof.
  intros F. unfold run. destruct (sameKey dec (key r) k); [reflexivity|].
  destruct producer; simpl; [reflexivity|]. rewrite F. reflexivity.
Qed.

Ltac effect_calls :=
  unfold documentSuccessEffect, pageSuccessEffect, loadingEffect, successEffect,
    failureEffect, renderEffect;
  repeat match goal with
    | |- context [match ?x with _ => _ end] => destruct x
    end; reflexivity.

Ltac callback_calls :=
  rewrite passCalls_filter; cbv zeta;
  unfold bufferIssued, documentIssued, pageIssued;
  rewrite !run_no_callback by reflexivity;
  repeat match goal with
    | |- context [filter ?f ?e] =>
        first [ replace (filter f e) with (@nil Call) by (symmetry; effect_calls)
              | replace (filter f e) with e by (symmetry; effect_calls) ]
    end;
  rewrite !useEffect_nil, ?app_nil_r; reflexivity.

Lemma documentSuccess_calls host props h :
  filter isOnDocumentSuccess (passCalls host props h) =
  useEffect (pair_eq_dec documentResult_dec Fn_dec) (documentDeps h)
    (published (documentAfter props h), onDocumentSuccess props)
    (documentSuccessEffect (published (documentAfter props h)) (onDocumentSuccess props)).
Proof.
  callback_calls.
Qed.

Lemma pageSuccess_calls host props h :
  filter isOnPageSuccess (passCalls host props h) =
  useEffect (pair_eq_dec pageResult_dec Fn_dec) (pageDeps h)
    (published (pageAfter props h), onPageSuccess props)
    (pageSuccessEffect (published (pageAfter props h)) (onPageSuccess props)).
Proof. callback_calls. Qed.

Lemma success_calls host props h :
  filter isOnSuccess (passCalls host props h) =
  useEffect (pair_eq_dec Fn_dec Bool.bool_dec) (successDeps h)
    (onSuccess props, Status_eqb (status (published (pageAfter props h))) success)
    (successEffect (Status_eqb (status (published (pageAfter props h))) success)
       (onSuccess props)).
Proof. callback_calls. Qed.

Lemma failure_calls host props h :
  filter isOnFailure (passCalls host props h) =
  useEffect (pair_eq_dec Fn_dec JSValue_eq_dec) (failureDeps h)
    (onFailure props,
     error (published (bufferAfter props h)) (published (documentAfter props h))
       (published (pageAfter props h)))
    (failureEffect
       (error (published (bufferAfter props h)) (published (documentAfter props h))
          (published (pageAfter props h)))
       (onFailure props)).
Proof. callback_calls. Qed.

Lemma depsIn_hooks w : invariant w -> remembered w -> depsIn (hooks w) w.
Proof.
  intros [_ C] M. unfold depsIn, documentDepsOf, pageDepsOf, successDepsOf, failureDepsOf.
  unfold coherent in C. unfold remembered in M. destruct (rendered w).
  - tauto.
  - rewrite C. simpl. auto.
Qed.

(** A step is a pass, started with what the effects remembered, or it is
    silent. *)
Lemma step_pass_or_silent host w i :
  invariant w -> remembered w ->
  (exists props h0, step host w i = pass host props h0 /\ depsIn h0 w)
  \/ (snd (step host w i) = [] /\ sameDeps w (fst (step host w i))).
Proof.
  intros I M. pose proof (depsIn_hooks I M) as D.
  assert (Q : forall applied h,
             depsIn h w ->
             (applied = false -> sameDeps w (mkInstance h (rendered w))) ->
             (exists props h0, update host applied h w = pass host props h0 /\ depsIn h0 w)
             \/ (snd (update host applied h w) = []
                 /\ sameDeps w (fst (update host applied h w)))).
  { intros applied h Dh Sh. unfold update. destruct (rendered w) as [props|] eqn:R.
    - destruct applied.
      + left. exists props, h. auto.
      + right. split; [reflexivity|]. simpl. apply Sh. reflexivity.
    - right. split; [reflexivity|]. simpl.
      unfold sameDeps, documentDepsOf, pageDepsOf, successDepsOf, failureDepsOf.
      simpl. rewrite R. auto. }
  destruct i as [props|t o|t o|t o]; simpl.
  - left. exists props, (hooks w). auto.
  - apply Q; [exact D|]. intros A.
    unfold sameDeps, documentDepsOf, pageDepsOf, successDepsOf, failureDepsOf,
      bufferResult, documentResult, pageResult. simpl.
    rewrite settle_published, A. auto.
  - apply Q; [exact D|]. intros A.
    unfold sameDeps, documentDepsOf, pageDepsOf, successDepsOf, failureDepsOf,
      bufferResult, documentResult, pageResult. simpl.
    rewrite settle_published, A. auto.
  - apply Q; [exact D|]. intros A.
    unfold sameDeps, documentDepsOf, pageDepsOf, successDepsOf, failureDepsOf,
      bufferResult, documentResult, pageResult. simpl.
    rewrite settle_published, A. auto.
Qed.

Lemma pass_depsOf host props h :
  let w' := fst (pass host props h) in
  documentDepsOf w' = Some (published (documentAfter props h), onDocumentSuccess props)
  /\ pageDepsOf w' = Some (published (pageAfter props h), onPageSuccess props)
  /\ successDepsOf w'
     = Some (onSuccess props, Status_eqb (status (published (pageAfter props h))) success)
  /\ failureDepsOf w'
     = Some (onFailure props,
             error (published (bufferAfter props h)) (published (documentAfter props h))
               (published (pageAfter props h))).
Proof.
  cbv zeta. rewrite pass_eq.
  unfold documentDepsOf, pageDepsOf, successDepsOf, failureDepsOf,
    bufferResult, documentResult, pageResult. simpl.
  rewrite passHooks_bufferStage, passHooks_documentStage, passHooks_pageStage. auto.
Qed.

Lemma success_effects_per_step :
  forall (host : Host) (inputs : list Input) (i : Input),
    let w := after host inputs in
    let w' := fst (step host w i) in
    let calls := snd (step host w i) in
    (documentDepsOf w' = documentDepsOf w -> filter isOnDocumentSuccess calls = [])
    /\ (documentDepsOf w' <> documentDepsOf w ->
        filter isOnDocumentSuccess calls =
        match documentDepsOf w' with
        | Some (Success data, Some f) => [OnDocumentSuccess f data]
        | _ => []
        end)
    /\ (pageDepsOf w' = pageDepsOf w -> filter isOnPageSuccess calls = [])
    /\ (pageDepsOf w' <> pageDepsOf w ->
        filter isOnPageSuccess calls =
        match pageDepsOf w' with
        | Some (Success data, Some f) => [OnPageSuccess f data]
        | _ => []
        end)
    /\ (successDepsOf w' = successDepsOf w -> filter isOnSuccess calls = [])
    /\ (successDepsOf w' <> successDepsOf w ->
        filter isOnSuccess calls =
        match successDepsOf w' with
        | Some (Some f, true) => [OnSuccess f]
        | _ => []
        end).
Proof.
  intros host inputs i w w' calls. subst w' calls.
  destruct (step_pass_or_silent host i (after_invariant host inputs)
              (after_remembered host inputs))
    as [(props & h0 & E & Dd & Dp & Ds & _)|[E (Sd & Sp & Ss & _)]];
    fold w in E |- *.
  - fold w in Dd, Dp, Ds. rewrite E. destruct (pass_depsOf host props h0) as (-> & -> & -> & _).
    rewrite pass_eq. simpl.
    rewrite documentSuccess_calls, pageSuccess_calls, success_calls.
    rewrite Dd, Dp, Ds.
    repeat split; intros H;
      try (rewrite <- H; apply useEffect_same);
      (rewrite useEffect_changed by congruence);
      unfold documentSuccessEffect, pageSuccessEffect, successEffect;
      repeat match goal with
        | |- context [match ?x with _ => _ end] => destruct x
        end; reflexivity.
  - fold w in Sd, Sp, Ss. rewrite E.
    repeat split; intros H; try reflexivity; contradiction.
Qed.

(** C6, as the code has it: take any reachable state and any next step, and
    compare the dependency array of each success effect before and after.
    When the pair (document result, [onDocumentSuccess] prop) is unchanged,
    [onDocumentSuccess] is not called; when it has changed, the callback now
    passed is called exactly once if the document stage publishes [Success],
    and not at all otherwise.  The same holds of [onPageSuccess] with the page
    result, and of [onSuccess] with the flag "the page stage publishes
    [Success]".  In particular a step that brings a stage into [Success]
    calls the stage's callback exactly once. *)
Theorem success_callbacks_fire_once_per_change :
  forall (host : Host) (inputs : list Input) (i : Input),
    let w := after host inputs in
    let w' := fst (step host w i) in
    let calls := snd (step host w i) in
    (documentDepsOf w' = documentDepsOf w -> filter isOnDocumentSuccess calls = [])
    /\ (documentDepsOf w' <> documentDepsOf w ->
        filter isOnDocumentSuccess calls =
        match documentDepsOf w' with
        | Some (Success data, Some f) => [OnDocumentSuccess f data]
        | _ => []
        end)
    /\ (pageDepsOf w' = pageDepsOf w -> filter isOnPageSuccess calls = [])
    /\ (pageDepsOf w' <> pageDepsOf w ->
        filter isOnPageSuccess calls =
        match pageDepsOf w' with
        | Some (Success data, Some f) => [OnPageSuccess f data]
        | _ => []
        end)
    /\ (successDepsOf w' = successDepsOf w -> filter isOnSuccess calls = [])
    /\ (successDepsOf w' <> successDepsOf w ->
        filter isOnSuccess calls =
        match successDepsOf w' with
        | Some (Some f, true) => [OnSuccess f]
        | _ => []
        end)
    /\ (forall props' data f,
          rendered w' = Some props' -> onDocumentSuccess props' = Some f ->
          documentResult w' = Success data -> documentResult w <> Success data ->
          filter isOnDocumentSuccess calls = [OnDocumentSuccess f data])
    /\ (forall props' data f,
          rendered w' = Some props' -> onPageSuccess props' = Some f ->
          pageResult w' = Success data -> pageResult w <> Success data ->
          filter isOnPageSuccess calls = [OnPageSuccess f data])
    /\ (forall props' f,
          rendered w' = Some props' -> onSuccess props' = Some f ->
          status (pageResult w') = success -> status (pageResult w) <> success ->
          filter isOnSuccess calls = [OnSuccess f]).
Proof.
  intros host inputs i w w' calls.
  destruct (success_effects_per_step host inputs i) as (D0 & D1 & P0 & P1 & S0 & S1).
  fold w in D0, D1, P0, P1, S0, S1. fold w' in D0, D1, P0, P1, S0, S1.
  fold calls in D0, D1, P0, P1, S0, S1.
  repeat (split; [assumption|]).
  split; [|split].
  - intros props' data f R F E N. rewrite D1.
    + unfold documentDepsOf. rewrite R, E, F. reflexivity.
    + unfold documentDepsOf. rewrite R, E, F.
      destruct (rendered w); [|discriminate]. intros H. inversion H. congruence.
  - intros props' data f R F E N. rewrite P1.
    + unfold pageDepsOf. rewrite R, E, F. reflexivity.
    + unfold pageDepsOf. rewrite R, E, F.
      destruct (rendered w); [|discriminate]. intros H. inversion H. congruence.
  - intros props' f R F E N. rewrite S1.
    + unfold successDepsOf. rewrite R, E, F. reflexivity.
    + unfold successDepsOf. rewrite R, E, F.
      destruct (rendered w); [|discriminate]. intros H. inversion H as [[H1 H2]].
      apply N. apply Status_eqb_eq. symmetry. exact H2.
Qed.

(** ** Failures *)











(** ** The scenarios, run *)

Lemma stale_results_are_dropped_witness :
  live 1 (bufferStage (hooks (after demoHost overtaken))) = true
  /\ 1 <> token (bufferStage (hooks (after demoHost overtaken)))
  /\ bufferResult (fst (step demoHost (after demoHost overtaken)
                          (SettleBuffer 1 (Resolved 101%positive))))
     = Success 102%positive.
Proof.
  assert (L : live 1 (bufferStage (hooks (after demoHost overtaken))) = true)
    by reflexivity.
  assert (N : 1 <> token (bufferStage (hooks (after demoHost overtaken))))
    by (vm_compute; discriminate).
  split; [exact L|]. split; [exact N|].
  destruct (stale_results_are_dropped demoHost overtaken) as (B & _).
  destruct (B 1 (Resolved 101%positive) L) as [_ D].
  destruct (D N) as (E & _).
  rewrite E. reflexivity.
Defined.

Lemma page_change_restarts_page_only_witness :
  let w := after demoHost scenarioA in
  rendered w = Some demoProps
  /\ documentResult w = Success 200%positive
  /\ bufferStage (hooks (fst (step demoHost w (Render secondPage)))) = bufferStage (hooks w)
  /\ documentStage (hooks (fst (step demoHost w (Render secondPage))))
     = documentStage (hooks w)
  /\ filter isIssue (snd (step demoHost w (Render secondPage)))
     = [Issue PageStage 4 (GetPage 200%positive js_two)].
Proof.
  cbv zeta.
  assert (R : rendered (after demoHost scenarioA) = Some demoProps) by reflexivity.
  assert (D : documentResult (after demoHost scenarioA) = Success 200%positive)
    by reflexivity.
  assert (S : source secondPage = source demoProps) by reflexivity.
  assert (P : page secondPage <> page demoProps) by (simpl; discriminate).
  split; [exact R|]. split; [exact D|].
  destruct (page_change_restarts_page_only demoHost scenarioA secondPage R D S P)
    as (Eb & Ed & _ & _ & Ei).
  split; [exact Eb|]. split; [exact Ed|]. exact Ei.
Defined.

Lemma page_producer_requests_page_witness :
  In (Issue PageStage 4 (GetPage 200%positive js_two))
    (passCalls demoHost secondPage (hooks (after demoHost scenarioA))).
Proof.
  pose proof (page_producer_requests_page demoHost secondPage
                (hooks (after demoHost scenarioA))) as H.
  cbv zeta in H.
  change (published (documentStage (passHooks demoHost secondPage
                                      (hooks (after demoHost scenarioA)))))
    with (@Success PDFDocumentProxy 200%positive) in H.
  cbv beta iota in H. destruct H as (_ & _ & H).
  apply H. reflexivity.
Defined.

Lemma success_callbacks_fire_once_per_change_witness :
  let w := after demoHost (firstn 2 scenarioA) in
  let i := SettleDocument 2 (Resolved 200%positive) in
  documentDepsOf (fst (step demoHost w i)) <> documentDepsOf w
  /\ filter isOnDocumentSuccess (snd (step demoHost w i))
     = [OnDocumentSuccess 22%positive 200%positive].
Proof.
  cbv zeta.
  assert (N : documentDepsOf (fst (step demoHost (after demoHost (firstn 2 scenarioA))
                                     (SettleDocument 2 (Resolved 200%positive))))
              <> documentDepsOf (after demoHost (firstn 2 scenarioA)))
    by (vm_compute; discriminate).
  split; [exact N|].
  destruct (success_callbacks_fire_once_per_change demoHost (firstn 2 scenarioA)
              (SettleDocument 2 (Resolved 200%positive))) as (_ & H & _).
  rewrite (H N). reflexivity.
Defined.

(** C6, as stated, fails: after scenario A the host renders the component once
    more with the same props but newly built callbacks.  No stage result
    changes, and yet the three success callbacks are called again. *)
Lemma success_callbacks_fire_again_for_new_closures :
  let w := after demoHost scenarioA in
  let w' := fst (step demoHost w (Render freshClosures)) in
  documentResult w = Success 200%positive
  /\ pageResult w = Success 300%positive
  /\ bufferResult w' = bufferResult w
  /\ documentResult w' = documentResult w
  /\ pageResult w' = pageResult w
  /\ filter isOnDocumentSuccess (snd (exec demoHost unmounted scenarioA))
     = [OnDocumentSuccess 22%positive 200%positive]
  /\ snd (step demoHost w (Render freshClosures))
     = [ OnDocumentSuccess 42%positive 200%positive;
         OnPageSuccess 43%positive 300%positive;
         OnSuccess 45%positive ]
  /\ ~ (forall inputs i,
          documentResult (fst (step demoHost (after demoHost inputs) i))
          = documentResult (after demoHost inputs) ->
          filter isOnDocumentSuccess (snd (step demoHost (after demoHost inputs) i)) = []).
Proof.
  cbv zeta. do 7 (split; [vm_compute; reflexivity|]). intros H.
  assert (E : documentResult (fst (step demoHost (after demoHost scenarioA)
                                     (Render freshClosures)))
              = documentResult (after demoHost scenarioA))
    by (vm_compute; reflexivity).
  pose proof (H scenarioA (Render freshClosures) E) as C.
  vm_compute in C. discriminate C.
Qed.


(** Scenario C of the specification: the fetch fails.  The bytes stage is in
    [Failure], the document and page stages stay [Idle], [onFailure] is called
    once and the error fallback is rendered. *)
Example transport_failure_shows_error_fallback :
  let w := after demoHost [Render demoProps] in
  let i := SettleBuffer 1 (Rejected (JSObject 77%positive)) in
  let h := withBufferStage
             (settle 1 (Rejected (JSObject 77%positive)) (bufferStage (hooks w))) (hooks w) in
  bufferResult (fst (step demoHost w i)) = Failure (JSObject 77%positive)
  /\ documentResult (fst (step demoHost w i)) = Idle
  /\ pageResult (fst (step demoHost w i)) = Idle
  /\ snd (step demoHost w i) = [OnFailure 21%positive (JSObject 77%positive)]
  /\ step demoHost w i = pass demoHost demoProps h
  /\ passOutput demoHost demoProps h = Fragment (JSString "failed").
Proof. cbv zeta. repeat split; vm_compute; reflexivity. Qed.

(* ================================================================== *)
(** * Further properties of the component *)

(** ** What a pass shows and paints *)

Lemma passHooks_canvasRef host props h :
  canvasRef (passHooks host props h) = commitRef host (passOutput host props h).
Proof. unfold passHooks, passOutput. rewrite Byblos_eq. reflexivity. Qed.

(** X1: the canvas is rendered, with the [className] prop, only in a pass in
    which no stage is pending and [error] is falsy, and then [canvasRef] holds
    the mounted element; in a pass that renders a fallback, [canvasRef] is
    [null] and the page is neither resized nor painted, whatever the page
    stage publishes. *)
Theorem nothing_painted_behind_a_fallback :
  forall (host : Host) (props : ByblosProps) (h : Hooks),
    let h' := passHooks host props h in
    let b := published (bufferStage h') in
    let d := published (documentStage h') in
    let p := published (pageStage h') in
    match passOutput host props h with
    | Fragment _ => canvasRef h' = None /\ sinkCalls host props h = []
    | Canvas cn =>
        cn = className props
        /\ canvasRef h' = Some (canvasElement host)
        /\ loading b d p = false
        /\ truthy (error b d p) = false
    end.
Proof.
  intros host props h h' b d p. subst h' b d p.
  rewrite sinkCalls_eq, passHooks_canvasRef.
  rewrite passHooks_bufferStage, passHooks_documentStage, passHooks_pageStage.
  rewrite passOutput_eq. unfold view.
  destruct (loading _ _ _); simpl.
  - split; [reflexivity|]. apply useEffect_nil.
  - destruct (truthy (error _ _ _)); simpl.
    + split; [reflexivity|]. apply useEffect_nil.
    + auto.
Qed.

(** ** The bytes stage *)

(** X2: a pass asks for the bytes exactly when the source (type, value, fetch
    options) is not the one the bytes stage holds as its key: then the stage
    takes the next token, publishes [Pending], and the one request carries
    that token and is [fetch(value, fetchOptions)] for a URL source and a read
    of the blob for a blob source; with the same source the stage is left as
    it is and nothing is asked for. *)
Theorem bytes_requested_when_source_changes :
  forall (host : Host) (props : ByblosProps) (h : Hooks),
    let h' := passHooks host props h in
    let request := match source props with
                   | url value fetchOptions => FetchURL value fetchOptions
                   | blob value => ReadBlob value
                   end in
    (forall t q, In (Issue BufferStage t q) (passCalls host props h) <->
                 key (bufferStage h) <> Some (source props)
                 /\ t = S (token (bufferStage h)) /\ q = request)
    /\ (key (bufferStage h) = Some (source props) -> bufferStage h' = bufferStage h)
    /\ (key (bufferStage h) <> Some (source props) ->
        published (bufferStage h') = Pending
        /\ token (bufferStage h') = S (token (bufferStage h))
        /\ key (bufferStage h') = Some (source props)).
Proof.
  intros host props h h' request. subst h' request.
  rewrite passHooks_bufferStage. unfold bufferAfter.
  assert (P : bufferProducer props
              = Started match source props with
                        | url value fetchOptions => FetchURL value fetchOptions
                        | blob value => ReadBlob value
                        end)
    by (unfold bufferProducer; destruct (source props); reflexivity).
  split; [|split].
  - intros t q. rewrite effects_issue_nothing, !in_app_iff.
    unfold bufferIssued, documentIssued, pageIssued. rewrite !run_issue.
    rewrite sameKey_false, P. split.
    + intros [H|[H|H]]; try (destruct H as [H _]; discriminate).
      destruct H as (_ & Ht & Hq & Hk). inversion Hq. auto.
    + intros (Hk & Ht & Hq). left. subst q. auto.
  - intros K. rewrite run_same_key by exact K. reflexivity.
  - intros K.
    destruct (run_cases SourceProps_eq_dec BufferStage (bufferProducer props)
                (source props) (bufferStage h)) as [[E _]|(_ & Hk & Ht & Hp & _)];
      [contradiction|].
    split; [rewrite Hp, P; reflexivity | auto].
Qed.

(** ** The first pass *)

(** X3: the first pass of a component, whatever its props, starts the fetch
    of the bytes with token 1, calls [onLoading] once when it is given and
    calls nothing else, renders the loading fallback and mounts no canvas; the
    bytes stage then publishes [Pending]. *)
Theorem first_pass_starts_loading :
  forall (host : Host) (props : ByblosProps),
    let h' := passHooks host props mount in
    passOutput host props mount = Fragment (loadingFallback props)
    /\ passCalls host props mount =
       Issue BufferStage 1
         (match source props with
          | url value fetchOptions => FetchURL value fetchOptions
          | blob value => ReadBlob value
          end)
       :: match onLoading props with
          | Some f => [OnLoading f]
          | None => []
          end
    /\ published (bufferStage h') = Pending
    /\ canvasRef h' = None.
Proof.
  intros host props. cbv zeta.
  unfold passOutput, passCalls, passHooks.
  destruct props as [src pg sc onL onS onF cn lf ef onD onP].
  destruct src as [value fetchOptions|value]; destruct onL, onS, onF; cbn; auto 10.
Qed.

(** ** The order of the stages *)

Lemma success_has_data {T : Type} (r : StageResult T) :
  status r = success -> exists data, r = Success data.
Proof. destruct r; simpl; intros H; try discriminate. eauto. Qed.

Lemma upstream_succeeded w :
  invariant w ->
  (settled (documentResult w) -> exists data, bufferResult w = Success data)
  /\ (settled (pageResult w) -> exists pdf, documentResult w = Success pdf).
Proof.
  intros I. split; intros H; apply success_has_data.
  - apply (document_needs_buffer I). right. exact H.
  - apply (page_needs_document I). right. exact H.
Qed.

Lemma settled_in_order w :
  invariant w ->
  let errors := failures (bufferResult w) (documentResult w) (pageResult w) in
  (settled (documentResult w) -> exists data, bufferResult w = Success data)
  /\ (settled (pageResult w) -> exists pdf, documentResult w = Success pdf)
  /\ List.length errors <= 1
  /\ (forall e, In e errors -> truthy e = true -> surfaced w = e)
  /\ (truthy (surfaced w) = true -> In (surfaced w) errors).
Proof.
  intros I errors. subst errors.
  destruct (upstream_succeeded I) as [D P].
  split; [exact D|]. split; [exact P|].
  unfold surfaced. rewrite error_cases. unfold failures, settled in *.
  destruct (bufferResult w) as [| |x|e1];
    destruct (documentResult w) as [| |y|e2];
    try solve [exfalso; destruct D as [? D]; [simpl; auto | discriminate D]];
    destruct (pageResult w) as [| |z|e3];
    try solve [exfalso; destruct P as [? P]; [simpl; auto | discriminate P]];
    simpl; (split; [lia|]);
    try match goal with
      | |- context [truthy ?e] => is_var e; destruct (truthy e) eqn:?; simpl
      end;
    (split; [intros e H T | intros T]);
    repeat match goal with
      | H : False |- _ => destruct H
      | H : _ \/ _ |- _ => destruct H
      | H : ?a = ?e |- _ => is_var e; subst e
      end;
    auto; try discriminate; try congruence.
Qed.

(** X4: in every state the component can reach, a document stage that has a
    result, [Success] or [Failure], sits on a bytes stage in [Success], and a
    page stage that has a result sits on a document stage in [Success].  So
    at most one stage is in [Failure] at a time, and [error] is truthy
    exactly when that one failure carries a truthy value, which it then is. *)
Theorem stages_settle_in_order :
  forall (host : Host) (inputs : list Input),
    let w := after host inputs in
    let errors := failures (bufferResult w) (documentResult w) (pageResult w) in
    (settled (documentResult w) -> exists data, bufferResult w = Success data)
    /\ (settled (pageResult w) -> exists pdf, documentResult w = Success pdf)
    /\ List.length errors <= 1
    /\ (forall e, In e errors -> truthy e = true -> surfaced w = e)
    /\ (truthy (surfaced w) = true -> In (surfaced w) errors).
Proof.
  intros host inputs w. apply settled_in_order, after_invariant.
Qed.

(** ** From one stage to the next *)

Lemma documentSuccessEffect_idle d cb :
  status d <> success -> documentSuccessEffect d cb = [].
Proof. destruct d; simpl; intros H; try reflexivity. contradiction H; reflexivity. Qed.

Lemma pageSuccessEffect_idle p cb :
  status p <> success -> pageSuccessEffect p cb = [].
Proof. destruct p; simpl; intros H; try reflexivity. contradiction H; reflexivity. Qed.

Lemma loadingEffect_idle cb : loadingEffect false cb = [].
Proof. destruct cb; reflexivity. Qed.

Lemma successEffect_idle cb : successEffect false cb = [].
Proof. destruct cb; reflexivity. Qed.

Lemma failureEffect_idle e cb : truthy e = false -> failureEffect e cb = [].
Proof. unfold failureEffect. intros ->. destruct cb; reflexivity. Qed.

Lemma renderEffect_idle host canvas p sc :
  status p <> success -> renderEffect host canvas p sc = [].
Proof.
  unfold renderEffect. destruct canvas; [|reflexivity].
  destruct p; simpl; intros H; try reflexivity. contradiction H; reflexivity.
Qed.

Lemma not_success_flag {T : Type} (r : StageResult T) :
  status r <> success -> Status_eqb (status r) success = false.
Proof. destruct r; simpl; intros H; try reflexivity. contradiction H; reflexivity. Qed.

Lemma unsettled_not_success {T : Type} (r : StageResult T) :
  ~ settled r -> status r <> success /\ failed r = JSBoolean false.
Proof.
  unfold settled. destruct r; simpl; intros H; split;
    try reflexivity; try discriminate; exfalso; apply H; auto.
Qed.

Lemma passCalls_eq host props h :
  passCalls host props h = snd (Byblos host props h).
Proof. reflexivity. Qed.

(** The step taken when the run holding a stage's token ends. *)
Lemma applied_buffer host w t o props :
  rendered w = Some props ->
  live t (bufferStage (hooks w)) = true -> t = token (bufferStage (hooks w)) ->
  step host w (SettleBuffer t o)
  = pass host props (withBufferStage (settle t o (bufferStage (hooks w))) (hooks w)).
Proof.
  intros R L E. simpl. unfold current, update. rewrite L, E, Nat.eqb_refl, R. reflexivity.
Qed.

Lemma applied_document host w t o props :
  rendered w = Some props ->
  live t (documentStage (hooks w)) = true -> t = token (documentStage (hooks w)) ->
  step host w (SettleDocument t o)
  = pass host props (withDocumentStage (settle t o (documentStage (hooks w))) (hooks w)).
Proof.
  intros R L E. simpl. unfold current, update. rewrite L, E, Nat.eqb_refl, R. reflexivity.
Qed.

Lemma applied_page host w t o props :
  rendered w = Some props ->
  live t (pageStage (hooks w)) = true -> t = token (pageStage (hooks w)) ->
  step host w (SettlePage t o)
  = pass host props (withPageStage (settle t o (pageStage (hooks w))) (hooks w)).
Proof.
  intros R L E. simpl. unfold current, update. rewrite L, E, Nat.eqb_refl, R. reflexivity.
Qed.

Lemma settle_applied_runner {K T : Type} (t : RunToken) (o : Outcome T) (r : Runner K T) :
  live t r = true -> t = token r ->
  key (settle t o r) = key r /\ token (settle t o r) = token r
  /\ published (settle t o r) = ofOutcome o.
Proof.
  intros L E. destruct (settle_cases t o r) as (Hk & Ht & _ & _ & Hp).
  rewrite Hk, Ht, Hp, L. unfold current. rewrite E, Nat.eqb_refl. auto.
Qed.

Lemma loading_pending_buffer d p : loading Pending d p = true.
Proof. reflexivity. Qed.

Lemma loading_pending_document b p : loading b Pending p = true.
Proof. unfold loading. simpl. rewrite orb_true_r. reflexivity. Qed.

Lemma loading_pending_page b d : loading b d Pending = true.
Proof. unfold loading. simpl. rewrite orb_true_r. reflexivity. Qed.

(** X5: when the fetch that holds the bytes stage's token ends with a buffer,
    the same update publishes the buffer, restarts the document stage, which
    publishes [Pending], and makes exactly one call: the request to decode
    that very buffer, under the document stage's next token.  No callback is
    called and the page stage gets no result. *)
Theorem bytes_arrival_starts_decoding :
  forall (host : Host) (inputs : list Input) (t : RunToken) (data : ArrayBuffer),
    let w := after host inputs in
    live t (bufferStage (hooks w)) = true ->
    t = token (bufferStage (hooks w)) ->
    let w' := fst (step host w (SettleBuffer t (Resolved data))) in
    bufferResult w' = Success data
    /\ documentResult w' = Pending
    /\ ~ settled (pageResult w')
    /\ snd (step host w (SettleBuffer t (Resolved data)))
       = [Issue DocumentStage (S (token (documentStage (hooks w)))) (GetDocument data)].
Proof.
  intros host inputs t data w L E w'.
  assert (I : invariant w) by apply after_invariant.
  assert (M : remembered w) by apply after_remembered.
  assert (I' : invariant w') by (apply step_invariant, I).
  destruct I as [Sd C].
  destruct (mounted_when_live w C) as [props R]; [exists t; auto|].
  unfold coherent in C. rewrite R in C. destruct C as (Kb & Kd & Kp).
  unfold remembered in M. rewrite R in M. destruct M as (_ & _ & Ml & _).
  assert (A : bufferResult w = Pending).
  { apply (buffer_awaiting Sd). rewrite <- E. apply live_In. exact L. }
  subst w'. rewrite (@applied_buffer host w t (Resolved data) props R L E) in *.
  rewrite pass_eq in *. simpl fst in *. simpl snd.
  set (h0 := withBufferStage (settle t (Resolved data) (bufferStage (hooks w))) (hooks w))
    in *.
  destruct (@settle_applied_runner _ _ t (Resolved data) (bufferStage (hooks w)) L E)
    as (Hk & Ht & Hp).
  assert (Eb : bufferAfter props h0 = settle t (Resolved data) (bufferStage (hooks w))).
  { unfold bufferAfter. simpl. rewrite run_same_key; [reflexivity | congruence]. }
  assert (Pb : published (bufferAfter props h0) = Success data)
    by (rewrite Eb; exact Hp).
  destruct (run_cases bufferResult_dec DocumentStage
              (documentProducer (Success data)) (Success data) (documentStage (hooks w)))
    as [[K _]|(_ & _ & _ & Hd & _ & Hi)];
    [rewrite Kd, A in K; discriminate|].
  assert (Pd : published (documentAfter props h0) = Pending).
  { unfold documentAfter. rewrite Pb. exact Hd. }
  assert (Bi : bufferIssued props h0 = []).
  { unfold bufferIssued. simpl. rewrite run_same_key; [reflexivity | congruence]. }
  assert (Di : documentIssued props h0
               = [Issue DocumentStage (S (token (documentStage (hooks w)))) (GetDocument data)]).
  { unfold documentIssued. rewrite Pb. exact Hi. }
  assert (Pi : pageIssued props h0 = []).
  { unfold pageIssued. rewrite Pd. simpl pageProducer.
    destruct (run_cases (pair_eq_dec documentResult_dec (option_eq_dec number_eq_dec))
                PageStage Suspended (Pending, page props) (pageStage h0))
      as [[_ X]|(_ & _ & _ & _ & _ & X)]; rewrite X; reflexivity. }
  assert (U : ~ settled (published (pageAfter props h0))).
  { intros H.
    assert (X : status (documentResult (mkInstance (passHooks host props h0) (Some props)))
                = success).
    { apply (page_needs_document I'). right. unfold pageResult. simpl.
      rewrite passHooks_pageStage. exact H. }
    unfold documentResult in X. simpl in X.
    rewrite passHooks_documentStage, Pd in X. discriminate X. }
  destruct (unsettled_not_success U) as [Ns Nf].
  unfold bufferResult, documentResult, pageResult. simpl.
  rewrite passHooks_bufferStage, passHooks_documentStage, passHooks_pageStage.
  split; [exact Pb|]. split; [exact Pd|]. split; [exact U|].
  unfold passCalls. rewrite Byblos_eq. cbv zeta. simpl snd.
  rewrite Bi, Di, Pi, Pb, Pd.
  rewrite documentSuccessEffect_idle by discriminate.
  rewrite pageSuccessEffect_idle by exact Ns.
  rewrite not_success_flag by exact Ns. rewrite successEffect_idle.
  rewrite loading_pending_document.
  rewrite Ml, A, loading_pending_buffer, useEffect_same.
  rewrite failureEffect_idle
    by (rewrite error_cases; simpl; rewrite Nf; reflexivity).
  rewrite renderEffect_idle by exact Ns.
  rewrite !useEffect_nil. reflexivity.
Qed.

(** X6: when the decoding that holds the document stage's token ends with a
    document, the same update publishes the document, leaves the bytes stage
    alone, calls [onDocumentSuccess] with the document once if the callback is
    given, and restarts the page stage, which publishes [Pending]: the one
    request asks that document for the page of the [page] prop, page 1 when
    the prop is omitted.  Nothing else is called. *)
Theorem document_arrival_requests_page :
  forall (host : Host) (inputs : list Input) (t : RunToken) (pdf : PDFDocumentProxy)
         (props : ByblosProps),
    let w := after host inputs in
    rendered w = Some props ->
    live t (documentStage (hooks w)) = true ->
    t = token (documentStage (hooks w)) ->
    let w' := fst (step host w (SettleDocument t (Resolved pdf))) in
    bufferStage (hooks w') = bufferStage (hooks w)
    /\ documentResult w' = Success pdf
    /\ pageResult w' = Pending
    /\ snd (step host w (SettleDocument t (Resolved pdf)))
       = match onDocumentSuccess props with
         | Some f => [OnDocumentSuccess f pdf]
         | None => []
         end
         ++ [Issue PageStage (S (token (pageStage (hooks w))))
               (GetPage pdf (match page props with Some n => n | None => js_one end))].
Proof.
  intros host inputs t pdf props w R L E w'.
  assert (I : invariant w) by apply after_invariant.
  assert (M : remembered w) by apply after_remembered.
  assert (Lin : In (token (documentStage (hooks w))) (inflight (documentStage (hooks w))))
    by (rewrite <- E; apply live_In; exact L).
  destruct (success_has_data _ (document_needs_buffer I (or_introl Lin))) as [data B].
  destruct I as [Sd C].
  unfold coherent in C. rewrite R in C. destruct C as (Kb & Kd & Kp).
  unfold remembered in M. rewrite R in M. destruct M as (Md & _ & Ml & _).
  assert (A : documentResult w = Pending) by (apply (document_awaiting Sd), Lin).
  subst w'. rewrite (@applied_document host w t (Resolved pdf) props R L E).
  rewrite pass_eq. simpl fst. simpl snd.
  set (h0 := withDocumentStage (settle t (Resolved pdf) (documentStage (hooks w))) (hooks w)).
  destruct (@settle_applied_runner _ _ t (Resolved pdf) (documentStage (hooks w)) L E)
    as (Hk & Ht & Hp).
  assert (Eb : bufferAfter props h0 = bufferStage (hooks w)).
  { unfold bufferAfter. simpl. rewrite run_same_key; [reflexivity | exact Kb]. }
  assert (Bi : bufferIssued props h0 = []).
  { unfold bufferIssued. simpl. rewrite run_same_key; [reflexivity | exact Kb]. }
  assert (Ed : documentAfter props h0 = settle t (Resolved pdf) (documentStage (hooks w))).
  { unfold documentAfter. rewrite Eb. simpl.
    rewrite run_same_key; [reflexivity | rewrite Hk; exact Kd]. }
  assert (Di : documentIssued props h0 = []).
  { unfold documentIssued. rewrite Eb. simpl.
    rewrite run_same_key; [reflexivity | rewrite Hk; exact Kd]. }
  assert (Pd : published (documentAfter props h0) = Success pdf)
    by (rewrite Ed; exact Hp).
  destruct (run_cases (pair_eq_dec documentResult_dec (option_eq_dec number_eq_dec))
              PageStage (Started (GetPage pdf (nullish (page props) js_one)))
              (Success pdf, page props) (pageStage (hooks w)))
    as [[K _]|(_ & _ & _ & Hpp & _ & Hi)];
    [rewrite Kp, A in K; discriminate|].
  assert (Pp : published (pageAfter props h0) = Pending).
  { unfold pageAfter. rewrite Pd. exact Hpp. }
  assert (Pi : pageIssued props h0
               = [Issue PageStage (S (token (pageStage (hooks w))))
                    (GetPage pdf (nullish (page props) js_one))]).
  { unfold pageIssued. rewrite Pd. exact Hi. }
  unfold bufferResult, documentResult, pageResult in *. simpl.
  rewrite passHooks_bufferStage, passHooks_documentStage, passHooks_pageStage.
  split; [exact Eb|]. split; [exact Pd|]. split; [exact Pp|].
  unfold passCalls. rewrite Byblos_eq. cbv zeta. simpl snd.
  rewrite Bi, Di, Pi, Eb, Pd, Pp. simpl.
  rewrite Md, A, Ml, A, B.
  rewrite useEffect_changed by (intros X; inversion X).
  rewrite loading_pending_page, loading_pending_document, useEffect_same.
  rewrite successEffect_idle.
  rewrite failureEffect_idle by reflexivity.
  rewrite !useEffect_nil, app_nil_r.
  unfold documentSuccessEffect. destruct (onDocumentSuccess props); reflexivity.
Qed.

(** X7: when the run that holds the page stage's token ends with a page, the
    same update publishes the page, leaves the bytes and document stages
    alone, asks for nothing, renders the canvas and, in this order, calls
    [onPageSuccess] with the page if it is given, calls [onSuccess] if it is
    given, and, when the canvas gives a 2D context, sizes the canvas to the
    page's viewport at the [scale] prop (1 when omitted) and paints the page
    once.  [onLoading], [onFailure] and [onDocumentSuccess] are not called. *)
Theorem page_arrival_paints_the_page :
  forall (host : Host) (inputs : list Input) (t : RunToken) (pageData : PDFPageProxy)
         (props : ByblosProps),
    let w := after host inputs in
    rendered w = Some props ->
    live t (pageStage (hooks w)) = true ->
    t = token (pageStage (hooks w)) ->
    let w' := fst (step host w (SettlePage t (Resolved pageData))) in
    let viewport :=
      getViewport host pageData (match scale props with Some s => s | None => js_one end) in
    bufferStage (hooks w') = bufferStage (hooks w)
    /\ documentStage (hooks w') = documentStage (hooks w)
    /\ pageResult w' = Success pageData
    /\ canvasRef (hooks w') = Some (canvasElement host)
    /\ snd (step host w (SettlePage t (Resolved pageData)))
       = match onPageSuccess props with
         | Some f => [OnPageSuccess f pageData]
         | None => []
         end
         ++ match onSuccess props with
            | Some f => [OnSuccess f]
            | None => []
            end
         ++ match getContext2d host (canvasElement host) with
            | Some context =>
                [ SetCanvasHeight (canvasElement host) (height viewport);
                  SetCanvasWidth (canvasElement host) (width viewport);
                  RenderPage pageData context viewport ]
            | None => []
            end.
Proof.
  intros host inputs t pageData props w R L E w' viewport. subst viewport.
  assert (I : invariant w) by apply after_invariant.
  assert (M : remembered w) by apply after_remembered.
  assert (Lin : In (token (pageStage (hooks w))) (inflight (pageStage (hooks w))))
    by (rewrite <- E; apply live_In; exact L).
  destruct (success_has_data _ (page_needs_document I (or_introl Lin))) as [pdf D].
  assert (Sd' : settled (documentResult w)) by (rewrite D; left; reflexivity).
  destruct (success_has_data _ (document_needs_buffer I (or_intror Sd'))) as [data B].
  destruct I as [Sd C].
  unfold coherent in C. rewrite R in C. destruct C as (Kb & Kd & Kp).
  unfold remembered in M. rewrite R in M. destruct M as (Md & Mp & Ml & Ms & Mf & Mr).
  assert (A : pageResult w = Pending) by (apply (page_awaiting Sd), Lin).
  subst w'. rewrite (@applied_page host w t (Resolved pageData) props R L E).
  rewrite pass_eq. simpl fst. simpl snd.
  set (h0 := withPageStage (settle t (Resolved pageData) (pageStage (hooks w))) (hooks w)).
  destruct (@settle_applied_runner _ _ t (Resolved pageData) (pageStage (hooks w)) L E)
    as (Hk & Ht & Hp).
  assert (Eb : bufferAfter props h0 = bufferStage (hooks w)).
  { unfold bufferAfter. simpl. rewrite run_same_key; [reflexivity | exact Kb]. }
  assert (Bi : bufferIssued props h0 = []).
  { unfold bufferIssued. simpl. rewrite run_same_key; [reflexivity | exact Kb]. }
  assert (Ed : documentAfter props h0 = documentStage (hooks w)).
  { unfold documentAfter. rewrite Eb. simpl.
    rewrite run_same_key; [reflexivity | exact Kd]. }
  assert (Di : documentIssued props h0 = []).
  { unfold documentIssued. rewrite Eb. simpl.
    rewrite run_same_key; [reflexivity | exact Kd]. }
  assert (Ep : pageAfter props h0 = settle t (Resolved pageData) (pageStage (hooks w))).
  { unfold pageAfter. rewrite Ed. simpl.
    rewrite run_same_key; [reflexivity | rewrite Hk; exact Kp]. }
  assert (Pi : pageIssued props h0 = []).
  { unfold pageIssued. rewrite Ed. simpl.
    rewrite run_same_key; [reflexivity | rewrite Hk; exact Kp]. }
  assert (Pp : published (pageAfter props h0) = Success pageData)
    by (rewrite Ep; exact Hp).
  unfold bufferResult, documentResult, pageResult in *. simpl.
  rewrite passHooks_bufferStage, passHooks_documentStage, passHooks_pageStage,
    passHooks_canvasRef, passOutput_eq.
  rewrite Eb, Ed, Pp, B, D.
  split; [reflexivity|]. split; [reflexivity|]. split; [reflexivity|].
  split; [reflexivity|].
  unfold passCalls. rewrite Byblos_eq. cbv zeta. simpl snd.
  rewrite Bi, Di, Pi, Eb, Ed, Pp, B, D. simpl.
  rewrite Md, Mp, Ml, Ms, Mf, Mr, A, B, D.
  rewrite useEffect_same.
  rewrite (useEffect_changed (pair_eq_dec pageResult_dec Fn_dec))
    by (intros X; inversion X).
  rewrite (useEffect_changed (pair_eq_dec Fn_dec bool_dec) (deps := (onLoading props, false)))
    by (intros X; inversion X).
  rewrite loadingEffect_idle.
  rewrite (useEffect_changed (pair_eq_dec Fn_dec bool_dec))
    by (intros X; inversion X).
  rewrite (useEffect_changed (pair_eq_dec pageResult_dec (option_eq_dec number_eq_dec)))
    by (intros X; inversion X).
  rewrite failureEffect_idle by reflexivity.
  rewrite !useEffect_nil. simpl.
  unfold pageSuccessEffect, successEffect.
  destruct (onPageSuccess props), (onSuccess props),
    (getContext2d host (canvasElement host)); reflexivity.
Qed.

(** ** The loading callback *)

Lemma loading_calls host props h :
  filter isOnLoading (passCalls host props h) =
  useEffect (pair_eq_dec Fn_dec Bool.bool_dec) (loadingDeps h)
    (onLoading props,
     loading (published (bufferAfter props h)) (published (documentAfter props h))
       (published (pageAfter props h)))
    (loadingEffect
       (loading (published (bufferAfter props h)) (published (documentAfter props h))
          (published (pageAfter props h)))
       (onLoading props)).
Proof. callback_calls. Qed.

Lemma pass_loadingDepsOf host props h :
  loadingDepsOf (fst (pass host props h))
  = Some (onLoading props,
          loading (published (bufferAfter props h)) (published (documentAfter props h))
            (published (pageAfter props h))).
Proof.
  rewrite pass_eq. unfold loadingDepsOf, isLoading, bufferResult, documentResult, pageResult.
  simpl. rewrite passHooks_bufferStage, passHooks_documentStage, passHooks_pageStage.
  reflexivity.
Qed.

Lemma loadingDeps_hooks w :
  invariant w -> remembered w -> loadingDeps (hooks w) = loadingDepsOf w.
Proof.
  intros [_ C] M. unfold loadingDepsOf, isLoading.
  unfold coherent in C. unfold remembered in M. destruct (rendered w).
  - tauto.
  - rewrite C. reflexivity.
Qed.

Lemma loading_step host w i :
  invariant w -> remembered w ->
  (exists props h0, step host w i = pass host props h0 /\ loadingDeps h0 = loadingDepsOf w)
  \/ (snd (step host w i) = [] /\ loadingDepsOf (fst (step host w i)) = loadingDepsOf w).
Proof.
  intros I M. pose proof (loadingDeps_hooks I M) as D.
  assert (Q : forall applied h,
             loadingDeps h = loadingDepsOf w ->
             (applied = false ->
              loadingDepsOf (mkInstance h (rendered w)) = loadingDepsOf w) ->
             (exists props h0, update host applied h w = pass host props h0
                               /\ loadingDeps h0 = loadingDepsOf w)
             \/ (snd (update host applied h w) = []
                 /\ loadingDepsOf (fst (update host applied h w)) = loadingDepsOf w)).
  { intros applied h Dh Sh. unfold update. destruct (rendered w) as [props|] eqn:R.
    - destruct applied.
      + left. exists props, h. auto.
      + right. split; [reflexivity|]. simpl. apply Sh. reflexivity.
    - right. split; [reflexivity|]. simpl. unfold loadingDepsOf. simpl.
      rewrite R. reflexivity. }
  destruct i as [props|t o|t o|t o]; simpl.
  - left. exists props, (hooks w). auto.
  - apply Q; [exact D|]. intros A.
    unfold loadingDepsOf, isLoading, bufferResult, documentResult, pageResult. simpl.
    rewrite settle_published, A. reflexivity.
  - apply Q; [exact D|]. intros A.
    unfold loadingDepsOf, isLoading, bufferResult, documentResult, pageResult. simpl.
    rewrite settle_published, A. reflexivity.
  - apply Q; [exact D|]. intros A.
    unfold loadingDepsOf, isLoading, bufferResult, documentResult, pageResult. simpl.
    rewrite settle_published, A. reflexivity.
Qed.

(** X8: [onLoading] follows the pair ([onLoading] prop, [loading]).  In an
    update that leaves the pair unchanged it is not called; in an update that
    changes it, the callback now passed is called exactly once if [loading] is
    true, and not at all otherwise.  So an update that turns [loading] on, the
    first pass included, calls [onLoading] once, and an update that ends with
    [loading] off never calls it. *)
Theorem loading_callback_fires_once_per_change :
  forall (host : Host) (inputs : list Input) (i : Input),
    let w := after host inputs in
    let w' := fst (step host w i) in
    let calls := snd (step host w i) in
    (loadingDepsOf w' = loadingDepsOf w -> filter isOnLoading calls = [])
    /\ (loadingDepsOf w' <> loadingDepsOf w ->
        filter isOnLoading calls =
        match loadingDepsOf w' with
        | Some (Some f, true) => [OnLoading f]
        | _ => []
        end)
    /\ (forall props' f,
          rendered w' = Some props' -> onLoading props' = Some f ->
          isLoading w' = true ->
          rendered w = None \/ isLoading w = false ->
          filter isOnLoading calls = [OnLoading f])
    /\ (isLoading w' = false -> filter isOnLoading calls = []).
Proof.
  intros host inputs i w w' calls.
  assert (P : (loadingDepsOf w' = loadingDepsOf w -> filter isOnLoading calls = [])
              /\ (loadingDepsOf w' <> loadingDepsOf w ->
                  filter isOnLoading calls =
                  match loadingDepsOf w' with
                  | Some (Some f, true) => [OnLoading f]
                  | _ => []
                  end)).
  { subst w' calls.
    destruct (loading_step host i (after_invariant host inputs)
                (after_remembered host inputs)) as [(props & h0 & E & D)|[E Sl]];
      fold w in E |- *.
    - fold w in D. rewrite E, pass_loadingDepsOf. rewrite pass_eq. simpl.
      rewrite loading_calls, D. split; intros H.
      + rewrite <- H. apply useEffect_same.
      + rewrite useEffect_changed by congruence.
        unfold loadingEffect. destruct (onLoading props); [|reflexivity].
        destruct (loading _ _ _); reflexivity.
    - fold w in Sl. rewrite E. split; intros H; [reflexivity | contradiction]. }
  destruct P as [P0 P1]. split; [exact P0|]. split; [exact P1|]. split.
  - intros props' f R F T N. rewrite P1.
    + unfold loadingDepsOf. rewrite R, F, T. reflexivity.
    + unfold loadingDepsOf. rewrite R, F, T.
      destruct N as [N|N]; [rewrite N; discriminate|].
      destruct (rendered w); [|discriminate]. rewrite N. intros X. inversion X.
  - intros F.
    destruct (option_eq_dec (pair_eq_dec Fn_dec Bool.bool_dec)
                (loadingDepsOf w') (loadingDepsOf w)) as [H|H].
    + apply P0, H.
    + rewrite (P1 H). unfold loadingDepsOf. rewrite F.
      destruct (rendered w'); [|reflexivity]. destruct (onLoading b); reflexivity.
Qed.

(** ** Passes that change no dependency *)

Lemma quiet_stages props h :
  key (bufferStage h) = Some (source props) ->
  key (documentStage h) = Some (published (bufferStage h)) ->
  key (pageStage h) = Some (published (documentStage h), page props) ->
  bufferAfter props h = bufferStage h
  /\ documentAfter props h = documentStage h
  /\ pageAfter props h = pageStage h
  /\ bufferIssued props h = []
  /\ documentIssued props h = []
  /\ pageIssued props h = [].
Proof.
  intros Kb Kd Kp.
  assert (Eb : bufferAfter props h = bufferStage h)
    by (unfold bufferAfter; rewrite run_same_key; [reflexivity | exact Kb]).
  assert (Ed : documentAfter props h = documentStage h)
    by (unfold documentAfter; rewrite Eb, run_same_key; [reflexivity | exact Kd]).
  assert (Ep : pageAfter props h = pageStage h)
    by (unfold pageAfter; rewrite Ed, run_same_key; [reflexivity | exact Kp]).
  repeat split; try assumption.
  - unfold bufferIssued. rewrite run_same_key; [reflexivity | exact Kb].
  - unfold documentIssued. rewrite Eb, run_same_key; [reflexivity | exact Kd].
  - unfold pageIssued. rewrite Ed, run_same_key; [reflexivity | exact Kp].
Qed.

(** X9: a pass whose props have the source (type, value, fetch options) and
    the page of the pass before leaves the three stages exactly as they are
    and asks for nothing, whatever else has changed in the props: callbacks,
    class name, fallbacks or scale. *)
Theorem other_props_restart_nothing :
  forall (host : Host) (inputs : list Input) (props props' : ByblosProps),
    let w := after host inputs in
    rendered w = Some props ->
    source props' = source props ->
    page props' = page props ->
    let w' := fst (step host w (Render props')) in
    bufferStage (hooks w') = bufferStage (hooks w)
    /\ documentStage (hooks w') = documentStage (hooks w)
    /\ pageStage (hooks w') = pageStage (hooks w)
    /\ filter isIssue (snd (step host w (Render props'))) = [].
Proof.
  intros host inputs props props' w R Hs Hp w'. subst w'.
  destruct (after_invariant host inputs) as [_ C]. fold w in C.
  unfold coherent in C. rewrite R in C. destruct C as (Kb & Kd & Kp).
  rewrite <- Hs in Kb. rewrite <- Hp in Kp.
  destruct (quiet_stages props' (hooks w) Kb Kd Kp) as (Eb & Ed & Ep & Bi & Di & Pi).
  simpl. rewrite pass_eq. simpl.
  rewrite passHooks_bufferStage, passHooks_documentStage, passHooks_pageStage,
    issued_by_pass, Bi, Di, Pi. auto.
Qed.

Lemma pass_shown host props h : shown host (fst (pass host props h)).
Proof.
  rewrite pass_eq. unfold shown, isLoading, surfaced, bufferResult, documentResult,
    pageResult. simpl.
  rewrite passHooks_canvasRef, passOutput_eq,
    passHooks_bufferStage, passHooks_documentStage, passHooks_pageStage. reflexivity.
Qed.

Lemma update_shown host applied h w :
  (applied = false -> shown host (mkInstance h (rendered w))) ->
  (rendered w = None -> shown host (mkInstance h None)) ->
  shown host (fst (update host applied h w)).
Proof.
  intros H N. unfold update. destruct (rendered w) as [props|] eqn:R.
  - destruct applied; [apply pass_shown | apply H; reflexivity].
  - apply N. reflexivity.
Qed.

Lemma step_shown host w i : shown host w -> shown host (fst (step host w i)).
Proof.
  intros Sh. destruct i as [props|t o|t o|t o]; simpl.
  - apply pass_shown.
  - apply update_shown.
    + intros A. unfold shown, isLoading, surfaced, bufferResult, documentResult,
        pageResult in *. simpl. rewrite settle_published, A. exact Sh.
    + intros R. unfold shown in *. simpl. rewrite R in Sh. exact Sh.
  - apply update_shown.
    + intros A. unfold shown, isLoading, surfaced, bufferResult, documentResult,
        pageResult in *. simpl. rewrite settle_published, A. exact Sh.
    + intros R. unfold shown in *. simpl. rewrite R in Sh. exact Sh.
  - apply update_shown.
    + intros A. unfold shown, isLoading, surfaced, bufferResult, documentResult,
        pageResult in *. simpl. rewrite settle_published, A. exact Sh.
    + intros R. unfold shown in *. simpl. rewrite R in Sh. exact Sh.
Qed.

Lemma after_shown host inputs : shown host (after host inputs).
Proof.
  induction inputs as [|i inputs IH] using rev_ind.
  - reflexivity.
  - rewrite after_snoc. apply step_shown, IH.
Qed.

Lemma useEffect_unchanged {D : Type} (dec : forall a b : D, {a = b} + {a <> b})
  (before : option D) (deps : D) (effect : list Call) :
  before = Some deps -> useEffect dec before deps effect = [].
Proof. intros ->. apply useEffect_same. Qed.

(** X10: rendering a component again with the very props of its last pass is
    a no-op: the state of its hooks is exactly what it was and nothing is
    called, neither a request, nor a callback, nor the canvas. *)
Theorem same_props_pass_is_a_no_op :
  forall (host : Host) (inputs : list Input) (props : ByblosProps),
    let w := after host inputs in
    rendered w = Some props ->
    step host w (Render props) = (w, []).
Proof.
  intros host inputs props w R.
  destruct (after_invariant host inputs) as [_ C]. fold w in C.
  pose proof (after_remembered host inputs) as M. fold w in M.
  pose proof (after_shown host inputs) as Sh. fold w in Sh.
  unfold coherent in C. rewrite R in C. destruct C as (Kb & Kd & Kp).
  unfold remembered in M. rewrite R in M. destruct M as (Md & Mp & Ml & Ms & Mf & Mr).
  unfold shown, isLoading, surfaced in Sh. rewrite R in Sh.
  destruct (quiet_stages props (hooks w) Kb Kd Kp) as (Eb & Ed & Ep & Bi & Di & Pi).
  unfold bufferResult, documentResult, pageResult in *.
  simpl. unfold pass. rewrite Byblos_eq. cbv zeta.
  rewrite Bi, Di, Pi, Eb, Ed, Ep.
  do 6 (rewrite useEffect_unchanged by assumption).
  rewrite <- Md, <- Mp, <- Ml, <- Ms, <- Mf, <- Mr, <- Sh. simpl.
  rewrite <- R. destruct w as [h r]. destruct h. reflexivity.
Qed.

(** X11: a pass that changes only the [scale] prop restarts no stage and calls
    no callback.  If the page stage has succeeded it repaints that same page:
    when the canvas gives a 2D context the canvas is sized to the page's
    viewport at the new scale (1 when the prop is now omitted) and the page is
    painted once; if the page stage has not succeeded the pass calls
    nothing. *)
Theorem scale_change_only_repaints :
  forall (host : Host) (inputs : list Input) (props : ByblosProps) (s : option number),
    let w := after host inputs in
    rendered w = Some props ->
    s <> scale props ->
    let w' := fst (step host w (Render (withScale s props))) in
    bufferStage (hooks w') = bufferStage (hooks w)
    /\ documentStage (hooks w') = documentStage (hooks w)
    /\ pageStage (hooks w') = pageStage (hooks w)
    /\ snd (step host w (Render (withScale s props)))
       = match pageResult w with
         | Success pageData =>
             match getContext2d host (canvasElement host) with
             | Some context =>
                 let viewport :=
                   getViewport host pageData
                     (match s with Some n => n | None => js_one end) in
                 [ SetCanvasHeight (canvasElement host) (height viewport);
                   SetCanvasWidth (canvasElement host) (width viewport);
                   RenderPage pageData context viewport ]
             | None => []
             end
         | _ => []
         end.
Proof.
  intros host inputs props s w R N w'. subst w'.
  assert (I : invariant w) by apply after_invariant.
  pose proof (after_remembered host inputs) as M. fold w in M.
  destruct (settled_in_order I) as (Od & Op & _).
  destruct I as [_ C].
  unfold coherent in C. rewrite R in C. destruct C as (Kb & Kd & Kp).
  unfold remembered in M. rewrite R in M. destruct M as (Md & Mp & Ml & Ms & Mf & Mr).
  destruct (quiet_stages (withScale s props) (hooks w) Kb Kd Kp)
    as (Eb & Ed & Ep & Bi & Di & Pi).
  unfold bufferResult, documentResult, pageResult in *.
  simpl. rewrite pass_eq. simpl.
  rewrite passHooks_bufferStage, passHooks_documentStage, passHooks_pageStage.
  split; [exact Eb|]. split; [exact Ed|]. split; [exact Ep|].
  unfold passCalls. rewrite Byblos_eq. cbv zeta. simpl snd.
  rewrite Bi, Di, Pi, Eb, Ed, Ep. simpl.
  do 5 (rewrite useEffect_unchanged by assumption).
  rewrite useEffect_changed by (rewrite Mr; intros X; inversion X; congruence).
  simpl.
  destruct (published (pageStage (hooks w))) as [| |pageData|e] eqn:P;
    try (apply renderEffect_idle; discriminate).
  destruct Op as [pdf D]; [left; reflexivity|].
  destruct Od as [data B]; [rewrite D; left; reflexivity|].
  rewrite B, D. reflexivity.
Qed.

(** ** What the callbacks can rely on *)

Lemma effect_member_success f flag cb :
  In (OnSuccess f) (successEffect flag cb) -> cb = Some f /\ flag = true.
Proof.
  unfold successEffect. destruct cb as [g|]; [|intros []].
  destruct flag; [|intros []]. intros [H|[]]. inversion H. auto.
Qed.

Lemma effect_member_failure f e err cb :
  In (OnFailure f e) (failureEffect err cb) ->
  cb = Some f /\ e = err /\ truthy err = true.
Proof.
  unfold failureEffect. destruct cb as [g|]; [|intros []].
  destruct (truthy err) eqn:T; [|intros []]. intros [H|[]]. inversion H. auto.
Qed.

Lemma In_filter_call (f : Call -> bool) c calls :
  In c calls -> f c = true -> In c (filter f calls).
Proof. intros H T. apply filter_In. auto. Qed.

(** X12: across every update of a component, [onSuccess] is called only in an
    update that ends with the page stage in [Success] and the canvas mounted,
    and such an update calls neither [onFailure] nor [onLoading]; [onFailure]
    is called only with the truthy error of the one stage that has failed, in
    an update that renders a fallback and mounts no canvas. *)
Theorem callbacks_match_what_is_shown :
  forall (host : Host) (inputs : list Input) (i : Input),
    let w := after host inputs in
    let w' := fst (step host w i) in
    let calls := snd (step host w i) in
    (forall f, In (OnSuccess f) calls ->
       (exists pageData, pageResult w' = Success pageData)
       /\ canvasRef (hooks w') = Some (canvasElement host)
       /\ filter isOnFailure calls = []
       /\ filter isOnLoading calls = [])
    /\ (forall f e, In (OnFailure f e) calls ->
          truthy e = true
          /\ e = surfaced w'
          /\ In e (failures (bufferResult w') (documentResult w') (pageResult w'))
          /\ canvasRef (hooks w') = None).
Proof.
  intros host inputs i w w' calls.
  assert (I : invariant w) by apply after_invariant.
  assert (I' : invariant w') by (apply step_invariant, I).
  destruct (settled_in_order I') as (Od & Op & _ & _ & Oe).
  destruct (step_pass_or_silent host i I (after_remembered host inputs))
    as [(props & h0 & E & _)|[E _]].
  2: { subst calls. rewrite E. split; [intros f []|intros f e []]. }
  subst w' calls. fold w in E. rewrite E in *. rewrite pass_eq in *. simpl fst in *.
  simpl snd.
  unfold surfaced, bufferResult, documentResult, pageResult in *. simpl in *.
  rewrite passHooks_canvasRef, passOutput_eq.
  rewrite passHooks_bufferStage, passHooks_documentStage, passHooks_pageStage in *.
  split.
  - intros f H.
    apply (In_filter_call isOnSuccess) in H; [|reflexivity].
    rewrite success_calls in H. apply useEffect_incl, effect_member_success in H.
    destruct H as [_ H]. apply Status_eqb_eq, success_has_data in H.
    destruct H as [pageData P].
    destruct Op as [pdf D]; [rewrite P; left; reflexivity|].
    destruct Od as [data B]; [rewrite D; left; reflexivity|].
    rewrite failure_calls, loading_calls, P, D, B. simpl.
    rewrite failureEffect_idle by reflexivity. rewrite loadingEffect_idle.
    rewrite !useEffect_nil. eauto.
  - intros f e H.
    apply (In_filter_call isOnFailure) in H; [|reflexivity].
    rewrite failure_calls in H. apply useEffect_incl, effect_member_failure in H.
    destruct H as (_ & -> & T).
    split; [exact T|]. split; [reflexivity|]. split; [apply Oe, T|].
    unfold view. rewrite T. destruct (loading _ _ _); reflexivity.
Qed.

(** ** A new source *)

Lemma pageProducer_suspended d pg : status d <> success -> pageProducer d pg = Suspended.
Proof. destruct d; simpl; intros H; try reflexivity. contradiction H; reflexivity. Qed.

Lemma suspended_issues_nothing {K T : Type} (dec : forall a b : K, {a = b} + {a <> b})
  (stage : Stage) (k : K) (r : Runner K T) :
  snd (run dec stage Suspended k r) = [].
Proof.
  destruct (run_cases dec stage Suspended k r) as [[_ X]|(_ & _ & _ & _ & _ & X)];
    rewrite X; reflexivity.
Qed.

(** X13: a pass with another source (type, value or fetch options) starts over
    from the bytes: the bytes stage takes its next token and publishes
    [Pending], the only request is the fetch of the new source, the document
    and page stages are left without a result, the canvas is unmounted, and
    none of [onDocumentSuccess], [onPageSuccess], [onSuccess] and [onFailure]
    is called, nor is anything painted. *)
Theorem new_source_starts_over :
  forall (host : Host) (inputs : list Input) (props props' : ByblosProps),
    let w := after host inputs in
    rendered w = Some props ->
    source props' <> source props ->
    let w' := fst (step host w (Render props')) in
    let calls := snd (step host w (Render props')) in
    bufferResult w' = Pending
    /\ token (bufferStage (hooks w')) = S (token (bufferStage (hooks w)))
    /\ ~ settled (documentResult w')
    /\ ~ settled (pageResult w')
    /\ canvasRef (hooks w') = None
    /\ filter isIssue calls =
       [Issue BufferStage (S (token (bufferStage (hooks w))))
          (match source props' with
           | url value fetchOptions => FetchURL value fetchOptions
           | blob value => ReadBlob value
           end)]
    /\ filter isOnDocumentSuccess calls = []
    /\ filter isOnPageSuccess calls = []
    /\ filter isOnSuccess calls = []
    /\ filter isOnFailure calls = []
    /\ filter isSinkCall calls = [].
Proof.
  intros host inputs props props' w R N w' calls.
  assert (I : invariant w) by apply after_invariant.
  assert (I' : invariant w') by (apply step_invariant, I).
  subst w' calls. simpl in *. rewrite pass_eq in *. simpl fst in *. simpl snd.
  destruct I as [_ C]. unfold coherent in C. rewrite R in C. destruct C as (Kb & _).
  destruct (run_cases SourceProps_eq_dec BufferStage (bufferProducer props')
              (source props') (bufferStage (hooks w)))
    as [[K _]|(_ & _ & Ht & Hp & Hi)]; [congruence|].
  assert (P : bufferProducer props'
              = Started match source props' with
                        | url value fetchOptions => FetchURL value fetchOptions
                        | blob value => ReadBlob value
                        end)
    by (unfold bufferProducer; destruct (source props'); reflexivity).
  assert (Pb : published (bufferAfter props' (hooks w)) = Pending)
    by (unfold bufferAfter; rewrite Hp, P; reflexivity).
  assert (Bi : bufferIssued props' (hooks w)
               = [Issue BufferStage (S (token (bufferStage (hooks w))))
                    (match source props' with
                     | url value fetchOptions => FetchURL value fetchOptions
                     | blob value => ReadBlob value
                     end)]).
  { unfold bufferIssued. rewrite P in Hi |- *. destruct Hi as [_ Hi]. exact Hi. }
  assert (Nb : status (bufferResult (mkInstance (passHooks host props' (hooks w))
                                       (Some props'))) <> success).
  { unfold bufferResult. simpl. rewrite passHooks_bufferStage, Pb. discriminate. }
  destruct (blocked_downstream I' Nb) as (Ud & Up & _).
  unfold bufferResult, documentResult, pageResult in *. simpl in *.
  rewrite passHooks_bufferStage, passHooks_documentStage, passHooks_pageStage in *.
  destruct (unsettled_not_success Ud) as [Nd Fd].
  destruct (unsettled_not_success Up) as [Np Fp].
  assert (Di : documentIssued props' (hooks w) = []).
  { unfold documentIssued. rewrite Pb. apply suspended_issues_nothing. }
  assert (Pi : pageIssued props' (hooks w) = []).
  { unfold pageIssued. rewrite pageProducer_suspended by exact Nd.
    apply suspended_issues_nothing. }
  split; [exact Pb|]. split; [exact Ht|]. split; [exact Ud|]. split; [exact Up|].
  split.
  { rewrite passHooks_canvasRef, passOutput_eq, Pb. reflexivity. }
  split; [rewrite issued_by_pass, Bi, Di, Pi; reflexivity|].
  rewrite documentSuccess_calls, pageSuccess_calls, success_calls, failure_calls.
  fold (sinkCalls host props' (hooks w)). rewrite sinkCalls_eq.
  rewrite documentSuccessEffect_idle by exact Nd.
  rewrite pageSuccessEffect_idle by exact Np.
  rewrite not_success_flag by exact Np. rewrite successEffect_idle.
  rewrite failureEffect_idle
    by (rewrite error_cases, Pb, Fd, Fp; reflexivity).
  rewrite renderEffect_idle by exact Np.
  rewrite !useEffect_nil. auto 10.
Qed.

(** ** Pending means in flight *)

Lemma run_underway {K T : Type} (dec : forall a b : K, {a = b} + {a <> b})
  (stage : Stage) (producer : Produced) (k : K) (r : Runner K T) :
  underway r -> underway (fst (run dec stage producer k r)).
Proof.
  intros U. destruct (run_cases dec stage producer k r) as [[_ E]|(_ & _ & Ht & Hp & H)].
  - rewrite E. exact U.
  - intros P. rewrite Hp in P. destruct producer as [|q]; [discriminate|].
    destruct H as [Hi _]. rewrite Ht, Hi. left. reflexivity.
Qed.

Lemma settle_underway {K T : Type} (t : RunToken) (o : Outcome T) (r : Runner K T) :
  underway r -> underway (settle t o r).
Proof.
  unfold underway, settle. intros U.
  destruct (live t r) eqn:L; [|exact U].
  destruct (current t r) eqn:C; simpl.
  - intros P. destruct o; discriminate.
  - intros P. apply filter_In. split; [apply U, P|].
    unfold current in C. rewrite C. reflexivity.
Qed.

Lemma pass_allUnderway host props h :
  allUnderway h -> allUnderway (passHooks host props h).
Proof.
  intros (B & D & P). unfold allUnderway.
  rewrite passHooks_bufferStage, passHooks_documentStage, passHooks_pageStage.
  unfold pageAfter, documentAfter, bufferAfter at 1.
  auto using run_underway.
Qed.

Lemma update_allUnderway host applied h w :
  allUnderway h -> allUnderway (hooks (fst (update host applied h w))).
Proof.
  intros U. unfold update. destruct (rendered w); [|exact U].
  destruct applied; [|exact U]. rewrite pass_eq. simpl. apply pass_allUnderway, U.
Qed.

Lemma step_allUnderway host w i :
  allUnderway (hooks w) -> allUnderway (hooks (fst (step host w i))).
Proof.
  intros U. destruct i as [props|t o|t o|t o]; simpl.
  - rewrite pass_eq. simpl. apply pass_allUnderway, U.
  - apply update_allUnderway. destruct U as (B & D & P).
    repeat split; simpl; auto using settle_underway.
  - apply update_allUnderway. destruct U as (B & D & P).
    repeat split; simpl; auto using settle_underway.
  - apply update_allUnderway. destruct U as (B & D & P).
    repeat split; simpl; auto using settle_underway.
Qed.

Lemma after_allUnderway host inputs : allUnderway (hooks (after host inputs)).
Proof.
  induction inputs as [|i inputs IH] using rev_ind.
  - repeat split; intros H; discriminate H.
  - rewrite after_snoc. apply step_allUnderway, IH.
Qed.

Lemma unsettled_no_failure {T : Type} (r : StageResult T) :
  ~ settled r -> match r with Failure e => [e] | _ => [] end = [].
Proof.
  unfold settled. destruct r; simpl; intros H; try reflexivity.
  exfalso. apply H. auto.
Qed.

(** While a stage is pending no stage is failed: a component with a failed
    stage is not loading. *)
Lemma loading_without_failure w :
  invariant w -> allUnderway (hooks w) -> isLoading w = true ->
  failures (bufferResult w) (documentResult w) (pageResult w) = [].
Proof.
  intros I (Ub & Ud & Up) L. unfold isLoading in L. apply loading_true_iff in L.
  destruct (upstream_succeeded I) as [D P].
  unfold failures. destruct L as [L|[L|L]].
  - assert (N : status (bufferResult w) <> success) by (rewrite L; discriminate).
    destruct (blocked_downstream I N) as (Nd & Np & _).
    rewrite L, (unsettled_no_failure Nd), (unsettled_no_failure Np). reflexivity.
  - apply Ud in L as Lin.
    destruct (success_has_data _ (document_needs_buffer I (or_introl Lin))) as [data B].
    assert (Np : ~ settled (pageResult w)).
    { intros H. destruct (P H) as [pdf X]. congruence. }
    rewrite B, L, (unsettled_no_failure Np). reflexivity.
  - apply Up in L as Lin.
    destruct (success_has_data _ (page_needs_document I (or_introl Lin))) as [pdf Dd].
    assert (Sd : settled (documentResult w)) by (rewrite Dd; left; reflexivity).
    destruct (D Sd) as [data B].
    rewrite B, Dd, L. reflexivity.
Qed.

Lemma failure_ends_loading w :
  invariant w -> allUnderway (hooks w) ->
  failures (bufferResult w) (documentResult w) (pageResult w) <> [] ->
  isLoading w = false.
Proof.
  intros I U F. destruct (isLoading w) eqn:L; [|reflexivity].
  exfalso. apply F, (loading_without_failure I U L).
Qed.



(** ** Rejections *)

Lemma truthy_not_false e : truthy e = true -> e <> JSBoolean false.
Proof. intros T ->. discriminate T. Qed.

Lemma failureEffect_cases e cb :
  failureEffect e cb
  = match cb with
    | Some f => if truthy e then [OnFailure f e] else []
    | None => []
    end.
Proof. reflexivity. Qed.

(** The failure effect of a pass whose error was [false] before. *)
Lemma failure_effect_from_none (before : option (option Fn * JSValue)) cb e :
  before = Some (cb, JSBoolean false) ->
  useEffect (pair_eq_dec Fn_dec JSValue_eq_dec) before (cb, e) (failureEffect e cb)
  = match cb with
    | Some f => if truthy e then [OnFailure f e] else []
    | None => []
    end.
Proof.
  intros ->. destruct (truthy e) eqn:T.
  - rewrite useEffect_changed.
    + rewrite failureEffect_cases, T. reflexivity.
    + intros X. inversion X. subst e. discriminate T.
  - rewrite failureEffect_idle by exact T. rewrite useEffect_nil.
    destruct cb; reflexivity.
Qed.

(** The loading effect of a pass that was loading before. *)
Lemma loading_effect_from_loading (before : option (option Fn * bool)) cb l :
  before = Some (cb, true) ->
  useEffect (pair_eq_dec Fn_dec Bool.bool_dec) before (cb, l) (loadingEffect l cb) = [].
Proof.
  intros ->. destruct l.
  - apply useEffect_same.
  - rewrite loadingEffect_idle. apply useEffect_nil.
Qed.

Lemma error_of_page data pdf p : error (Success data) (Success pdf) p = failed p.
Proof. reflexivity. Qed.

Lemma error_when_bytes_failed e d p :
  failed d = JSBoolean false -> failed p = JSBoolean false ->
  error (Failure e) d p = if truthy e then e else JSBoolean false.
Proof.
  intros Fd Fp. rewrite error_cases, Fd, Fp. simpl. destruct (truthy e); reflexivity.
Qed.

Lemma error_when_document_failed data e p :
  failed p = JSBoolean false ->
  error (Success data) (Failure e) p = if truthy e then e else JSBoolean false.
Proof.
  intros Fp. rewrite error_cases, Fp. simpl. destruct (truthy e); reflexivity.
Qed.

Lemma failure_effect_of_rejection (before : option (option Fn * JSValue)) cb e :
  before = Some (cb, JSBoolean false) ->
  useEffect (pair_eq_dec Fn_dec JSValue_eq_dec) before
    (cb, if truthy e then e else JSBoolean false)
    (failureEffect (if truthy e then e else JSBoolean false) cb)
  = match cb with
    | Some f => if truthy e then [OnFailure f e] else []
    | None => []
    end.
Proof.
  intros H. rewrite (failure_effect_from_none _ H).
  destruct cb; [|reflexivity]. destruct (truthy e) eqn:T; [rewrite T|]; reflexivity.
Qed.

Lemma view_when_failed props e :
  view props false (if truthy e then e else JSBoolean false)
  = if truthy e then Fragment (errorFallback props) else Canvas (className props).
Proof. unfold view. destruct (truthy e) eqn:T; [rewrite T|]; reflexivity. Qed.

Lemma commitRef_when_failed host props e :
  commitRef host (if truthy e then Fragment (errorFallback props)
                  else Canvas (className props))
  = if truthy e then None else Some (canvasElement host).
Proof. destruct (truthy e); reflexivity. Qed.

(** The update in which the rejection of the page stage's run is applied. *)
Lemma page_rejection_update host inputs t e props :
  let w := after host inputs in
  rendered w = Some props ->
  live t (pageStage (hooks w)) = true ->
  t = token (pageStage (hooks w)) ->
  let h0 := withPageStage (settle t (Rejected e) (pageStage (hooks w))) (hooks w) in
  let w' := fst (step host w (SettlePage t (Rejected e))) in
  step host w (SettlePage t (Rejected e)) = pass host props h0
  /\ bufferStage (hooks w') = bufferStage (hooks w)
  /\ documentStage (hooks w') = documentStage (hooks w)
  /\ pageResult w' = Failure e
  /\ passOutput host props h0
     = (if truthy e then Fragment (errorFallback props) else Canvas (className props))
  /\ snd (step host w (SettlePage t (Rejected e)))
     = match onFailure props with
       | Some f => if truthy e then [OnFailure f e] else []
       | None => []
       end.
Proof.
  intros w R L E h0 w'. subst h0.
  assert (I : invariant w) by apply after_invariant.
  assert (M : remembered w) by apply after_remembered.
  assert (Lin : In (token (pageStage (hooks w))) (inflight (pageStage (hooks w))))
    by (rewrite <- E; apply live_In; exact L).
  destruct (success_has_data _ (page_needs_document I (or_introl Lin))) as [pdf D].
  assert (Sd' : settled (documentResult w)) by (rewrite D; left; reflexivity).
  destruct (success_has_data _ (document_needs_buffer I (or_intror Sd'))) as [data B].
  destruct I as [Sd C].
  unfold coherent in C. rewrite R in C. destruct C as (Kb & Kd & Kp).
  unfold remembered in M. rewrite R in M. destruct M as (Md & Mp & Ml & Ms & Mf & Mr).
  assert (A : pageResult w = Pending) by (apply (page_awaiting Sd), Lin).
  subst w'. rewrite (@applied_page host w t (Rejected e) props R L E).
  split; [reflexivity|].
  rewrite pass_eq. simpl fst. simpl snd.
  set (h0 := withPageStage (settle t (Rejected e) (pageStage (hooks w))) (hooks w)).
  destruct (@settle_applied_runner _ _ t (Rejected e) (pageStage (hooks w)) L E)
    as (Hk & Ht & Hp).
  assert (Kp0 : key (pageStage h0) = Some (published (documentStage h0), page props))
    by (simpl; rewrite Hk; exact Kp).
  destruct (quiet_stages props h0 Kb Kd Kp0) as (Eb & Ed & Ep & Bi & Di & Pi).
  assert (Pp : published (pageAfter props h0) = Failure e)
    by (rewrite Ep; exact Hp).
  unfold bufferResult, documentResult, pageResult in *. simpl.
  rewrite passHooks_bufferStage, passHooks_documentStage, passHooks_pageStage,
    passOutput_eq.
  rewrite Eb, Ed, Pp. simpl bufferStage. simpl documentStage. rewrite B, D.
  split; [reflexivity|]. split; [reflexivity|]. split; [reflexivity|].
  split.
  { rewrite error_of_page. unfold view. simpl. destruct (truthy e); reflexivity. }
  unfold passCalls. rewrite Byblos_eq. cbv zeta. simpl snd.
  rewrite Bi, Di, Pi, Eb, Ed, Pp. simpl bufferStage. simpl documentStage.
  rewrite B, D, error_of_page. simpl.
  rewrite failure_effect_from_none
    by (rewrite Mf, A, B, D; reflexivity).
  rewrite (useEffect_unchanged (pair_eq_dec documentResult_dec Fn_dec))
    by (rewrite Md, D; reflexivity).
  rewrite loadingEffect_idle, successEffect_idle.
  rewrite renderEffect_idle by discriminate.
  rewrite !useEffect_nil. rewrite app_nil_r. reflexivity.
Qed.

(** What [canvasRef] holds after an update that was a pass. *)
Lemma canvasRef_of_step host w i props h0 :
  step host w i = pass host props h0 ->
  canvasRef (hooks (fst (step host w i))) = commitRef host (passOutput host props h0).
Proof. intros ->. rewrite pass_eq. simpl. apply passHooks_canvasRef. Qed.

(** X14: when the run that holds the page stage's token is rejected with a
    value [e], the same update publishes [Failure e] for the page stage,
    leaves the bytes and document stages alone and asks for nothing.  If [e]
    is truthy, [onFailure] is called once with [e] when it is given, nothing
    else is called and no canvas is mounted; if [e] is falsy nothing at all is
    called and the canvas is mounted, unpainted. *)
Theorem page_rejection_is_reported :
  forall (host : Host) (inputs : list Input) (t : RunToken) (e : JSValue)
         (props : ByblosProps),
    let w := after host inputs in
    rendered w = Some props ->
    live t (pageStage (hooks w)) = true ->
    t = token (pageStage (hooks w)) ->
    let w' := fst (step host w (SettlePage t (Rejected e))) in
    bufferStage (hooks w') = bufferStage (hooks w)
    /\ documentStage (hooks w') = documentStage (hooks w)
    /\ pageResult w' = Failure e
    /\ canvasRef (hooks w') = (if truthy e then None else Some (canvasElement host))
    /\ snd (step host w (SettlePage t (Rejected e)))
       = match onFailure props with
         | Some f => if truthy e then [OnFailure f e] else []
         | None => []
         end.
Proof.
  intros host inputs t e props w R L E w'. subst w w'.
  destruct (@page_rejection_update host inputs t e props R L E)
    as (Hs & Hb & Hd & Hp & Ho & Hc).
  split; [exact Hb|]. split; [exact Hd|]. split; [exact Hp|].
  split; [|exact Hc].
  rewrite (@canvasRef_of_step _ _ _ _ _ Hs), Ho. apply commitRef_when_failed.
Qed.

(** The update in which the rejection of the bytes stage's run is applied. *)
Lemma fetch_rejection_update host inputs t e props :
  let w := after host inputs in
  rendered w = Some props ->
  live t (bufferStage (hooks w)) = true ->
  t = token (bufferStage (hooks w)) ->
  let h0 := withBufferStage (settle t (Rejected e) (bufferStage (hooks w))) (hooks w) in
  let w' := fst (step host w (SettleBuffer t (Rejected e))) in
  step host w (SettleBuffer t (Rejected e)) = pass host props h0
  /\ bufferResult w' = Failure e
  /\ ~ settled (documentResult w')
  /\ ~ settled (pageResult w')
  /\ passOutput host props h0
     = (if truthy e then Fragment (errorFallback props) else Canvas (className props))
  /\ snd (step host w (SettleBuffer t (Rejected e)))
     = match onFailure props with
       | Some f => if truthy e then [OnFailure f e] else []
       | None => []
       end.
Proof.
  intros w R L E h0 w'. subst h0.
  assert (I : invariant w) by apply after_invariant.
  assert (M : remembered w) by apply after_remembered.
  assert (I' : invariant w') by (apply step_invariant, I).
  assert (U' : allUnderway (hooks w'))
    by (apply step_allUnderway, after_allUnderway).
  assert (Lin : In (token (bufferStage (hooks w))) (inflight (bufferStage (hooks w))))
    by (rewrite <- E; apply live_In; exact L).
  assert (A : bufferResult w = Pending)
    by (destruct I as [Sd _]; apply (buffer_awaiting Sd), Lin).
  assert (Nb : status (bufferResult w) <> success) by (rewrite A; discriminate).
  destruct (blocked_downstream I Nb) as (Ud0 & Up0 & _).
  destruct (unsettled_not_success Ud0) as [_ Fd0].
  destruct (unsettled_not_success Up0) as [_ Fp0].
  destruct I as [Sd C].
  unfold coherent in C. rewrite R in C. destruct C as (Kb & Kd & Kp).
  unfold remembered in M. rewrite R in M. destruct M as (_ & _ & Ml & _ & Mf & _).
  subst w'. rewrite (@applied_buffer host w t (Rejected e) props R L E) in *.
  split; [reflexivity|].
  rewrite pass_eq in *. simpl fst in *. simpl snd.
  set (h0 := withBufferStage (settle t (Rejected e) (bufferStage (hooks w))) (hooks w))
    in *.
  destruct (@settle_applied_runner _ _ t (Rejected e) (bufferStage (hooks w)) L E)
    as (Hk & Ht & Hp).
  assert (Eb : bufferAfter props h0 = settle t (Rejected e) (bufferStage (hooks w))).
  { unfold bufferAfter. simpl. rewrite run_same_key; [reflexivity | congruence]. }
  assert (Bi : bufferIssued props h0 = []).
  { unfold bufferIssued. simpl. rewrite run_same_key; [reflexivity | congruence]. }
  assert (Pb : published (bufferAfter props h0) = Failure e) by (rewrite Eb; exact Hp).
  assert (Nb' : status (bufferResult (mkInstance (passHooks host props h0) (Some props)))
                <> success).
  { unfold bufferResult. simpl. rewrite passHooks_bufferStage, Pb. discriminate. }
  destruct (blocked_downstream I' Nb') as (Ud & Up & _).
  assert (Lf : isLoading (mkInstance (passHooks host props h0) (Some props)) = false).
  { apply (failure_ends_loading I' U'). unfold bufferResult. simpl.
    rewrite passHooks_bufferStage, Pb. discriminate. }
  unfold isLoading, bufferResult, documentResult, pageResult in *.
  simpl in Ud, Up, Lf |- *.
  rewrite passHooks_bufferStage, passHooks_documentStage, passHooks_pageStage in *.
  destruct (unsettled_not_success Ud) as [Nd Fd].
  destruct (unsettled_not_success Up) as [Np Fp].
  assert (Di : documentIssued props h0 = []).
  { unfold documentIssued. rewrite Pb. apply suspended_issues_nothing. }
  assert (Pi : pageIssued props h0 = []).
  { unfold pageIssued. rewrite pageProducer_suspended by exact Nd.
    apply suspended_issues_nothing. }
  split; [exact Pb|]. split; [exact Ud|]. split; [exact Up|]. split.
  { rewrite passOutput_eq, Lf, Pb.
    rewrite error_when_bytes_failed by assumption. apply view_when_failed. }
  unfold passCalls. rewrite Byblos_eq. cbv zeta. simpl snd.
  rewrite Bi, Di, Pi, Pb.
  rewrite error_when_bytes_failed by assumption.
  rewrite documentSuccessEffect_idle by exact Nd.
  rewrite pageSuccessEffect_idle by exact Np.
  rewrite not_success_flag by exact Np. rewrite successEffect_idle.
  rewrite renderEffect_idle by exact Np.
  rewrite loading_effect_from_loading by (simpl; rewrite Ml, A; reflexivity).
  rewrite failure_effect_of_rejection
    by (simpl; rewrite Mf, A, error_cases, Fd0, Fp0; reflexivity).
  rewrite !useEffect_nil, app_nil_r. reflexivity.
Qed.

(** X15: when the fetch that holds the bytes stage's token is rejected with a
    value [e], the same update publishes [Failure e] for the bytes stage and
    asks for nothing: no decoding is started and the document and page stages
    stay without a result.  The only call is [onFailure], once, with [e],
    when the callback is given and [e] is truthy; and with a truthy [e] no
    canvas is mounted. *)
Theorem fetch_rejection_is_reported :
  forall (host : Host) (inputs : list Input) (t : RunToken) (e : JSValue)
         (props : ByblosProps),
    let w := after host inputs in
    rendered w = Some props ->
    live t (bufferStage (hooks w)) = true ->
    t = token (bufferStage (hooks w)) ->
    let w' := fst (step host w (SettleBuffer t (Rejected e))) in
    bufferResult w' = Failure e
    /\ ~ settled (documentResult w')
    /\ ~ settled (pageResult w')
    /\ (truthy e = true -> canvasRef (hooks w') = None)
    /\ snd (step host w (SettleBuffer t (Rejected e)))
       = match onFailure props with
         | Some f => if truthy e then [OnFailure f e] else []
         | None => []
         end.
Proof.
  intros host inputs t e props w R L E w'. subst w w'.
  destruct (@fetch_rejection_update host inputs t e props R L E)
    as (Hs & Hb & Hd & Hp & Ho & Hc).
  split; [exact Hb|]. split; [exact Hd|]. split; [exact Hp|].
  split; [|exact Hc].
  intros T. rewrite (@canvasRef_of_step _ _ _ _ _ Hs), Ho, T. reflexivity.
Qed.

(** The update in which the rejection of the document stage's run is
    applied. *)
Lemma decode_rejection_update host inputs t e props :
  let w := after host inputs in
  rendered w = Some props ->
  live t (documentStage (hooks w)) = true ->
  t = token (documentStage (hooks w)) ->
  let h0 := withDocumentStage (settle t (Rejected e) (documentStage (hooks w)))
              (hooks w) in
  let w' := fst (step host w (SettleDocument t (Rejected e))) in
  step host w (SettleDocument t (Rejected e)) = pass host props h0
  /\ bufferStage (hooks w') = bufferStage (hooks w)
  /\ documentResult w' = Failure e
  /\ ~ settled (pageResult w')
  /\ passOutput host props h0
     = (if truthy e then Fragment (errorFallback props) else Canvas (className props))
  /\ snd (step host w (SettleDocument t (Rejected e)))
     = match onFailure props with
       | Some f => if truthy e then [OnFailure f e] else []
       | None => []
       end.
Proof.
  intros w R L E h0 w'. subst h0.
  assert (I : invariant w) by apply after_invariant.
  assert (M : remembered w) by apply after_remembered.
  assert (I' : invariant w') by (apply step_invariant, I).
  assert (U' : allUnderway (hooks w'))
    by (apply step_allUnderway, after_allUnderway).
  assert (Lin : In (token (documentStage (hooks w))) (inflight (documentStage (hooks w))))
    by (rewrite <- E; apply live_In; exact L).
  destruct (success_has_data _ (document_needs_buffer I (or_introl Lin))) as [data B].
  assert (A : documentResult w = Pending)
    by (destruct I as [Sd _]; apply (document_awaiting Sd), Lin).
  assert (Up0 : ~ settled (pageResult w)).
  { intros H. apply (or_intror (A := In (token (pageStage (hooks w)))
                                         (inflight (pageStage (hooks w))))) in H.
    apply (page_needs_document I) in H. rewrite A in H. discriminate H. }
  destruct (unsettled_not_success Up0) as [_ Fp0].
  destruct I as [Sd C].
  unfold coherent in C. rewrite R in C. destruct C as (Kb & Kd & Kp).
  unfold remembered in M. rewrite R in M. destruct M as (_ & _ & Ml & _ & Mf & _).
  subst w'. rewrite (@applied_document host w t (Rejected e) props R L E) in *.
  split; [reflexivity|].
  rewrite pass_eq in *. simpl fst in *. simpl snd.
  set (h0 := withDocumentStage (settle t (Rejected e) (documentStage (hooks w))) (hooks w))
    in *.
  destruct (@settle_applied_runner _ _ t (Rejected e) (documentStage (hooks w)) L E)
    as (Hk & Ht & Hp).
  assert (Eb : bufferAfter props h0 = bufferStage (hooks w)).
  { unfold bufferAfter. simpl. rewrite run_same_key; [reflexivity | exact Kb]. }
  assert (Bi : bufferIssued props h0 = []).
  { unfold bufferIssued. simpl. rewrite run_same_key; [reflexivity | exact Kb]. }
  assert (Ed : documentAfter props h0 = settle t (Rejected e) (documentStage (hooks w))).
  { unfold documentAfter. rewrite Eb. simpl.
    rewrite run_same_key; [reflexivity | rewrite Hk; exact Kd]. }
  assert (Di : documentIssued props h0 = []).
  { unfold documentIssued. rewrite Eb. simpl.
    rewrite run_same_key; [reflexivity | rewrite Hk; exact Kd]. }
  assert (Pd : published (documentAfter props h0) = Failure e) by (rewrite Ed; exact Hp).
  assert (Pi : pageIssued props h0 = []).
  { unfold pageIssued. rewrite Pd. apply suspended_issues_nothing. }
  assert (Up : ~ settled (published (pageAfter props h0))).
  { intros H.
    assert (X : status (documentResult (mkInstance (passHooks host props h0) (Some props)))
                = success).
    { apply (page_needs_document I'). right. unfold pageResult. simpl.
      rewrite passHooks_pageStage. exact H. }
    unfold documentResult in X. simpl in X.
    rewrite passHooks_documentStage, Pd in X. discriminate X. }
  destruct (unsettled_not_success Up) as [Np Fp].
  assert (Lf : isLoading (mkInstance (passHooks host props h0) (Some props)) = false).
  { apply (failure_ends_loading I' U'). unfold failures, documentResult. simpl.
    rewrite passHooks_documentStage, Pd.
    intros X. apply app_eq_nil in X. destruct X as [_ X].
    apply app_eq_nil in X. destruct X as [X _]. discriminate X. }
  unfold isLoading, bufferResult, documentResult, pageResult in *. simpl in Lf |- *.
  rewrite passHooks_bufferStage, passHooks_documentStage, passHooks_pageStage in *.
  split; [exact Eb|]. split; [exact Pd|]. split; [exact Up|]. split.
  { rewrite passOutput_eq, Lf, Eb, Pd, B.
    rewrite error_when_document_failed by assumption. apply view_when_failed. }
  unfold passCalls. rewrite Byblos_eq. cbv zeta. simpl snd.
  rewrite Bi, Di, Pi, Eb, Pd, B.
  rewrite error_when_document_failed by assumption.
  rewrite documentSuccessEffect_idle by discriminate.
  rewrite pageSuccessEffect_idle by exact Np.
  rewrite not_success_flag by exact Np. rewrite successEffect_idle.
  rewrite renderEffect_idle by exact Np.
  rewrite loading_effect_from_loading
    by (simpl; rewrite Ml, A, loading_pending_document; reflexivity).
  rewrite failure_effect_of_rejection
    by (simpl; rewrite Mf, A, B, error_cases, Fp0; reflexivity).
  rewrite !useEffect_nil, app_nil_r. reflexivity.
Qed.

(** X16: when the decoding that holds the document stage's token is rejected
    with a value [e], the same update publishes [Failure e] for the document
    stage, leaves the bytes stage alone and asks for nothing: no page is
    requested and the page stage stays without a result.  The only call is
    [onFailure], once, with [e], when the callback is given and [e] is truthy;
    and with a truthy [e] no canvas is mounted. *)
Theorem decode_rejection_is_reported :
  forall (host : Host) (inputs : list Input) (t : RunToken) (e : JSValue)
         (props : ByblosProps),
    let w := after host inputs in
    rendered w = Some props ->
    live t (documentStage (hooks w)) = true ->
    t = token (documentStage (hooks w)) ->
    let w' := fst (step host w (SettleDocument t (Rejected e))) in
    bufferStage (hooks w') = bufferStage (hooks w)
    /\ documentResult w' = Failure e
    /\ ~ settled (pageResult w')
    /\ (truthy e = true -> canvasRef (hooks w') = None)
    /\ snd (step host w (SettleDocument t (Rejected e)))
       = match onFailure props with
         | Some f => if truthy e then [OnFailure f e] else []
         | None => []
         end.
Proof.
  intros host inputs t e props w R L E w'. subst w w'.
  destruct (@decode_rejection_update host inputs t e props R L E)
    as (Hs & Hb & Hd & Hp & Ho & Hc).
  split; [exact Hb|]. split; [exact Hd|]. split; [exact Hp|].
  split; [|exact Hc].
  intros T. rewrite (@canvasRef_of_step _ _ _ _ _ Hs), Ho, T. reflexivity.
Qed.

(** ** Failures, captured and reported *)





(** ** The further properties, on the scenarios *)

Lemma bytes_arrival_starts_decoding_witness :
  let w := after demoHost [Render demoProps] in
  live 1 (bufferStage (hooks w)) = true
  /\ 1 = token (bufferStage (hooks w))
  /\ snd (step demoHost w (SettleBuffer 1 (Resolved 100%positive)))
     = [Issue DocumentStage (S (token (documentStage (hooks w))))
          (GetDocument 100%positive)].
Proof.
  cbv zeta.
  assert (L : live 1 (bufferStage (hooks (after demoHost [Render demoProps]))) = true)
    by (vm_compute; reflexivity).
  assert (E : 1 = token (bufferStage (hooks (after demoHost [Render demoProps]))))
    by (vm_compute; reflexivity).
  split; [exact L|]. split; [exact E|].
  exact (proj2 (proj2 (proj2
           (@bytes_arrival_starts_decoding demoHost [Render demoProps] 1 100%positive L E)))).
Defined.

Lemma document_arrival_requests_page_witness :
  let w := after demoHost (firstn 2 scenarioA) in
  rendered w = Some demoProps
  /\ live 2 (documentStage (hooks w)) = true
  /\ 2 = token (documentStage (hooks w))
  /\ documentResult (fst (step demoHost w (SettleDocument 2 (Resolved 200%positive))))
     = Success 200%positive.
Proof.
  cbv zeta.
  assert (R : rendered (after demoHost (firstn 2 scenarioA)) = Some demoProps)
    by (vm_compute; reflexivity).
  assert (L : live 2 (documentStage (hooks (after demoHost (firstn 2 scenarioA)))) = true)
    by (vm_compute; reflexivity).
  assert (E : 2 = token (documentStage (hooks (after demoHost (firstn 2 scenarioA)))))
    by (vm_compute; reflexivity).
  split; [exact R|]. split; [exact L|]. split; [exact E|].
  exact (proj1 (proj2
           (@document_arrival_requests_page demoHost (firstn 2 scenarioA) 2 200%positive
              demoProps R L E))).
Defined.

Lemma page_arrival_paints_the_page_witness :
  let w := after demoHost (firstn 3 scenarioA) in
  rendered w = Some demoProps
  /\ live 3 (pageStage (hooks w)) = true
  /\ 3 = token (pageStage (hooks w))
  /\ canvasRef (hooks (fst (step demoHost w (SettlePage 3 (Resolved 300%positive)))))
     = Some (canvasElement demoHost).
Proof.
  cbv zeta.
  assert (R : rendered (after demoHost (firstn 3 scenarioA)) = Some demoProps)
    by (vm_compute; reflexivity).
  assert (L : live 3 (pageStage (hooks (after demoHost (firstn 3 scenarioA)))) = true)
    by (vm_compute; reflexivity).
  assert (E : 3 = token (pageStage (hooks (after demoHost (firstn 3 scenarioA)))))
    by (vm_compute; reflexivity).
  split; [exact R|]. split; [exact L|]. split; [exact E|].
  exact (proj1 (proj2 (proj2 (proj2
           (@page_arrival_paints_the_page demoHost (firstn 3 scenarioA) 3 300%positive
              demoProps R L E))))).
Defined.

Lemma other_props_restart_nothing_witness :
  let w := after demoHost scenarioA in
  rendered w = Some demoProps
  /\ filter isIssue (snd (step demoHost w (Render freshClosures))) = [].
Proof.
  cbv zeta.
  assert (R : rendered (after demoHost scenarioA) = Some demoProps)
    by (vm_compute; reflexivity).
  split; [exact R|].
  exact (proj2 (proj2 (proj2
           (@other_props_restart_nothing demoHost scenarioA demoProps freshClosures
              R eq_refl eq_refl)))).
Defined.

Lemma same_props_pass_is_a_no_op_witness :
  rendered (after demoHost scenarioA) = Some demoProps
  /\ step demoHost (after demoHost scenarioA) (Render demoProps)
     = (after demoHost scenarioA, []).
Proof.
  assert (R : rendered (after demoHost scenarioA) = Some demoProps)
    by (vm_compute; reflexivity).
  split; [exact R|].
  exact (@same_props_pass_is_a_no_op demoHost scenarioA demoProps R).
Defined.

Lemma scale_change_only_repaints_witness :
  let w := after demoHost scenarioA in
  rendered w = Some demoProps
  /\ Some js_three_halves <> scale demoProps
  /\ pageStage (hooks (fst (step demoHost w
                             (Render (withScale (Some js_three_halves) demoProps)))))
     = pageStage (hooks w).
Proof.
  cbv zeta.
  assert (R : rendered (after demoHost scenarioA) = Some demoProps)
    by (vm_compute; reflexivity).
  assert (N : Some js_three_halves <> scale demoProps) by (simpl; discriminate).
  split; [exact R|]. split; [exact N|].
  exact (proj1 (proj2 (proj2
           (@scale_change_only_repaints demoHost scenarioA demoProps (Some js_three_halves) R N)))).
Defined.

Lemma new_source_starts_over_witness :
  let w := after demoHost scenarioA in
  rendered w = Some demoProps
  /\ source otherSource <> source demoProps
  /\ bufferResult (fst (step demoHost w (Render otherSource))) = Pending.
Proof.
  cbv zeta.
  assert (R : rendered (after demoHost scenarioA) = Some demoProps)
    by (vm_compute; reflexivity).
  assert (N : source otherSource <> source demoProps) by (simpl; discriminate).
  split; [exact R|]. split; [exact N|].
  exact (proj1 (@new_source_starts_over demoHost scenarioA demoProps otherSource R N)).
Defined.

Lemma page_rejection_is_reported_witness :
  let w := after demoHost (firstn 3 scenarioB) in
  rendered w = Some demoProps
  /\ live 3 (pageStage (hooks w)) = true
  /\ 3 = token (pageStage (hooks w))
  /\ pageResult (fst (step demoHost w (SettlePage 3 (Rejected (JSObject 77%positive)))))
     = Failure (JSObject 77%positive).
Proof.
  cbv zeta.
  assert (R : rendered (after demoHost (firstn 3 scenarioB)) = Some demoProps)
    by (vm_compute; reflexivity).
  assert (L : live 3 (pageStage (hooks (after demoHost (firstn 3 scenarioB)))) = true)
    by (vm_compute; reflexivity).
  assert (E : 3 = token (pageStage (hooks (after demoHost (firstn 3 scenarioB)))))
    by (vm_compute; reflexivity).
  split; [exact R|]. split; [exact L|]. split; [exact E|].
  exact (proj1 (proj2 (proj2
           (@page_rejection_is_reported demoHost (firstn 3 scenarioB) 3
              (JSObject 77%positive) demoProps R L E)))).
Defined.

Lemma fetch_rejection_is_reported_witness :
  let w := after demoHost [Render demoProps] in
  rendered w = Some demoProps
  /\ live 1 (bufferStage (hooks w)) = true
  /\ 1 = token (bufferStage (hooks w))
  /\ bufferResult (fst (step demoHost w (SettleBuffer 1 (Rejected (JSObject 77%positive)))))
     = Failure (JSObject 77%positive).
Proof.
  cbv zeta.
  assert (R : rendered (after demoHost [Render demoProps]) = Some demoProps)
    by (vm_compute; reflexivity).
  assert (L : live 1 (bufferStage (hooks (after demoHost [Render demoProps]))) = true)
    by (vm_compute; reflexivity).
  assert (E : 1 = token (bufferStage (hooks (after demoHost [Render demoProps]))))
    by (vm_compute; reflexivity).
  split; [exact R|]. split; [exact L|]. split; [exact E|].
  exact (proj1 (@fetch_rejection_is_reported demoHost [Render demoProps] 1
                  (JSObject 77%positive) demoProps R L E)).
Defined.

Lemma decode_rejection_is_reported_witness :
  let w := after demoHost (firstn 2 scenarioA) in
  rendered w = Some demoProps
  /\ live 2 (documentStage (hooks w)) = true
  /\ 2 = token (documentStage (hooks w))
  /\ documentResult (fst (step demoHost w
                            (SettleDocument 2 (Rejected (JSObject 77%positive)))))
     = Failure (JSObject 77%positive).
Proof.
  cbv zeta.
  assert (R : rendered (after demoHost (firstn 2 scenarioA)) = Some demoProps)
    by (vm_compute; reflexivity).
  assert (L : live 2 (documentStage (hooks (after demoHost (firstn 2 scenarioA)))) = true)
    by (vm_compute; reflexivity).
  assert (E : 2 = token (documentStage (hooks (after demoHost (firstn 2 scenarioA)))))
    by (vm_compute; reflexivity).
  split; [exact R|]. split; [exact L|]. split; [exact E|].
  exact (proj1 (proj2
           (@decode_rejection_is_reported demoHost (firstn 2 scenarioA) 2
              (JSObject 77%positive) demoProps R L E))).
Defined.
